(** * Loki storage monitor and dashboard fixer: shallow embedding

    The development embeds two Python scripts of the repository:

    - [scripts/loki-monitor.py]: the storage monitor (class
      [LokiStorageMonitor]) with its Prometheus registry, the HTTP calls to
      the Loki backend and the polling loop;
    - [fix_dashboard.py]: the one-shot rewriting of Grafana panels.

    Python values are modelled as the interpreter has them: [int] is [Z],
    [float] is an IEEE-754 binary64 value ([spec_float] of the standard
    library), an exception is a constructor of [exn], and a statement that
    may raise returns a [result].  Effects (logging, HTTP requests, gauge
    and counter updates, file writes, sleeping) are recorded in an explicit
    state that is threaded through a state-and-exception monad. *)

From Stdlib Require Import ZArith List String Ascii Bool Lia.
From Stdlib Require Import Floats.SpecFloat.
From Stdlib Require Import Sorting.Permutation.
Import ListNotations.

Set Warnings "-register-all".

Open Scope string_scope.
Open Scope list_scope.
Open Scope Z_scope.

(** ** Python exceptions and results *)

Module Py.

(** The subclasses of [Exception] that the two scripts can meet.
    [KeyboardInterrupt] is a [BaseException] delivered asynchronously by a
    signal; no [except Exception] clause catches it and it is not
    modelled. *)
Inductive exn : Type :=
| ZeroDivisionError
| OverflowError
| ValueError
| TypeError
| AttributeError
| KeyError
| OSError (msg : string)
| RequestException (msg : string).

Inductive result (A : Type) : Type :=
| Ok (a : A)
| Raise (e : exn).

Arguments Ok {A} a.
Arguments Raise {A} e.

End Py.
Export Py.

(** ** Python floats (IEEE-754 binary64) *)

Module PyFloat.

Definition float : Type := spec_float.

Definition prec : Z := 53.
Definition emax : Z := 1024.

(** [x * y] on two floats: the IEEE product; an overflow gives an
    infinity, never an exception. *)
Definition mul (x y : float) : float := SFmul prec emax x y.

(** Nearest integer to [n / d] ([0 <= n], [0 < d]), ties to even. *)
Definition rne (n d : Z) : Z :=
  let q := n / d in
  match 2 * (n mod d) ?= d with
  | Lt => q
  | Gt => q + 1
  | Eq => if Z.even q then q else q + 1
  end.

(** [x * 2^e] for [0 <= e], and [x] otherwise. *)
Definition scale_up (x e : Z) : Z := x * 2 ^ Z.max 0 e.

(** [floor (log2 (a / b))] for [0 < a] and [0 < b]. *)
Definition ilog2_quot (a b : Z) : Z :=
  let l := Z.log2 a - Z.log2 b in
  if scale_up b l <=? scale_up a (- l) then l else l - 1.

(** The binary64 value nearest to [a / b] ([0 <= a], [0 < b]) with sign
    [s]: 53 significant bits, ties to even, gradual underflow below
    [2^-1022], an infinity from [2^1024] on. *)
Definition round_quot (s : bool) (a b : Z) : float :=
  let e := Z.max (ilog2_quot a b - 52) (-1074) in
  let m := rne (scale_up a (- e)) (scale_up b e) in
  let '(m, e) := if m =? 2 ^ 53 then (2 ^ 52, e + 1) else (m, e) in
  match m with
  | Zpos p => if e <=? 971 then S754_finite s p e else S754_infinity s
  | _ => S754_zero s
  end.

Definition is_infinity (x : float) : bool :=
  match x with S754_infinity _ => true | _ => false end.

(** [a / b] on two ints ([long_true_divide]): the correctly rounded
    quotient; [ZeroDivisionError] for a zero divisor and [OverflowError]
    when the quotient is too large for a float. *)
Definition truediv (a b : Z) : result float :=
  if b =? 0 then Raise ZeroDivisionError
  else
    let x := round_quot (xorb (a <? 0) (b <? 0)) (Z.abs a) (Z.abs b) in
    if is_infinity x then Raise OverflowError else Ok x.

(** [float(n)] on an int: nearest float, [OverflowError] when too large. *)
Definition of_int (n : Z) : result float :=
  let x := round_quot (n <? 0) (Z.abs n) 1 in
  if is_infinity x then Raise OverflowError else Ok x.

(** [int(x)]: truncation toward zero; [OverflowError] on an infinity and
    [ValueError] on a NaN. *)
Definition to_int (x : float) : result Z :=
  match x with
  | S754_zero _ => Ok 0
  | S754_infinity _ => Raise OverflowError
  | S754_nan => Raise ValueError
  | S754_finite s m e =>
      let t := scale_up (Zpos m) e / 2 ^ Z.max 0 (- e) in
      Ok (if s then - t else t)
  end.

(** [x * n] with a float on the left and an int on the right: the int is
    converted first. *)
Definition mul_int (x : float) (n : Z) : result float :=
  match of_int n with
  | Ok y => Ok (mul x y)
  | Raise e => Raise e
  end.

(** [round(x, ndigits)] for [0 <= ndigits]: the exact value of [x] is
    rounded to [ndigits] decimals (ties to even) and the decimal result is
    converted back to the nearest float; zeros, infinities and NaN are
    returned unchanged. *)
Definition round (x : float) (ndigits : nat) : float :=
  match x with
  | S754_finite s m e =>
      let k :=
        rne (scale_up (Zpos m * 10 ^ Z.of_nat ndigits) e)
          (2 ^ Z.max 0 (- e)) in
      round_quot s k (10 ^ Z.of_nat ndigits)
  | _ => x
  end.

Definition zero : float := S754_zero false.

(** The text of [format(x, '.2f')], by what it shows: for a finite [x]
    the sign and the count of hundredths nearest to the exact value of
    [x] (ties to even), printed with two decimals; [inf] and [nan] with
    their sign otherwise.  [format(-0.001, '.2f')] is [-0.00]: the sign is
    the one of [x], also when no hundredth is left. *)
Inductive fixed2 : Type :=
| Hundredths (negative : bool) (count : Z)
| TextInf (negative : bool)
| TextNan.

Definition format_2f (x : float) : fixed2 :=
  match x with
  | S754_zero s => Hundredths s 0
  | S754_infinity s => TextInf s
  | S754_nan => TextNan
  | S754_finite s m e =>
      Hundredths s (rne (scale_up (Zpos m * 100) e) (2 ^ Z.max 0 (- e)))
  end.

End PyFloat.

(** ** The storage monitor ([scripts/loki-monitor.py]) *)

Module Monitor.
Import PyFloat.

(** *** Configuration: the module-level constants read from the
    environment when the script is loaded. *)
Record config : Type := {
  LOKI_DATA_DIR : string;
  MAX_SIZE_GB : float;
  CLEANUP_THRESHOLD_PERCENT : Z;
  CHECK_INTERVAL : Z;
  LOKI_API_URL : string;
  METRICS_OUTPUT_DIR : string;
  METRICS_PORT : Z
}.

(** A Python number that is either an [int] or a [float]:
    [usage_percent] is a float when the maximum is positive and the int
    [0] otherwise. *)
Inductive number : Type :=
| Int (n : Z)
| Float (x : float).

(** [float(value)], as [Gauge.set] applies it to its argument. *)
Definition to_float (v : number) : result float :=
  match v with
  | Int n => of_int n
  | Float x => Ok x
  end.

(** *** Time.  A naive [datetime] is the count of microseconds since
    [datetime.min]; [strftime('%Y-%m-%dT%H:%M:%SZ')] renders the date down
    to the second and drops the microseconds: the rendered text is kept as
    the count of whole seconds it names. *)
Definition datetime : Type := Z.

Definition timedelta (days : Z) : Z := days * 86400 * 1000000.

Definition strftime (t : datetime) : Z := t / 1000000.

(** *** The process-wide registry of Prometheus metrics. *)
Inductive gauge : Type :=
| g_data_size_bytes
| g_data_size_gb
| g_max_size_bytes
| g_usage_percent.

Inductive counter : Type :=
| c_cleanup_operations
| c_cleanup_errors.

(** The four gauges hold floats.  The two counters start at zero and
    only grow by [inc()], one at a time: their values are whole numbers
    and are kept as ints. *)
Record registry : Type := {
  loki_data_size_bytes : float;
  loki_data_size_gb : float;
  loki_max_size_bytes : float;
  loki_usage_percent : float;
  loki_cleanup_operations : Z;
  loki_cleanup_errors : Z
}.

Definition registry_set (g : gauge) (x : float) (r : registry) : registry :=
  match g with
  | g_data_size_bytes =>
      {| loki_data_size_bytes := x;
         loki_data_size_gb := loki_data_size_gb r;
         loki_max_size_bytes := loki_max_size_bytes r;
         loki_usage_percent := loki_usage_percent r;
         loki_cleanup_operations := loki_cleanup_operations r;
         loki_cleanup_errors := loki_cleanup_errors r |}
  | g_data_size_gb =>
      {| loki_data_size_bytes := loki_data_size_bytes r;
         loki_data_size_gb := x;
         loki_max_size_bytes := loki_max_size_bytes r;
         loki_usage_percent := loki_usage_percent r;
         loki_cleanup_operations := loki_cleanup_operations r;
         loki_cleanup_errors := loki_cleanup_errors r |}
  | g_max_size_bytes =>
      {| loki_data_size_bytes := loki_data_size_bytes r;
         loki_data_size_gb := loki_data_size_gb r;
         loki_max_size_bytes := x;
         loki_usage_percent := loki_usage_percent r;
         loki_cleanup_operations := loki_cleanup_operations r;
         loki_cleanup_errors := loki_cleanup_errors r |}
  | g_usage_percent =>
      {| loki_data_size_bytes := loki_data_size_bytes r;
         loki_data_size_gb := loki_data_size_gb r;
         loki_max_size_bytes := loki_max_size_bytes r;
         loki_usage_percent := x;
         loki_cleanup_operations := loki_cleanup_operations r;
         loki_cleanup_errors := loki_cleanup_errors r |}
  end.

Definition registry_inc (c : counter) (r : registry) : registry :=
  match c with
  | c_cleanup_operations =>
      {| loki_data_size_bytes := loki_data_size_bytes r;
         loki_data_size_gb := loki_data_size_gb r;
         loki_max_size_bytes := loki_max_size_bytes r;
         loki_usage_percent := loki_usage_percent r;
         loki_cleanup_operations := loki_cleanup_operations r + 1;
         loki_cleanup_errors := loki_cleanup_errors r |}
  | c_cleanup_errors =>
      {| loki_data_size_bytes := loki_data_size_bytes r;
         loki_data_size_gb := loki_data_size_gb r;
         loki_max_size_bytes := loki_max_size_bytes r;
         loki_usage_percent := loki_usage_percent r;
         loki_cleanup_operations := loki_cleanup_operations r;
         loki_cleanup_errors := loki_cleanup_errors r + 1 |}
  end.

(** *** Observable effects *)

Record cleanup_payload : Type := {
  query : string;
  start : Z;
  end_ : Z
}.

(** A [pathlib.Path], by the way the script makes it: [Path(text)], and
    [parent / name].  The text that pathlib gives to the path (no doubled
    and no trailing slash, [name] alone below [Path('')]) is not
    computed: two paths are the same here when they are made in the same
    way. *)
Inductive path : Type :=
| Path (text : string)
| Join (parent : path) (name : string).

Fixpoint path_eqb (p q : path) : bool :=
  match p, q with
  | Path s, Path t => (s =? t)%string
  | Join p' n, Join q' m => path_eqb p' q' && (n =? m)%string
  | _, _ => false
  end.

(** The text of [loki_metrics.prom], by the four values that the
    f-string puts into it: the two counts of bytes as ints, the size in
    GB as the float, and the usage formatted with [:.2f]; the HELP and
    TYPE lines around them are constant. *)
Record metrics_content : Type := {
  content_data_size_bytes : Z;
  content_data_size_gb : float;
  content_max_size_bytes : Z;
  content_usage_percent : fixed2
}.

(** [f"{v:.2f}"] on an int or a float: an int is converted to a float
    first. *)
Definition format_number_2f (v : number) : result fixed2 :=
  match to_float v with
  | Ok x => Ok (format_2f x)
  | Raise e => Raise e
  end.

Inductive level : Type := DEBUG | INFO | WARNING | ERROR.

(** A call of the logger, by the values that go into its text.  A
    percentage is kept as the number that the text shows with one
    decimal ([:.1f]). *)
Inductive message : Type :=
| MetricsDirectoryVerified (dir : string)
| CannotWriteMetricsDirectory (dir : string) (e : exn)
| UsingFallbackDirectory (dir : string)
| Initialized
| DataDirectory (dir : string)
| MaxSize (gb : float)
| CleanupThreshold (percent : Z)
| ErrorCalculatingDirectorySize (e : exn)
| HealthCheckFailed (e : exn)
| NotHealthySkippingCleanup
| TriggeringCleanup (start_date end_date : datetime)
| CleanupApiResponse (status_code : Z)
| CompactionTriggered (status_code : Z)
| CompactionTriggerFailed (e : exn)
| CleanupFailedStatus (status_code : Z) (text : string)
| ErrorDuringCleanup (e : exn)
| MetricsUpdated (gb : float) (percent : number)
| ErrorSavingMetricsFile (e : exn)
| StartingLoop
| CurrentSize (gb : float) (percent : number)
| ThresholdExceeded (gb threshold_gb : float)
| CleanupCompleted
| CleanupFailed
| WithinLimits
| ErrorInMonitoringLoop (e : exn).

(** What the process does to the outside, in the order it does it.
    [HttpGet], [HttpPost], [WriteFile], [MkDir], [WriteText] and [Unlink]
    record the call, before its outcome is known: the environment
    decides whether it succeeds, and a [WriteFile] that fails may leave
    the file empty or cut short.  [WriteFile] is the
    [open(p, 'w')] and [write] of the metrics file, [WriteText] the
    [write_text] and [Unlink] the [unlink] of the probe file of the
    constructor.  [Sleep] is a sleep that [time.sleep] has accepted. *)
Inductive event : Type :=
| Log (l : level) (m : message)
| HttpGet (url : string) (timeout : Z)
| HttpPost (url : string) (json : option cleanup_payload) (timeout : Z)
| GaugeSet (g : gauge) (x : float)
| CounterInc (c : counter)
| WriteFile (p : path) (content : metrics_content)
| MkDir (p : path)
| WriteText (p : path) (text : string)
| Unlink (p : path)
| Sleep (seconds : Z).

(** *** The monitor object and the state of the process *)

(** The two directories are [Path] objects, kept as the text they are
    made from: [data_dir] stands for [Path(data_dir)]. *)
Record LokiStorageMonitor : Type := {
  data_dir : string;
  max_size_bytes : Z;
  threshold_bytes : Z;
  metrics_dir : string
}.

Record state : Type := {
  self : LokiStorageMonitor;
  metrics : registry;
  trace : list event
}.

(** *** Statements: a state transformer that returns or raises *)

Definition M (A : Type) : Type := state -> result A * state.

Definition ret {A : Type} (a : A) : M A := fun s => (Ok a, s).

Definition raise {A : Type} (e : exn) : M A := fun s => (Raise e, s).

Definition bind {A B : Type} (m : M A) (k : A -> M B) : M B :=
  fun s =>
    match m s with
    | (Ok a, s') => k a s'
    | (Raise e, s') => (Raise e, s')
    end.

(** [try: m except Exception as e: h e]; the effects of [m] up to the
    exception are kept. *)
Definition try_except {A : Type} (m : M A) (h : exn -> M A) : M A :=
  fun s =>
    match m s with
    | (Ok a, s') => (Ok a, s')
    | (Raise e, s') => h e s'
    end.

Definition lift {A : Type} (r : result A) : M A := fun s => (r, s).

Declare Scope py_scope.
Delimit Scope py_scope with py.

Notation "x <- c1 ;; c2" := (bind c1 (fun x => c2))
  (at level 61, c1 at next level, right associativity) : py_scope.
Notation "c1 ;; c2" := (bind c1 (fun _ => c2))
  (at level 61, right associativity) : py_scope.

Open Scope py_scope.

Definition get_self : M LokiStorageMonitor := fun s => (Ok (self s), s).

Definition set_self (m : LokiStorageMonitor) : M unit :=
  fun s => (Ok tt, {| self := m; metrics := metrics s; trace := trace s |}).

Definition emit (ev : event) : M unit :=
  fun s =>
    (Ok tt,
     {| self := self s; metrics := metrics s; trace := trace s ++ [ev] |}).

Definition log (l : level) (m : message) : M unit := emit (Log l m).

(** [gauge.set(value)] *)
Definition gauge_set (g : gauge) (v : number) : M unit :=
  x <- lift (to_float v) ;;
  (fun s =>
     (Ok tt,
      {| self := self s;
         metrics := registry_set g x (metrics s);
         trace := trace s |})) ;;
  emit (GaugeSet g x).

(** [counter.inc()] *)
Definition counter_inc (c : counter) : M unit :=
  (fun s =>
     (Ok tt,
      {| self := self s;
         metrics := registry_inc c (metrics s);
         trace := trace s |})) ;;
  emit (CounterInc c).

(** The longest sleep in seconds: [time.sleep] converts its argument to
    a signed 64-bit count of nanoseconds. *)
Definition max_sleep : Z := 9223372036.

(** [time.sleep(seconds)] on an int: a length whose count of nanoseconds
    does not fit 64 bits is an [OverflowError], on either side of zero;
    another negative length is a [ValueError]. *)
Definition sleep (seconds : Z) : M unit :=
  if (seconds <? - max_sleep) || (max_sleep <? seconds) then
    raise OverflowError
  else if seconds <? 0 then raise ValueError
  else emit (Sleep seconds).

(** *** What the outside world answers *)

Inductive http_outcome : Type :=
| Response (status_code : Z) (text : string)
| Failure (e : exn).

Definition requests_get (url : string) (timeout : Z) (o : http_outcome)
  : M (Z * string) :=
  emit (HttpGet url timeout) ;;
  match o with
  | Response c t => ret (c, t)
  | Failure e => raise e
  end.

Definition requests_post (url : string) (json : option cleanup_payload)
  (timeout : Z) (o : http_outcome) : M (Z * string) :=
  emit (HttpPost url json timeout) ;;
  match o with
  | Response c t => ret (c, t)
  | Failure e => raise e
  end.

(** One path yielded by [rglob('*')]: what [is_file()] and
    [stat().st_size] answer for it. *)
Record dirent : Type := {
  is_file : result bool;
  st_size : result Z
}.

(** The run of the generator [data_dir.rglob('*')]: it yields paths and
    then stops, normally or with an exception. *)
Inductive walk : Type :=
| WEnd
| WRaise (e : exn)
| WYield (p : dirent) (rest : walk).

(** A directory tree on disk.  [RegularFile] is a regular file with its
    size.  [LinkToFile] is a symbolic link that resolves to a regular
    file, anywhere on disk, with the size of that file: [is_file()] and
    [stat()] follow links.  [Directory] is a directory with the size of
    its own inode and its entries.  [Special] is anything else: socket,
    fifo, device, dangling link, link to a directory (which [rglob]
    yields and does not enter). *)
Inductive fsnode : Type :=
| RegularFile (size : Z)
| LinkToFile (target_size : Z)
| Directory (own_size : Z) (entries : list fsnode)
| Special (own_size : Z).

(** Every path below a directory, as [rglob('*')] yields them: the
    entries of the directory, then what lies below each of them. *)
Fixpoint descendants (n : fsnode) : list fsnode :=
  match n with
  | Directory _ entries => entries ++ flat_map descendants entries
  | _ => []
  end.

Definition dirent_of (n : fsnode) : dirent :=
  match n with
  | RegularFile size => {| is_file := Ok true; st_size := Ok size |}
  | LinkToFile target_size =>
      {| is_file := Ok true; st_size := Ok target_size |}
  | Directory own_size _ => {| is_file := Ok false; st_size := Ok own_size |}
  | Special own_size => {| is_file := Ok false; st_size := Ok own_size |}
  end.

(** The run of [rglob('*')] over a tree that stays readable and unchanged
    during the scan. *)
Definition rglob (root : fsnode) : walk :=
  fold_right WYield WEnd (map dirent_of (descendants root)).



Definition sum (l : list Z) : Z := fold_right Z.add 0 l.

(** The answers of the environment during one cycle of the loop; an
    answer is only looked at when the code asks for it.  [env_write] is
    the exception of the [open] or of the [write] of the metrics file
    when one of them fails. *)
Record cycle_env : Type := {
  env_rglob : walk;
  env_write : option exn;
  env_ready : http_outcome;
  env_now_end : datetime;
  env_now_start : datetime;
  env_delete : http_outcome;
  env_compactor : http_outcome
}.

(** The three steps of the probe of the metrics directory. *)
Inductive probe_step : Type :=
| AtMkdir
| AtWriteText
| AtUnlink.

(** The answers of the environment while the monitor is constructed: the
    step of the probe of the configured directory that fails, with its
    exception, when one does, and the outcome of the mkdir of the
    fallback directory. *)
Record init_env : Type := {
  env_probe : option (probe_step * exn);
  env_fallback_mkdir : option exn
}.

(** *** The methods of [LokiStorageMonitor] *)

Section Methods.

Variable cfg : config.

Definition update_self (f : LokiStorageMonitor -> LokiStorageMonitor)
  : M unit :=
  m <- get_self ;; set_self (f m).

Definition set_data_dir (v : string) : M unit :=
  update_self (fun m =>
    {| data_dir := v; max_size_bytes := max_size_bytes m;
       threshold_bytes := threshold_bytes m;
       metrics_dir := metrics_dir m |}).

Definition set_max_size_bytes (v : Z) : M unit :=
  update_self (fun m =>
    {| data_dir := data_dir m; max_size_bytes := v;
       threshold_bytes := threshold_bytes m;
       metrics_dir := metrics_dir m |}).

Definition set_threshold_bytes (v : Z) : M unit :=
  update_self (fun m =>
    {| data_dir := data_dir m; max_size_bytes := max_size_bytes m;
       threshold_bytes := v; metrics_dir := metrics_dir m |}).

Definition set_metrics_dir (v : string) : M unit :=
  update_self (fun m =>
    {| data_dir := data_dir m; max_size_bytes := max_size_bytes m;
       threshold_bytes := threshold_bytes m; metrics_dir := v |}).

(** [p.mkdir(parents=True, exist_ok=True)] *)
Definition mkdir (p : path) (outcome : option exn) : M unit :=
  emit (MkDir p) ;;
  match outcome with
  | None => ret tt
  | Some e => raise e
  end.

(** The exception of a step of the probe, when it is the one that
    fails. *)
Definition fails_at (step : probe_step) (outcome : option (probe_step * exn))
  : option exn :=
  match outcome, step with
  | Some (AtMkdir, e), AtMkdir
  | Some (AtWriteText, e), AtWriteText
  | Some (AtUnlink, e), AtUnlink => Some e
  | _, _ => None
  end.

(** The probe of the metrics directory: the mkdir, then the write and
    the removal of [test_write.tmp] in it. *)
Definition probe (dir : path) (outcome : option (probe_step * exn))
  : M unit :=
  mkdir dir (fails_at AtMkdir outcome) ;;
  let test_file := Join dir "test_write.tmp" in
  emit (WriteText test_file "test") ;;
  match fails_at AtWriteText outcome with
  | None => ret tt
  | Some e => raise e
  end ;;
  emit (Unlink test_file) ;;
  match fails_at AtUnlink outcome with
  | None => ret tt
  | Some e => raise e
  end.

Definition fallback_metrics_dir : string := "/tmp/loki_metrics".

Definition __init__ (env : init_env) : M unit :=
  set_data_dir (LOKI_DATA_DIR cfg) ;;
  x1 <- lift (mul_int (MAX_SIZE_GB cfg) 1024) ;;
  x2 <- lift (mul_int x1 1024) ;;
  x3 <- lift (mul_int x2 1024) ;;
  max <- lift (to_int x3) ;;
  set_max_size_bytes max ;;
  m <- get_self ;;
  q <- lift (truediv (max_size_bytes m * CLEANUP_THRESHOLD_PERCENT cfg)
               100) ;;
  thr <- lift (to_int q) ;;
  set_threshold_bytes thr ;;
  set_metrics_dir (METRICS_OUTPUT_DIR cfg) ;;
  try_except
    (m <- get_self ;;
     probe (Path (metrics_dir m)) (env_probe env) ;;
     log INFO (MetricsDirectoryVerified (metrics_dir m)))
    (fun e =>
       m <- get_self ;;
       log ERROR (CannotWriteMetricsDirectory (metrics_dir m) e) ;;
       set_metrics_dir fallback_metrics_dir ;;
       mkdir (Path fallback_metrics_dir) (env_fallback_mkdir env) ;;
       log INFO (UsingFallbackDirectory fallback_metrics_dir)) ;;
  log INFO Initialized ;;
  m <- get_self ;;
  log INFO (DataDirectory (data_dir m)) ;;
  log INFO (MaxSize (MAX_SIZE_GB cfg)) ;;
  log INFO (CleanupThreshold (CLEANUP_THRESHOLD_PERCENT cfg)).

(** The body of the [try] of [get_directory_size]: the loop over the
    generator, with the running total. *)
Fixpoint sum_files (w : walk) (total_size : Z) : result Z :=
  match w with
  | WEnd => Ok total_size
  | WRaise e => Raise e
  | WYield p rest =>
      match is_file p with
      | Raise e => Raise e
      | Ok false => sum_files rest total_size
      | Ok true =>
          match st_size p with
          | Raise e => Raise e
          | Ok n => sum_files rest (total_size + n)
          end
      end
  end.

Definition get_directory_size (w : walk) : M Z :=
  try_except
    (lift (sum_files w 0))
    (fun e => log ERROR (ErrorCalculatingDirectorySize e) ;; ret 0).

Definition bytes_to_gb (bytes_value : Z) : result float :=
  match truediv bytes_value (1024 * 1024 * 1024) with
  | Ok x => Ok (round x 2)
  | Raise e => Raise e
  end.

Definition is_loki_healthy (env : cycle_env) : M bool :=
  try_except
    (response <- requests_get (LOKI_API_URL cfg ++ "/ready") 10
                   (env_ready env) ;;
     ret (fst response =? 200))
    (fun e => log WARNING (HealthCheckFailed e) ;; ret false).

(** The one-character string made of a double quote. *)
Definition dquote : string := String (ascii_of_nat 34) EmptyString.

Definition acceptable_status (status_code : Z) : bool :=
  existsb (Z.eqb status_code) [200; 202; 204].

Definition trigger_cleanup (env : cycle_env) : M bool :=
  try_except
    (healthy <- is_loki_healthy env ;;
     if negb healthy then
       log ERROR NotHealthySkippingCleanup ;;
       ret false
     else
       let end_date := env_now_end env - timedelta 3 in
       let start_date := env_now_start env - timedelta 7 in
       let cleanup_payload :=
         {| query := "{job=" ++ dquote ++ "container_monitoring"
                       ++ dquote ++ "}";
            start := strftime start_date;
            end_ := strftime end_date |} in
       log INFO (TriggeringCleanup start_date end_date) ;;
       cleanup_response <-
         requests_post (LOKI_API_URL cfg ++ "/loki/api/v1/delete")
           (Some cleanup_payload) 30 (env_delete env) ;;
       if acceptable_status (fst cleanup_response) then
         log INFO (CleanupApiResponse (fst cleanup_response)) ;;
         try_except
           (compaction_response <-
              requests_post (LOKI_API_URL cfg ++ "/compactor/ring")
                None 30 (env_compactor env) ;;
            log INFO (CompactionTriggered (fst compaction_response)))
           (fun e => log WARNING (CompactionTriggerFailed e)) ;;
         counter_inc c_cleanup_operations ;;
         ret true
       else
         log ERROR (CleanupFailedStatus (fst cleanup_response)
                      (snd cleanup_response)) ;;
         counter_inc c_cleanup_errors ;;
         ret false)
    (fun e =>
       log ERROR (ErrorDuringCleanup e) ;;
       counter_inc c_cleanup_errors ;;
       ret false).

(** [(current_size_bytes / self.max_size_bytes) * 100
     if self.max_size_bytes > 0 else 0] *)
Definition usage_percent_of (current_size_bytes max : Z) : result number :=
  if max >? 0 then
    match truediv current_size_bytes max with
    | Ok q =>
        match mul_int q 100 with
        | Ok p => Ok (Float p)
        | Raise e => Raise e
        end
    | Raise e => Raise e
    end
  else Ok (Int 0).

(** [update_metrics(current_size_bytes)]: the four gauges are set, then
    the text of the file is made, then the file is written inside the
    [try]. *)
Definition update_metrics (current_size_bytes : Z) (env : cycle_env)
  : M unit :=
  current_size_gb <- lift (bytes_to_gb current_size_bytes) ;;
  m <- get_self ;;
  usage_percent <-
    lift (usage_percent_of current_size_bytes (max_size_bytes m)) ;;
  gauge_set g_data_size_bytes (Int current_size_bytes) ;;
  gauge_set g_data_size_gb (Float current_size_gb) ;;
  m <- get_self ;;
  gauge_set g_max_size_bytes (Int (max_size_bytes m)) ;;
  gauge_set g_usage_percent usage_percent ;;
  m <- get_self ;;
  usage_text <- lift (format_number_2f usage_percent) ;;
  let content :=
    {| content_data_size_bytes := current_size_bytes;
       content_data_size_gb := current_size_gb;
       content_max_size_bytes := max_size_bytes m;
       content_usage_percent := usage_text |} in
  try_except
    (m <- get_self ;;
     let metrics_file := Join (Path (metrics_dir m)) "loki_metrics.prom" in
     emit (WriteFile metrics_file content) ;;
     match env_write env with
     | None => ret tt
     | Some e => raise e
     end ;;
     log DEBUG (MetricsUpdated current_size_gb usage_percent))
    (fun e => log ERROR (ErrorSavingMetricsFile e)).

(** The body of the [try] inside the [while True] of [monitor_loop]. *)
Definition iteration (env : cycle_env) : M unit :=
  current_size_bytes <- get_directory_size (env_rglob env) ;;
  current_size_gb <- lift (bytes_to_gb current_size_bytes) ;;
  m <- get_self ;;
  usage_percent <-
    lift (usage_percent_of current_size_bytes (max_size_bytes m)) ;;
  log INFO (CurrentSize current_size_gb usage_percent) ;;
  update_metrics current_size_bytes env ;;
  m <- get_self ;;
  if current_size_bytes >? threshold_bytes m then
    threshold_gb <- lift (bytes_to_gb (threshold_bytes m)) ;;
    log WARNING (ThresholdExceeded current_size_gb threshold_gb) ;;
    cleaned <- trigger_cleanup env ;;
    if cleaned then
      log INFO CleanupCompleted ;;
      sleep 60
    else
      log ERROR CleanupFailed
  else
    log INFO WithinLimits.

(** One turn of the [while True]: the [try] with its handler, then the
    sleep until the next check, which is outside of the [try]. *)
Definition cycle (env : cycle_env) : M unit :=
  try_except
    (iteration env)
    (fun e => log ERROR (ErrorInMonitoringLoop e)) ;;
  sleep (CHECK_INTERVAL cfg).

(** The first [fuel] turns of the loop against the answers [envs i] of
    the environment at turn [i].  [Ok tt] says that the loop has done
    these turns and goes on; [Raise e] that an exception has left the
    loop. *)
Fixpoint turns (fuel : nat) (envs : nat -> cycle_env) (i : nat)
  : M unit :=
  match fuel with
  | O => ret tt
  | S fuel' => cycle (envs i) ;; turns fuel' envs (S i)
  end.

Definition monitor_loop (fuel : nat) (envs : nat -> cycle_env) : M unit :=
  log INFO StartingLoop ;;
  turns fuel envs O.

End Methods.

(** *** The entry point [main()] *)

Inductive main_message : Type :=
| MetricsServerStarted (port : Z)
| FatalError (e : exn).

(** What the process does, [main] included: the start of the metrics
    server, the log entries of [main], the events of the monitor, and the
    exit of the process with a status. *)
Inductive main_event : Type :=
| StartHttpServer (port : Z)
| MainLog (l : level) (m : main_message)
| Inner (ev : event)
| Exit (status : Z).

(** The answers of the environment to [main]: the outcome of binding the
    metrics port, of the construction of the monitor, and of every turn of
    the loop. *)
Record main_env : Type := {
  env_server : option exn;
  env_init : init_env;
  env_cycles : nat -> cycle_env
}.

(** The process when [main] is entered: the registry of the module, a
    monitor object that is not constructed yet, nothing done. *)
Definition before_init (r : registry) : state :=
  {| self :=
       {| data_dir := EmptyString; max_size_bytes := 0;
          threshold_bytes := 0; metrics_dir := EmptyString |};
     metrics := r;
     trace := [] |}.

(** A run of [main]: what the process did, in order, the status it exited
    with when it exited, and the state it reached. *)
Record execution : Type := {
  events : list main_event;
  exit_status : option Z;
  final : state
}.

(** [main()] for the first [fuel] turns of the loop.  The handler
    [except Exception] logs the error and calls [exit(1)]; without an
    exception the loop is still running when the fuel is used up, and
    there is no exit status.  The interruption from the keyboard, which
    is no [Exception], is not part of the environment. *)
Definition main (cfg : config) (fuel : nat) (env : main_env) (r : registry)
  : execution :=
  let port := METRICS_PORT cfg in
  match env_server env with
  | Some e =>
      {| events :=
           [StartHttpServer port; MainLog ERROR (FatalError e); Exit 1];
         exit_status := Some 1;
         final := before_init r |}
  | None =>
      let started :=
        [StartHttpServer port; MainLog INFO (MetricsServerStarted port)] in
      match bind (__init__ cfg (env_init env))
              (fun _ => monitor_loop cfg fuel (env_cycles env))
              (before_init r)
      with
      | (Ok _, st) =>
          {| events := started ++ map Inner (trace st);
             exit_status := None;
             final := st |}
      | (Raise e, st) =>
          {| events :=
               started ++ map Inner (trace st)
               ++ [MainLog ERROR (FatalError e); Exit 1];
             exit_status := Some 1;
             final := st |}
      end
  end.

End Monitor.

(** ** The dashboard fixer ([fix_dashboard.py]) *)

Module Dashboard.

(** What [json.load] returns: [None], [bool], [int], [float], [str],
    [list], and [dict] with its keys in insertion order.  The value is a
    tree: no list or dict occurs in it twice, so the updates that the
    script makes in place ([panel['targets'] = ...]) are the updates of the
    tree that is returned. *)
Inductive json : Type :=
| JNull
| JBool (b : bool)
| JInt (n : Z)
| JFloat (x : PyFloat.float)
| JString (s : string)
| JArray (items : list json)
| JObject (members : list (string * json)).

Definition dict : Type := list (string * json).

(** [d.get(key)] *)
Fixpoint dict_get (key : string) (d : dict) : option json :=
  match d with
  | [] => None
  | (k, v) :: rest => if k =? key then Some v else dict_get key rest
  end%string.

(** [key in d] *)
Definition dict_mem (key : string) (d : dict) : bool :=
  match dict_get key d with Some _ => true | None => false end.

(** [d[key] = value]: an existing key keeps its place, a new key goes to
    the end. *)
Fixpoint dict_set (key : string) (value : json) (d : dict) : dict :=
  match d with
  | [] => [(key, value)]
  | (k, v) :: rest =>
      if (k =? key)%string then (k, value) :: rest
      else (k, v) :: dict_set key value rest
  end.

Section Combinators.

Context {A B : Type}.
Variable f : A -> result B.

(** A [for] loop that appends [f x] for every [x] and stops at the
    first exception. *)
Fixpoint map_result (l : list A) : result (list B) :=
  match l with
  | [] => Ok []
  | x :: rest =>
      match f x with
      | Raise e => Raise e
      | Ok y =>
          match map_result rest with
          | Raise e => Raise e
          | Ok ys => Ok (y :: ys)
          end
      end
  end.

End Combinators.

Section DictApply.

Variable key : string.
Variable f : json -> result json.

(** [d[key] = f(d[key])]; reading a key that is not in [d] is a
    [KeyError]. *)
Fixpoint dict_apply (d : dict) : result dict :=
  match d with
  | [] => Raise KeyError
  | (k, v) :: rest =>
      if (k =? key)%string then
        match f v with
        | Raise e => Raise e
        | Ok v' => Ok ((k, v') :: rest)
        end
      else
        match dict_apply rest with
        | Raise e => Raise e
        | Ok rest' => Ok ((k, v) :: rest')
        end
  end.

End DictApply.

(** *** Strings *)

(** [needle in haystack] *)
Fixpoint contains (needle haystack : string) : bool :=
  String.prefix needle haystack
  || match haystack with
     | EmptyString => false
     | String _ rest => contains needle rest
     end.

(** A [str] is kept as the bytes of its UTF-8 encoding, in which [in]
    (one string occurring in another) is the same test as on code points.
    [str.strip()] removes the whitespace characters; those below 128 are
    the ones of [is_space].  It also removes whitespace beyond ASCII
    (no-break space, the Unicode spaces), which the model leaves in place:
    the script only asks whether the stripped expression is empty and
    whether it contains the name of a metric, and a name contains no
    whitespace, so a string of whitespace is dropped either way. *)
Definition is_space (c : ascii) : bool :=
  let n := Z.of_nat (nat_of_ascii c) in
  ((9 <=? n) && (n <=? 13)) || ((28 <=? n) && (n <=? 32)).

Fixpoint lstrip (s : string) : string :=
  match s with
  | EmptyString => EmptyString
  | String c rest => if is_space c then lstrip rest else s
  end.

Fixpoint rstrip (s : string) : string :=
  match s with
  | EmptyString => EmptyString
  | String c rest =>
      match rstrip rest with
      | EmptyString => if is_space c then EmptyString else String c EmptyString
      | rest' => String c rest'
      end
  end.

Definition strip (s : string) : string := rstrip (lstrip s).

(** *** The script *)

Definition AVAILABLE_METRICS : list string :=
  [ "active_tasks";
    "containers_monitored";
    "cpu_usage_percent";
    "dispatcher_queue_utilization";
    "files_monitored";
    "goroutines";
    "logs_per_second";
    "logs_processed_total";
    "logs_sent_total";
    "memory_usage_bytes";
    "processing_duration_seconds_bucket";
    "processing_duration_seconds_count";
    "processing_duration_seconds_sum";
    "processing_step_duration_seconds_bucket";
    "processing_step_duration_seconds_count";
    "processing_step_duration_seconds_sum";
    "queue_size";
    "sink_queue_utilization";
    "sink_send_duration_seconds_bucket";
    "sink_send_duration_seconds_count";
    "sink_send_duration_seconds_sum";
    "gc_runs_total";
    "go_memstats_alloc_bytes";
    "go_memstats_sys_bytes";
    "go_goroutines";
    "process_cpu_seconds_total";
    "up" ].

Definition newline : string := String (ascii_of_nat 10) EmptyString.

(** The text appended to the description of a panel left without
    target. *)
Definition NOTE : string :=
  newline ++ newline
  ++ "⚠️ NOTA: Este painel não tem métricas disponíveis no momento. "
  ++ "As métricas necessárias ainda não foram implementadas.".

(** The values a [for] loop goes through: the items of a list, the keys
    of a dict, the characters of a str; the other values are not
    iterable. *)
Fixpoint characters (s : string) : list json :=
  match s with
  | EmptyString => []
  | String c rest => JString (String c EmptyString) :: characters rest
  end.

Definition py_iter (v : json) : result (list json) :=
  match v with
  | JArray items => Ok items
  | JObject members => Ok (map (fun kv => JString (fst kv)) members)
  | JString s => Ok (characters s)
  | _ => Raise TypeError
  end.

(** [target.get('expr', '').strip()] *)
Definition target_expr (target : json) : result string :=
  match target with
  | JObject d =>
      match dict_get "expr" d with
      | None => Ok (strip EmptyString)
      | Some (JString s) => Ok (strip s)
      | Some _ => Raise AttributeError
      end
  | _ => Raise AttributeError
  end.

Definition uses_available_metric (expr : string) : bool :=
  existsb (fun metric => contains metric expr) AVAILABLE_METRICS.

(** The test that lets a target into [valid_targets]. *)
Definition is_valid_expr (expr : string) : bool :=
  negb (expr =? EmptyString)%string && uses_available_metric expr.

(** The loop over [panel['targets']]. *)
Fixpoint valid_targets_of (targets : list json) : result (list json) :=
  match targets with
  | [] => Ok []
  | target :: rest =>
      match target_expr target with
      | Raise e => Raise e
      | Ok expr =>
          match valid_targets_of rest with
          | Raise e => Raise e
          | Ok valid => Ok (if is_valid_expr expr then target :: valid
                            else valid)
          end
      end
  end.

(** [value == text] *)
Definition eq_str (value : option json) (text : string) : bool :=
  match value with
  | Some (JString s) => (s =? text)%string
  | _ => false
  end.

(** [panel.get('description', '') + NOTE] *)
Definition annotated_description (panel : dict) : result json :=
  match dict_get "description" panel with
  | None => Ok (JString (EmptyString ++ NOTE))
  | Some (JString s) => Ok (JString (s ++ NOTE))
  | Some _ => Raise TypeError
  end.

Definition fix_panel_targets (panel : dict) : result dict :=
  match dict_get "targets" panel with
  | None => Ok panel
  | Some targets =>
      match py_iter targets with
      | Raise e => Raise e
      | Ok items =>
          match valid_targets_of items with
          | Raise e => Raise e
          | Ok valid_targets =>
              let needs_note :=
                match valid_targets with [] => true | _ => false end
                && existsb (eq_str (dict_get "type" panel))
                     ["timeseries"; "stat"; "gauge"] in
              if needs_note then
                match annotated_description panel with
                | Raise e => Raise e
                | Ok description =>
                    Ok (dict_set "targets" (JArray valid_targets)
                          (dict_set "description" description panel))
                end
              else Ok (dict_set "targets" (JArray valid_targets) panel)
          end
      end
  end.

Definition is_row (panel : dict) : bool :=
  eq_str (dict_get "type" panel) "row" && dict_mem "panels" panel.

(** The body of the loop of [process_panels] for one panel;
    [process_nested] is [process_panels] itself, called on
    [panel['panels']]. *)
Definition process_panel (process_nested : json -> result json)
  (panel : json) : result json :=
  match panel with
  | JObject d =>
      if is_row d then
        match dict_apply "panels" process_nested d with
        | Raise e => Raise e
        | Ok d' => Ok (JObject d')
        end
      else
        match fix_panel_targets d with
        | Raise e => Raise e
        | Ok d' => Ok (JObject d')
        end
  | _ => Raise AttributeError
  end.

(** [process_panels(panels)].  The argument is a list in every
    dashboard; the loop over a dict or a str meets a str first, which has
    no [get], unless it is empty; the other values are not iterable. *)
Fixpoint process_panels (panels : json) : result json :=
  match panels with
  | JArray items =>
      match map_result (process_panel process_panels) items with
      | Raise e => Raise e
      | Ok fixed_panels => Ok (JArray fixed_panels)
      end
  | JObject [] => Ok (JArray [])
  | JObject (_ :: _) => Raise AttributeError
  | JString EmptyString => Ok (JArray [])
  | JString (String _ _) => Raise AttributeError
  | JNull | JBool _ | JInt _ | JFloat _ => Raise TypeError
  end.

(** *** The driver [fix_dashboard] *)

(** [s.replace(old, new)] for a non-empty [old]: every occurrence of
    [old], found from left to right without overlap, becomes [new].
    [skip] counts the characters of an occurrence that are still to be
    passed over. *)
Fixpoint replace_from (old new : string) (skip : nat) (s : string)
  : string :=
  match s with
  | EmptyString => EmptyString
  | String c rest =>
      match skip with
      | S skip' => replace_from old new skip' rest
      | O =>
          if String.prefix old s then
            (new ++ replace_from old new (String.length old - 1) rest)%string
          else String c (replace_from old new 0 rest)
      end
  end.

Definition replace (old new s : string) : string := replace_from old new 0 s.

(** The number of characters of a [str] kept as UTF-8: the bytes that
    do not continue a character. *)
Fixpoint code_points (s : string) : Z :=
  match s with
  | EmptyString => 0
  | String c rest =>
      let n := Z.of_nat (nat_of_ascii c) in
      (if (128 <=? n) && (n <? 192) then 0 else 1) + code_points rest
  end.

(** [len(v)] *)
Definition py_len (v : json) : result Z :=
  match v with
  | JArray items => Ok (Z.of_nat (List.length items))
  | JObject members => Ok (Z.of_nat (List.length members))
  | JString s => Ok (code_points s)
  | _ => Raise TypeError
  end.

(** The lines that [fix_dashboard] prints, by the values they show. *)
Inductive console_line : Type :=
| Reading (path : string)
| Title (title : json)
| PanelsBefore (n : Z)
| PanelsAfter (n : Z)
| Saving (path : string)
| Done.

(** What [fix_dashboard] does to the outside, in order; every event
    records the call, before its outcome is known.  [OpenRead] is the
    [open] and [json.load] of the dashboard.  [OpenWrite] is the [open]
    of the output file for writing, which creates or empties the file
    when it succeeds; [Dump] is the [json.dump] into it and the closing
    of the file, which leaves the whole text in the file when it
    succeeds and any part of it otherwise. *)
Inductive io_event : Type :=
| Print (line : console_line)
| OpenRead (path : string)
| OpenWrite (path : string)
| Dump (path : string) (content : json).

(** The answers of the environment to one run: what [open] and
    [json.load] give for the dashboard (the parsed file, or the exception
    they raise), and the exception of every other call that fails: a
    [print] (a closed or non-UTF-8 standard output), the [open] for
    writing, and the [json.dump] (a full disk, a string that cannot be
    encoded). *)
Record io_env : Type := {
  env_load : result json;
  env_print : console_line -> option exn;
  env_open : option exn;
  env_dump : option exn
}.

(** Statements of [fix_dashboard]: they add to the list of what was done
    and return or raise. *)
Definition IO (A : Type) : Type := list io_event -> result A * list io_event.

Definition io_ret {A : Type} (a : A) : IO A := fun t => (Ok a, t).

Definition io_bind {A B : Type} (m : IO A) (k : A -> IO B) : IO B :=
  fun t =>
    match m t with
    | (Ok a, t') => k a t'
    | (Raise e, t') => (Raise e, t')
    end.

Definition io_lift {A : Type} (r : result A) : IO A := fun t => (r, t).

(** A call to the outside with the outcome that the environment gives
    it. *)
Definition call (ev : io_event) (outcome : option exn) : IO unit :=
  fun t =>
    (match outcome with
     | None => Ok tt
     | Some e => Raise e
     end,
     t ++ [ev]).

Definition print (env : io_env) (line : console_line) : IO unit :=
  call (Print line) (env_print env line).

(** [len(dashboard.get('panels', []))] *)
Definition panels_count (dashboard : dict) : result Z :=
  match dict_get "panels" dashboard with
  | None => Ok 0
  | Some panels => py_len panels
  end.

(** [dashboard.get(...)] and ['panels' in dashboard] need a dict. *)
Definition as_dict (dashboard : json) : result dict :=
  match dashboard with
  | JObject members => Ok members
  | _ => Raise AttributeError
  end.

Declare Scope io_scope.
Delimit Scope io_scope with io.

Notation "x <- c1 ;; c2" := (io_bind c1 (fun x => c2))
  (at level 61, c1 at next level, right associativity) : io_scope.
Notation "c1 ;; c2" := (io_bind c1 (fun _ => c2))
  (at level 61, right associativity) : io_scope.

(** The body of [fix_dashboard(dashboard_path)]. *)
Definition fix_dashboard_body (env : io_env) (dashboard_path : string)
  : IO string :=
  (print env (Reading dashboard_path) ;;
   call (OpenRead dashboard_path) None ;;
   loaded <- io_lift (env_load env) ;;
   dashboard <- io_lift (as_dict loaded) ;;
   print env
     (Title match dict_get "title" dashboard with
            | Some v => v
            | None => JString "Unknown"
            end) ;;
   before <- io_lift (panels_count dashboard) ;;
   print env (PanelsBefore before) ;;
   dashboard <-
     io_lift (if dict_mem "panels" dashboard
              then dict_apply "panels" process_panels dashboard
              else Ok dashboard) ;;
   after <- io_lift (panels_count dashboard) ;;
   print env (PanelsAfter after) ;;
   let output_path := replace ".json" "-fixed.json" dashboard_path in
   print env (Saving output_path) ;;
   call (OpenWrite output_path) (env_open env) ;;
   call (Dump output_path (JObject dashboard)) (env_dump env) ;;
   print env Done ;;
   io_ret output_path)%io.

(** A run of [fix_dashboard(dashboard_path)]: the list of what was done,
    in order, and the path returned or the exception raised. *)
Definition fix_dashboard (env : io_env) (dashboard_path : string)
  : list io_event * result string :=
  let '(r, t) := fix_dashboard_body env dashboard_path [] in (t, r).

End Dashboard.

(** ** Reference notions for floats *)

Module Reference.
Import PyFloat.

(** An int below [2^53] in magnitude as a float of the standard
    library. *)
Definition of_Z (n : Z) : float := binary_normalize prec emax n 0 false.

(** The IEEE quotient of two such ints by the division of the standard
    library. *)
Definition div (a b : Z) : float := SFdiv prec emax (of_Z a) (of_Z b).

Definition float_eqb (x y : float) : bool :=
  match x, y with
  | S754_zero s, S754_zero s' => Bool.eqb s s'
  | S754_infinity s, S754_infinity s' => Bool.eqb s s'
  | S754_nan, S754_nan => true
  | S754_finite s m e, S754_finite s' m' e' =>
      Bool.eqb s s' && (m =? m')%positive && (e =? e')
  | _, _ => false
  end.

Definition agree (a b : Z) : bool :=
  match truediv a b with
  | Ok x => float_eqb x (div a b)
  | Raise _ => false
  end.

(** The ints from [-n] to [n]. *)
Definition around_zero (n : nat) : list Z :=
  map (fun i => Z.of_nat i - Z.of_nat n) (seq 0 (2 * n + 1)).

(** Numerators and denominators of various sizes and both signs. *)
Definition numerators : list Z :=
  around_zero 40
  ++ [11534336; 943718400; 85899345920; 1073741824; 5368709120;
      2 ^ 52 + 1; 2 ^ 53 - 1; - (2 ^ 53 - 1); 123456789012345].

Definition denominators : list Z :=
  filter (fun b => negb (b =? 0)) (around_zero 40)
  ++ [100; 1073741824; 5368709120; 2 ^ 53 - 1; 3 ^ 33; - (10 ^ 15)].

(** The float [m * 2^e] lies within half a unit in the last place of the
    quotient [a / b]: [|a / b - m * 2^e| <= 2^e / 2], without fractions. *)
Definition within_half_ulp (a b m e : Z) : Prop :=
  2 * Z.abs (scale_up b e * m - scale_up a (- e)) <= scale_up b e.

(** [m * 2^e] is a binary64 number in its normal or subnormal form. *)
Definition canonical (m e : Z) : Prop :=
  -1074 <= e <= 971 /\ 0 < m < 2 ^ 53 /\ (2 ^ 52 <= m \/ e = -1074).

End Reference.

(** ** What the statements below observe *)

Module Observe.
Import PyFloat Monitor.

(** The events recorded between two states of one run. *)
Definition new_events (before after : state) : list event :=
  skipn (List.length (trace before)) (trace after).

Definition count (p : event -> bool) (t : list event) : nat :=
  List.length (filter p t).

(** The readiness probe [GET <LOKI_API_URL>/ready].  [trigger_cleanup]
    starts with it and nothing else sends it, so the probes of a trace
    count the runs of [trigger_cleanup]. *)
Definition is_health_probe (cfg : config) (ev : event) : bool :=
  match ev with
  | HttpGet url _ => (url =? LOKI_API_URL cfg ++ "/ready")%string
  | _ => false
  end.

Definition cleanup_runs (cfg : config) (t : list event) : nat :=
  count (is_health_probe cfg) t.

(** Any request that could delete or compact: the script only POSTs to
    the delete and the compactor endpoints. *)
Definition is_post (ev : event) : bool :=
  match ev with
  | HttpPost _ _ _ => true
  | _ => false
  end.



(** The bodies of the delete requests of a trace. *)
Definition delete_payloads (t : list event) : list cleanup_payload :=
  flat_map
    (fun ev =>
       match ev with
       | HttpPost _ (Some payload) _ => [payload]
       | _ => []
       end) t.

(** The length in seconds of the window of a delete request. *)
Definition window_seconds (p : cleanup_payload) : Z := end_ p - start p.

(** A statement is steady when it leaves the attributes of the monitor
    object as they are and only adds to the trace. *)
Definition steady {A : Type} (m : M A) : Prop :=
  forall st : state,
    self (snd (m st)) = self st
    /\ exists evs, trace (snd (m st)) = trace st ++ evs.

(** The state after a call of [update_metrics] whose conversions all
    return: the four gauges hold the new values, and the trace has the four
    updates, then the write of the file, then one log entry. *)
Definition after_update (st : state) (fb gb fm fp : float)
  (content : metrics_content) (last : event) : state :=
  {| self := self st;
     metrics :=
       {| loki_data_size_bytes := fb;
          loki_data_size_gb := gb;
          loki_max_size_bytes := fm;
          loki_usage_percent := fp;
          loki_cleanup_operations := loki_cleanup_operations (metrics st);
          loki_cleanup_errors := loki_cleanup_errors (metrics st) |};
     trace :=
       trace st
       ++ [GaugeSet g_data_size_bytes fb; GaugeSet g_data_size_gb gb;
           GaugeSet g_max_size_bytes fm; GaugeSet g_usage_percent fp;
           WriteFile (Join (Path (metrics_dir (self st))) "loki_metrics.prom")
             content;
           last] |}.

(** The gauge [loki_usage_percent] after a call of [update_metrics]. *)
Definition usage_gauge_after (size : Z) (env : cycle_env) (st : state)
  : float :=
  loki_usage_percent (metrics (snd (update_metrics size env st))).

(** The float [1.0], the value of [MAX_SIZE_GB] for a limit of 1 GB. *)
Definition one_gb : float := S754_finite false 4503599627370496 (-52).

(** The float [100.0]. *)
Definition hundred : float := S754_finite false 7036874417766400 (-46).

(** [round(100 * size / max, ndigits)]: the percentage computed from the
    product first and rounded to a number of decimals. *)
Definition rounded_percent (ndigits : nat) (size max : Z) : result float :=
  match truediv (100 * size) max with
  | Ok x => Ok (round x ndigits)
  | Raise e => Raise e
  end.

(** The percentage of 11 MiB in 5 GiB is [0.21484375], a float; the float
    after it is [0.21484375000000003]. *)
Definition exact_percent : float := S754_finite false 7740561859543040 (-55).
Definition drifted_percent : float :=
  S754_finite false 7740561859543041 (-55).




(** The delete request is the POST with a body, the compaction request
    the POST without one. *)
Definition is_delete_request (ev : event) : bool :=
  match ev with
  | HttpPost _ (Some _) _ => true
  | _ => false
  end.

Definition is_compaction_request (ev : event) : bool :=
  match ev with
  | HttpPost _ None _ => true
  | _ => false
  end.

(** The requests of a stretch of the trace are orderly within [n] runs of
    the cleanup: no more compaction requests than delete requests, no more
    delete requests than readiness probes, and at most [n] probes. *)
Definition orderly (cfg : config) (n : nat) (evs : list event) : Prop :=
  (count is_compaction_request evs <= count is_delete_request evs)%nat
  /\ (count is_delete_request evs <= cleanup_runs cfg evs)%nat
  /\ (cleanup_runs cfg evs <= n)%nat.

(** A statement run on the monitor object [s] adds events with [P]: it
    leaves the object as it is and appends to the trace events of which
    [P] holds. *)
Definition adds {A : Type} (s : LokiStorageMonitor)
  (P : list event -> Prop) (m : M A) : Prop :=
  forall st : state,
    self st = s ->
    self (snd (m st)) = s
    /\ exists evs, trace (snd (m st)) = trace st ++ evs /\ P evs.

(** An event that is no request to the backend. *)
Definition is_request (ev : event) : bool :=
  match ev with
  | HttpGet _ _ | HttpPost _ _ _ => true
  | _ => false
  end.

(** The event leaves the file system as it is, or it is the write of
    the metrics file [file]. *)
Definition writes_only (file : path) (ev : event) : bool :=
  match ev with
  | WriteFile p _ => path_eqb p file
  | MkDir _ | WriteText _ _ | Unlink _ => false
  | _ => true
  end.

(** The events of the monitor in a run of [main]. *)
Definition inner_events (t : list main_event) : list event :=
  flat_map
    (fun ev =>
       match ev with
       | Inner e => [e]
       | _ => []
       end) t.

(** The writes of a metrics file that a stretch of the trace attempts,
    with the text to be written. *)
Definition attempted_writes (t : list event)
  : list (path * metrics_content) :=
  flat_map
    (fun ev =>
       match ev with
       | WriteFile p content => [(p, content)]
       | _ => []
       end) t.

(** What the construction of the monitor records: directories made, the
    probe file written and removed, and log entries. *)
Definition is_startup_event (ev : event) : bool :=
  match ev with
  | MkDir _ | WriteText _ _ | Unlink _ | Log _ _ => true
  | _ => false
  end.

(** The directory of the metrics file once the monitor is constructed:
    the configured one when the probe succeeds, the fallback otherwise. *)
Definition metrics_dir_for (cfg : config) (env : init_env) : string :=
  match env_probe env with
  | None => METRICS_OUTPUT_DIR cfg
  | Some _ => fallback_metrics_dir
  end.

(** [Path(dir) / "loki_metrics.prom"] and [Path(dir) / "test_write.tmp"] *)
Definition metrics_file (dir : string) : path :=
  Join (Path dir) "loki_metrics.prom".

Definition probe_file (dir : string) : path :=
  Join (Path dir) "test_write.tmp".

(** The event leaves the file system as it is, or it is one of these
    calls: the mkdir of the directory [configured] or of the fallback
    directory, the write or the removal of the probe file in
    [configured], the write of the metrics file in [chosen]. *)
Definition touches_only (configured chosen : string) (ev : event) : bool :=
  match ev with
  | MkDir p =>
      path_eqb p (Path configured) || path_eqb p (Path fallback_metrics_dir)
  | WriteText p _ | Unlink p => path_eqb p (probe_file configured)
  | WriteFile p _ => path_eqb p (metrics_file chosen)
  | _ => true
  end.

(** An entry of the walk that makes the scan fail: [is_file()] raises,
    or it is a file and [stat()] raises. *)
Definition unreadable (p : dirent) : bool :=
  match is_file p with
  | Raise _ => true
  | Ok false => false
  | Ok true =>
      match st_size p with
      | Raise _ => true
      | Ok _ => false
      end
  end.

(** What an entry adds to the total when the scan gets through: its size
    when it is a file. *)
Definition counted_size (p : dirent) : Z :=
  match is_file p, st_size p with
  | Ok true, Ok n => n
  | _, _ => 0
  end.

(** The walk that yields the entries of [l] and then goes on as
    [rest]. *)
Definition yields (l : list dirent) (rest : walk) : walk :=
  fold_right WYield rest l.

End Observe.

(** ** What the statements on dashboards observe *)

Module Panels.
Import Dashboard.

(** Whether the loop of [fix_panel_targets] keeps a target. *)
Definition keeps (target : json) : bool :=
  match target_expr target with
  | Ok expr => is_valid_expr expr
  | Raise _ => false
  end.

(** The targets of the fixed panel are those of the panel that the loop
    keeps, in their order; a panel without targets gets none. *)
Definition targets_filtered (d d' : dict) : Prop :=
  match dict_get "targets" d with
  | None => dict_get "targets" d' = None
  | Some targets =>
      exists items,
        py_iter targets = Ok items
        /\ dict_get "targets" d' = Some (JArray (filter keeps items))
  end.

(** The description of the fixed panel is the one of the panel, as it is
    or followed by the note. *)
Definition description_annotated (d d' : dict) : Prop :=
  dict_get "description" d' = dict_get "description" d
  \/ exists s,
       (dict_get "description" d = None /\ s = EmptyString
        \/ dict_get "description" d = Some (JString s))
       /\ dict_get "description" d' = Some (JString (s ++ NOTE)).

(** [fixed] is [panel] up to its targets and its description or, for a
    row, up to its nested panels, which are related in the same way, one
    to one and in the same order. *)
Inductive same_panel : json -> json -> Prop :=
| row_panel (d d' : dict) (nested : json) (children children' : list json) :
    is_row d = true ->
    dict_get "panels" d = Some nested ->
    py_iter nested = Ok children ->
    dict_get "panels" d' = Some (JArray children') ->
    Forall2 same_panel children children' ->
    (forall key, key <> "panels" -> dict_get key d' = dict_get key d) ->
    same_panel (JObject d) (JObject d')
| plain_panel (d d' : dict) :
    is_row d = false ->
    (forall key,
       key <> "targets" -> key <> "description" ->
       dict_get key d' = dict_get key d) ->
    targets_filtered d d' ->
    description_annotated d d' ->
    same_panel (JObject d) (JObject d').

Section DictCheck.

Variable key : string.
Variable f : json -> bool.

(** [f] holds of the value of [key] in [d]. *)
Fixpoint dict_check (d : dict) : bool :=
  match d with
  | [] => false
  | (k, v) :: rest => if (k =? key)%string then f v else dict_check rest
  end.

End DictCheck.

(** A target as Grafana writes it: an object whose [expr], when it has
    one, is a string. *)
Definition well_formed_target (target : json) : bool :=
  match target with
  | JObject d =>
      match dict_get "expr" d with
      | None | Some (JString _) => true
      | Some _ => false
      end
  | _ => false
  end.

Definition well_formed_plain (d : dict) : bool :=
  match dict_get "targets" d with
  | None => true
  | Some (JArray targets) => forallb well_formed_target targets
  | Some _ => false
  end
  && match dict_get "description" d with
     | None | Some (JString _) => true
     | Some _ => false
     end.

(** A panel as Grafana writes it: an object; the nested panels of a row
    are a list of panels; the targets are a list of targets and the
    description is a string. *)
Fixpoint well_formed_panel (panel : json) : bool :=
  match panel with
  | JObject d =>
      if is_row d then
        dict_check "panels"
          (fun nested =>
             match nested with
             | JArray children => forallb well_formed_panel children
             | _ => false
             end) d
      else well_formed_plain d
  | _ => false
  end.

(** Induction on a value with the hypothesis for every item of a list and
    every value of an object. *)
Fixpoint json_rect' (P : json -> Prop)
  (Hnull : P JNull)
  (Hbool : forall b, P (JBool b))
  (Hint : forall n, P (JInt n))
  (Hfloat : forall x, P (JFloat x))
  (Hstring : forall s, P (JString s))
  (Harray : forall items, Forall P items -> P (JArray items))
  (Hobject : forall members,
      Forall (fun kv => P (snd kv)) members -> P (JObject members))
  (v : json) : P v :=
  match v with
  | JNull => Hnull
  | JBool b => Hbool b
  | JInt n => Hint n
  | JFloat x => Hfloat x
  | JString s => Hstring s
  | JArray items =>
      Harray items
        ((fix all (l : list json) : Forall P l :=
            match l with
            | [] => Forall_nil P
            | x :: r =>
                Forall_cons x
                  (json_rect' P Hnull Hbool Hint Hfloat Hstring Harray
                     Hobject x)
                  (all r)
            end) items)
  | JObject members =>
      Hobject members
        ((fix all (l : list (string * json))
            : Forall (fun kv => P (snd kv)) l :=
            match l with
            | [] => Forall_nil _
            | kv :: r =>
                Forall_cons kv
                  (json_rect' P Hnull Hbool Hint Hfloat Hstring Harray
                     Hobject (snd kv))
                  (all r)
            end) members)
  end.

(** A name that begins, and one that ends, with a character that
    [strip] leaves in place. *)
Definition starts_visible (name : string) : bool :=
  match name with
  | EmptyString => false
  | String c _ => negb (is_space c)
  end.

Fixpoint ends_visible (name : string) : bool :=
  match name with
  | EmptyString => false
  | String c EmptyString => negb (is_space c)
  | String _ rest => ends_visible rest
  end.

(** [p] is one of the panels that [process_panels] comes to in [v]: a
    panel of the list, or one of the panels nested, at any depth, in a row
    of the list. *)
Inductive panel_of (p : json) : json -> Prop :=
| panel_here (items : list json) :
    In p items -> panel_of p (JArray items)
| panel_below (items : list json) (d : dict) (nested : json) :
    In (JObject d) items ->
    is_row d = true ->
    dict_get "panels" d = Some nested ->
    panel_of p nested ->
    panel_of p (JArray items).

Definition is_object (v : json) : bool :=
  match v with
  | JObject _ => true
  | _ => false
  end.

Definition is_string (v : json) : bool :=
  match v with
  | JString _ => true
  | _ => false
  end.

(** The panel is of one of the three types that get the note. *)
Definition is_annotated_type (d : dict) : bool :=
  existsb (eq_str (dict_get "type" d)) ["timeseries"; "stat"; "gauge"].

(** The files into which [fix_dashboard] dumped a dashboard, with the
    dashboard, and the files that it opened for writing. *)
Definition files_written (t : list io_event) : list (string * json) :=
  flat_map
    (fun ev =>
       match ev with
       | Dump path content => [(path, content)]
       | _ => []
       end) t.

Definition files_opened (t : list io_event) : list string :=
  flat_map
    (fun ev =>
       match ev with
       | OpenWrite path => [path]
       | _ => []
       end) t.

End Panels.

(** ** Sample configurations and environments *)

Module Examples.
Import PyFloat Monitor Observe.

(** [MAX_SIZE_GB=1] and [CLEANUP_THRESHOLD_PERCENT=80], the other
    settings at their defaults. *)
Definition config_1gb_80 : config :=
  {| LOKI_DATA_DIR := "/loki";
     MAX_SIZE_GB := one_gb;
     CLEANUP_THRESHOLD_PERCENT := 80;
     CHECK_INTERVAL := 300;
     LOKI_API_URL := "http://loki:3100";
     METRICS_OUTPUT_DIR := "/tmp/monitoring";
     METRICS_PORT := 9091 |}.

(** The settings when the environment sets none: 5 GB, 80 percent,
    a check every 300 seconds. *)
Definition default_config : config :=
  {| LOKI_DATA_DIR := "/loki";
     MAX_SIZE_GB := S754_finite false 5629499534213120 (-50);
     CLEANUP_THRESHOLD_PERCENT := 80;
     CHECK_INTERVAL := 300;
     LOKI_API_URL := "http://loki:3100";
     METRICS_OUTPUT_DIR := "/tmp/monitoring";
     METRICS_PORT := 9091 |}.

Definition fresh_registry : registry :=
  {| loki_data_size_bytes := zero;
     loki_data_size_gb := zero;
     loki_max_size_bytes := zero;
     loki_usage_percent := zero;
     loki_cleanup_operations := 0;
     loki_cleanup_errors := 0 |}.

(** The process before the monitor is constructed. *)
Definition blank : state :=
  {| self :=
       {| data_dir := EmptyString; max_size_bytes := 0;
          threshold_bytes := 0; metrics_dir := EmptyString |};
     metrics := fresh_registry;
     trace := [] |}.

Definition writable : init_env :=
  {| env_probe := None; env_fallback_mkdir := None |}.

(** The process once [LokiStorageMonitor()] has returned. *)
Definition started : state := snd (__init__ config_1gb_80 writable blank).

Definition started_default : state :=
  snd (__init__ default_config writable blank).

Definition MB : Z := 1024 * 1024.

(** A data directory with one chunk file of the given size below a
    sub-directory, and a socket. *)
Definition data_tree (size : Z) : fsnode :=
  Directory 4096 [Directory 4096 [RegularFile size]; Special 0].


(** 2024-01-01 00:00:00 as a count of microseconds. *)
Definition new_year : datetime := 63839664000 * 1000000.

(** A cycle in which the backend is healthy and accepts the delete, and
    the two readings of the clock fall [gap] microseconds apart. *)
Definition healthy_cycle (root : fsnode) (first_reading gap : Z)
  : cycle_env :=
  {| env_rglob := rglob root;
     env_write := None;
     env_ready := Response 200 "ready";
     env_now_end := first_reading;
     env_now_start := first_reading + gap;
     env_delete := Response 204 EmptyString;
     env_compactor := Response 200 EmptyString |}.

(** A cycle in which the write of the metrics file fails. *)
Definition disk_full_cycle (root : fsnode) : cycle_env :=
  {| env_rglob := rglob root;
     env_write := Some (OSError "No space left on device");
     env_ready := Response 200 "ready";
     env_now_end := new_year;
     env_now_start := new_year;
     env_delete := Response 204 EmptyString;
     env_compactor := Response 200 EmptyString |}.

(** A cycle in which the backend answers 503 to the readiness probe. *)
Definition unhealthy_cycle (root : fsnode) : cycle_env :=
  {| env_rglob := rglob root;
     env_write := None;
     env_ready := Response 503 "Ingester not ready";
     env_now_end := new_year;
     env_now_start := new_year;
     env_delete := Response 204 EmptyString;
     env_compactor := Response 200 EmptyString |}.

(** A cycle in which the delete is accepted with 202 and the compaction
    request is answered 500. *)
Definition failed_compaction_cycle (root : fsnode) : cycle_env :=
  {| env_rglob := rglob root;
     env_write := None;
     env_ready := Response 200 "ready";
     env_now_end := new_year;
     env_now_start := new_year;
     env_delete := Response 202 EmptyString;
     env_compactor := Response 500 "error" |}.

(** A dashboard with a row of two panels, a panel whose only target has
    an empty expression, and a panel without targets. *)
Definition sample_panels : list Dashboard.json :=
  let target (expr : string) :=
    Dashboard.JObject
      [("expr", Dashboard.JString expr); ("refId", Dashboard.JString "A")] in
  [ Dashboard.JObject
      [("id", Dashboard.JInt 1);
       ("type", Dashboard.JString "row");
       ("panels",
        Dashboard.JArray
          [ Dashboard.JObject
              [("id", Dashboard.JInt 2);
               ("type", Dashboard.JString "timeseries");
               ("targets",
                Dashboard.JArray
                  [target "rate(logs_processed_total[5m])";
                   target "  ";
                   target "disk_free_bytes"])];
            Dashboard.JObject
              [("id", Dashboard.JInt 3);
               ("type", Dashboard.JString "stat");
               ("description", Dashboard.JString "Queue");
               ("targets", Dashboard.JArray [target "queue_size"])] ])];
    Dashboard.JObject
      [("id", Dashboard.JInt 4);
       ("type", Dashboard.JString "gauge");
       ("targets", Dashboard.JArray [target EmptyString])];
    Dashboard.JObject
      [("id", Dashboard.JInt 5); ("type", Dashboard.JString "text")] ].

(** A gauge panel on a metric that is not available, with a
    description. *)
Definition disk_panel : Dashboard.dict :=
  [("id", Dashboard.JInt 6);
   ("type", Dashboard.JString "gauge");
   ("description", Dashboard.JString "Disk");
   ("targets",
    Dashboard.JArray
      [Dashboard.JObject [("expr", Dashboard.JString "disk_free_bytes")]])].

(** The same panel with [null] for a description. *)
Definition undescribed_panel : Dashboard.dict :=
  [("id", Dashboard.JInt 7);
   ("type", Dashboard.JString "gauge");
   ("description", Dashboard.JNull);
   ("targets",
    Dashboard.JArray
      [Dashboard.JObject [("expr", Dashboard.JString "disk_free_bytes")]])].

(** A stat panel on an available metric. *)
Definition queue_panel : Dashboard.dict :=
  [("id", Dashboard.JInt 8);
   ("type", Dashboard.JString "stat");
   ("targets",
    Dashboard.JArray
      [Dashboard.JObject [("expr", Dashboard.JString "queue_size")];
       Dashboard.JObject [("expr", Dashboard.JString "disk_free_bytes")]])].

(** A row whose nested panels hold a string in the place of a panel. *)
Definition broken_row : Dashboard.dict :=
  [("type", Dashboard.JString "row");
   ("panels",
    Dashboard.JArray
      [Dashboard.JObject queue_panel; Dashboard.JString "oops"])].

(** A dashboard with a title and the sample panels, and one whose only
    panel is the broken row. *)
Definition sample_dashboard : Dashboard.json :=
  Dashboard.JObject
    [("title", Dashboard.JString "Logs");
     ("panels", Dashboard.JArray sample_panels);
     ("version", Dashboard.JInt 3)].

Definition broken_dashboard : Dashboard.json :=
  Dashboard.JObject
    [("title", Dashboard.JString "Logs");
     ("panels", Dashboard.JArray [Dashboard.JObject broken_row])].

(** A file that vanishes between [is_file()] and [stat()]. *)
Definition vanished : dirent :=
  {| is_file := Ok true; st_size := Raise (OSError "No such file") |}.

(** A chunk file of the given size. *)
Definition chunk (size : Z) : dirent :=
  {| is_file := Ok true; st_size := Ok size |}.

(** A cycle in which the scan meets a vanished file between two chunks
    of 900 MiB. *)
Definition racy_cycle : cycle_env :=
  {| env_rglob := yields [chunk (900 * MB); vanished; chunk (900 * MB)] WEnd;
     env_write := None;
     env_ready := Response 200 "ready";
     env_now_end := new_year;
     env_now_start := new_year;
     env_delete := Response 204 EmptyString;
     env_compactor := Response 200 EmptyString |}.

(** An environment in which the configured metrics directory cannot be
    written and the fallback can. *)
Definition read_only : init_env :=
  {| env_probe := Some (AtWriteText, OSError "Read-only file system");
     env_fallback_mkdir := None |}.

(** [CHECK_INTERVAL=-1], the other settings as in [config_1gb_80]. *)
Definition config_negative_interval : config :=
  {| LOKI_DATA_DIR := "/loki";
     MAX_SIZE_GB := one_gb;
     CLEANUP_THRESHOLD_PERCENT := 80;
     CHECK_INTERVAL := -1;
     LOKI_API_URL := "http://loki:3100";
     METRICS_OUTPUT_DIR := "/tmp/monitoring";
     METRICS_PORT := 9091 |}.

(** A run of the process in which the port is free, the metrics
    directory is writable and every turn finds 700 MiB and a healthy
    backend. *)
Definition calm : main_env :=
  {| env_server := None;
     env_init := writable;
     env_cycles :=
       fun _ => healthy_cycle (data_tree (700 * MB)) new_year 0 |}.

(** [CHECK_INTERVAL] of three centuries, the other settings as in
    [config_1gb_80]. *)
Definition config_long_interval : config :=
  {| LOKI_DATA_DIR := "/loki";
     MAX_SIZE_GB := one_gb;
     CLEANUP_THRESHOLD_PERCENT := 80;
     CHECK_INTERVAL := 9223372037;
     LOKI_API_URL := "http://loki:3100";
     METRICS_OUTPUT_DIR := "/tmp/monitoring";
     METRICS_PORT := 9091 |}.

(** A run of [fix_dashboard] in which every call succeeds, on what
    [json.load] gives for the dashboard. *)
Definition quiet_io (loaded : result Dashboard.json)
  : Dashboard.io_env :=
  {| Dashboard.env_load := loaded;
     Dashboard.env_print := fun _ => None;
     Dashboard.env_open := None;
     Dashboard.env_dump := None |}.

End Examples.

(** * Proof automation *)

(** Runs a statement of the monitor on a state: unfolds the monad and the
    primitives, then reads the fields of the records that result. *)
Ltac run :=
  cbv beta iota delta
    [Monitor.bind Monitor.ret Monitor.raise Monitor.lift Monitor.try_except
     Monitor.get_self Monitor.set_self Monitor.emit Monitor.log
     Monitor.gauge_set Monitor.counter_inc Monitor.requests_get
     Monitor.requests_post Monitor.update_self Monitor.set_data_dir
     Monitor.set_max_size_bytes Monitor.set_threshold_bytes
     Monitor.set_metrics_dir Monitor.mkdir Monitor.probe Monitor.fails_at
     negb];
  cbn [fst snd Monitor.self Monitor.metrics Monitor.trace Monitor.data_dir
       Monitor.max_size_bytes Monitor.threshold_bytes Monitor.metrics_dir].

(** * Properties of the float model *)

Section FloatFacts.
Import PyFloat.

Lemma scale_up_nonneg_exp (x e : Z) : 0 <= e -> scale_up x e = x * 2 ^ e.
Proof. intros H. unfold scale_up. now rewrite Z.max_r. Qed.

Lemma scale_up_neg_exp (x e : Z) : e <= 0 -> scale_up x e = x.
Proof. intros H. unfold scale_up. rewrite Z.max_l by lia. simpl. lia. Qed.

Lemma rne_lower (n d : Z) : 0 < d -> n / d <= rne n d.
Proof.
  intros Hd. unfold rne.
  destruct (2 * (n mod d) ?= d); [destruct (Z.even (n / d))|..]; lia.
Qed.

Lemma rne_upper (n d : Z) : 0 < d -> 2 * d * rne n d <= 2 * n + d.
Proof.
  intros Hd. unfold rne.
  pose proof (Z.div_mod n d ltac:(lia)) as E.
  pose proof (Z.mod_pos_bound n d Hd) as B.
  destruct (Z.compare_spec (2 * (n mod d)) d) as [H|H|H];
    [destruct (Z.even (n / d))|..]; nia.
Qed.

Lemma ilog2_quot_upper (a b : Z) :
  0 < b -> ilog2_quot a b <= Z.log2 a.
Proof.
  intros Hb. unfold ilog2_quot.
  pose proof (Z.log2_nonneg b).
  destruct (_ <=? _); lia.
Qed.

Lemma ilog2_quot_upper_sub (a b : Z) :
  ilog2_quot a b <= Z.log2 a - Z.log2 b.
Proof. unfold ilog2_quot. destruct (_ <=? _); lia. Qed.

Lemma round_quot_finite (s : bool) (a b : Z) :
  0 < b -> a < 2 ^ 1023 -> is_infinity (round_quot s a b) = false.
Proof.
  intros Hb Ha. unfold round_quot.
  set (e := Z.max (ilog2_quot a b - 52) (-1074)).
  assert (He : e <= 970).
  { pose proof (ilog2_quot_upper a b Hb).
    assert (Z.log2 a < 1023).
    { destruct (Z.le_gt_cases a 0) as [L|L].
      - rewrite Z.log2_nonpos by assumption. lia.
      - apply Z.log2_lt_pow2; assumption. }
    unfold e. lia. }
  destruct (_ =? 2 ^ 53).
  - change (2 ^ 52) with (Zpos (2 ^ 52)%positive).
    cbv iota beta. destruct (e + 1 <=? 971) eqn:E; [reflexivity|lia].
  - cbv iota beta. destruct (rne _ _); try reflexivity.
    destruct (e <=? 971) eqn:E; [reflexivity|lia].
Qed.

Lemma truediv_returns (a b : Z) :
  b <> 0 -> Z.abs a < 2 ^ 1023 -> exists x, truediv a b = Ok x.
Proof.
  intros Hb Ha. unfold truediv.
  destruct (Z.eqb_spec b 0); [contradiction|].
  rewrite round_quot_finite by lia. eauto.
Qed.

Lemma of_int_returns (n : Z) :
  Z.abs n < 2 ^ 1023 -> exists x, of_int n = Ok x.
Proof.
  intros Hn. unfold of_int. rewrite round_quot_finite by lia. eauto.
Qed.

(** Truncating the float quotient by 100 of an int below [2^53] gives the
    integer quotient: the rounding of the division never reaches the next
    integer. *)
Lemma to_int_round_quot_100 (s : bool) (n : Z) :
  0 <= n < 2 ^ 53 ->
  to_int (round_quot s n 100) = Ok (if s then - (n / 100) else n / 100).
Proof.
  intros Hn. unfold round_quot.
  set (e := Z.max (ilog2_quot n 100 - 52) (-1074)).
  assert (He : -1074 <= e <= -6).
  { pose proof (ilog2_quot_upper_sub n 100) as U.
    change (Z.log2 100) with 6 in U.
    assert (Z.log2 n < 53).
    { destruct (Z.le_gt_cases n 0) as [L|L].
      - rewrite Z.log2_nonpos by assumption. lia.
      - apply Z.log2_lt_pow2; lia. }
    unfold e. lia. }
  rewrite (scale_up_nonneg_exp n (- e)) by lia.
  rewrite (scale_up_neg_exp 100 e) by lia.
  set (P := 2 ^ (- e)).
  assert (HP : 64 <= P).
  { unfold P. change 64 with (2 ^ 6). apply Z.pow_le_mono_r; lia. }
  set (m := rne (n * P) 100).
  set (t := n / 100).
  assert (Hm : t * P <= m < (t + 1) * P).
  { pose proof (rne_lower (n * P) 100 ltac:(lia)) as L.
    pose proof (rne_upper (n * P) 100 ltac:(lia)) as U.
    fold m in L, U.
    pose proof (Z.div_mod n 100 ltac:(lia)) as E.
    pose proof (Z.mod_pos_bound n 100 ltac:(lia)) as B.
    fold t in E.
    assert (t * P <= n * P / 100).
    { apply Z.div_le_lower_bound; nia. }
    split; nia. }
  assert (Ht : 0 <= t) by (apply Z.div_pos; lia).
  assert (Hdiv : m / P = t).
  { symmetry. apply Z.div_unique with (r := m - t * P); lia. }
  destruct (Z.eqb_spec m (2 ^ 53)) as [E53|N53].
  - change (2 ^ 52) with (Zpos (2 ^ 52)%positive). cbv iota beta.
    destruct (e + 1 <=? 971) eqn:E; [|lia].
    unfold to_int. rewrite scale_up_neg_exp by lia.
    rewrite Z.max_r by lia.
    assert (HP2 : P = 2 * 2 ^ (- (e + 1))).
    { unfold P. replace (- e) with (Z.succ (- (e + 1))) by lia.
      rewrite Z.pow_succ_r by lia. reflexivity. }
    assert (Zpos (2 ^ 52) / 2 ^ (- (e + 1)) = t) as ->.
    { symmetry.
      apply Z.div_unique with (r := Zpos (2 ^ 52) - t * 2 ^ (- (e + 1)));
        [|lia].
      change (Zpos (2 ^ 52)) with (2 ^ 52).
      assert (m = 2 * 2 ^ 52) by (rewrite E53; reflexivity).
      nia. }
    reflexivity.
  - cbv iota beta. destruct m as [|p|p] eqn:Em.
    + unfold to_int. assert (t = 0) by nia. destruct s; f_equal; lia.
    + destruct (e <=? 971) eqn:E; [|lia].
      unfold to_int. rewrite scale_up_neg_exp by lia.
      rewrite Z.max_r by lia. fold P. rewrite Hdiv. reflexivity.
    + nia.
Qed.

Lemma to_int_truediv_100 (n : Z) :
  Z.abs n < 2 ^ 53 ->
  exists q, truediv n 100 = Ok q /\ to_int q = Ok (Z.quot n 100).
Proof.
  intros Hn. unfold truediv. simpl (100 =? 0). cbv iota.
  rewrite round_quot_finite by lia.
  eexists. split; [reflexivity|].
  change (Z.abs 100) with 100. change (100 <? 0) with false.
  rewrite xorb_false_r.
  rewrite to_int_round_quot_100 by lia.
  f_equal. destruct (Z.ltb_spec n 0) as [L|L].
  - rewrite Z.abs_neq by lia.
    rewrite <- (Z.opp_involutive n) at 2.
    rewrite Z.quot_opp_l by lia.
    rewrite Z.quot_div_nonneg by lia. reflexivity.
  - rewrite Z.abs_eq by lia. rewrite Z.quot_div_nonneg by lia. reflexivity.
Qed.

(** On every pair of the sample, [truediv] and [float(n)] give the float
    that the division and the rounding of the standard library give. *)
Example truediv_agrees_with_the_standard_library :
  forallb (fun a => forallb (fun b => Reference.agree a b)
                      Reference.denominators)
    Reference.numerators
  = true.
Proof. vm_compute. reflexivity. Qed.

Example of_int_agrees_with_the_standard_library :
  forallb (fun n => match of_int n with
                    | Ok x => Reference.float_eqb x (Reference.of_Z n)
                    | Raise _ => false
                    end)
    (Reference.numerators ++ [2 ^ 60 + 1; 2 ^ 64 - 1; 3 ^ 90; - (7 ^ 100)])
  = true.
Proof. vm_compute. reflexivity. Qed.

(** Values of [round(x, 2)] known from the interpreter: [round(2.675, 2)]
    is [2.67] (the float [2.675] lies below the decimal 2.675),
    [round(0.015, 2)] is [0.01], [round(0.005, 2)] is [0.01],
    [round(0.125, 2)] is [0.12] (a tie, to even) and
    [round(0.87890625, 2)] is [0.88]. *)
Example round_known_values :
  forallb
    (fun '(n, d, hundredths) =>
       match truediv n d, truediv hundredths 100 with
       | Ok x, Ok y => Reference.float_eqb (round x 2) y
       | _, _ => false
       end)
    [(2675, 1000, 267); (15, 1000, 1); (5, 1000, 1); (125, 1000, 12);
     (-125, 1000, -12); (87890625, 100000000, 88); (943718400, 2 ^ 30, 88)]
  = true.
Proof. vm_compute. reflexivity. Qed.

End FloatFacts.

Section Nearest.
Import PyFloat.

Lemma scale_up_pos (x e : Z) : 0 < x -> 0 < scale_up x e.
Proof.
  intros H. unfold scale_up.
  assert (0 < 2 ^ Z.max 0 e) by (apply Z.pow_pos_nonneg; lia). nia.
Qed.

(** Moving the exponent: [x * 2^(e + k)] against [y * 2^-(e + k)] is
    [x * 2^e * 2^k] against [y * 2^-e]. *)
Lemma ilog2_quot_spec (a b : Z) :
  0 < a -> 0 < b ->
  scale_up b (ilog2_quot a b) <= scale_up a (- ilog2_quot a b)
  < 2 * scale_up b (ilog2_quot a b).
Proof.
  intros Ha Hb.
  pose proof (Z.log2_spec a Ha) as [La Ua].
  pose proof (Z.log2_spec b Hb) as [Lb Ub].
  pose proof (Z.log2_nonneg a) as Na.
  pose proof (Z.log2_nonneg b) as Nb.
  rewrite Z.pow_succ_r in Ua, Ub by assumption.
  unfold ilog2_quot.
  set (la := Z.log2 a) in *. set (lb := Z.log2 b) in *.
  set (l := la - lb).
  set (A := 2 ^ la) in *. set (B := 2 ^ lb) in *.
  assert (HB : 0 < B) by (apply Z.pow_pos_nonneg; lia).
  destruct (Z.leb_spec (scale_up b l) (scale_up a (- l))) as [T|T].
  - split; [exact T|].
    destruct (Z.le_gt_cases 0 l) as [Hl|Hl].
    + rewrite (scale_up_nonneg_exp b l), (scale_up_neg_exp a (- l)) by lia.
      assert (E : A = B * 2 ^ l).
      { unfold A, B. rewrite <- Z.pow_add_r by lia. f_equal. lia. }
      set (P := 2 ^ l) in *.
      assert (0 < P) by (apply Z.pow_pos_nonneg; lia).
      assert (B * P <= b * P) by nia. lia.
    + rewrite (scale_up_neg_exp b l), (scale_up_nonneg_exp a (- l)) by lia.
      assert (E : A * 2 ^ (- l) = B).
      { unfold A, B. rewrite <- Z.pow_add_r by lia. f_equal. lia. }
      set (P := 2 ^ (- l)) in *.
      assert (0 < P) by (apply Z.pow_pos_nonneg; lia).
      assert (a * P < 2 * A * P) by nia. lia.
  - destruct (Z.le_gt_cases 1 l) as [Hl|Hl].
    + rewrite (scale_up_nonneg_exp b l) in T by lia.
      rewrite (scale_up_neg_exp a (- l)) in T by lia.
      rewrite (scale_up_nonneg_exp b (l - 1)) by lia.
      rewrite (scale_up_neg_exp a (- (l - 1))) by lia.
      assert (E : 2 ^ l = 2 * 2 ^ (l - 1)).
      { replace l with (Z.succ (l - 1)) at 1 by lia.
        rewrite Z.pow_succ_r by lia. reflexivity. }
      assert (E2 : A = B * 2 ^ l).
      { unfold A, B. rewrite <- Z.pow_add_r by lia. f_equal. lia. }
      set (P := 2 ^ (l - 1)) in *.
      assert (0 < P) by (apply Z.pow_pos_nonneg; lia).
      rewrite E in T, E2.
      assert (b * P < 2 * B * P) by nia.
      split; lia.
    + rewrite (scale_up_neg_exp b l) in T by lia.
      rewrite (scale_up_nonneg_exp a (- l)) in T by lia.
      rewrite (scale_up_neg_exp b (l - 1)) by lia.
      rewrite (scale_up_nonneg_exp a (- (l - 1))) by lia.
      assert (E : 2 ^ (- (l - 1)) = 2 * 2 ^ (- l)).
      { replace (- (l - 1)) with (Z.succ (- l)) by lia.
        rewrite Z.pow_succ_r by lia. reflexivity. }
      assert (E2 : A * 2 ^ (- l) = B).
      { unfold A, B. rewrite <- Z.pow_add_r by lia. f_equal. lia. }
      set (P := 2 ^ (- l)) in *.
      assert (0 < P) by (apply Z.pow_pos_nonneg; lia).
      rewrite E.
      assert (A * P <= a * P) by nia.
      split; lia.
Qed.

Lemma rne_nonneg (n d : Z) : 0 <= n -> 0 < d -> 0 <= rne n d.
Proof.
  intros Hn Hd. pose proof (rne_lower n d Hd).
  pose proof (Z.div_pos n d Hn Hd). lia.
Qed.

Lemma rne_near (n d : Z) :
  0 < d -> - d <= 2 * (d * rne n d - n) <= d.
Proof.
  intros Hd. unfold rne.
  pose proof (Z.div_mod n d ltac:(lia)) as E.
  pose proof (Z.mod_pos_bound n d Hd) as B.
  destruct (Z.compare_spec (2 * (n mod d)) d) as [H|H|H];
    [destruct (Z.even (n / d))|..]; nia.
Qed.

(** The scaled numerator and denominator at the exponent that
    [round_quot] chooses: the quotient has 53 bits, or fewer at the
    smallest exponent. *)
Lemma scaled_quotient_bounds (a b : Z) :
  0 < a -> 0 < b ->
  let e := Z.max (ilog2_quot a b - 52) (-1074) in
  let n := scale_up a (- e) in
  let d := scale_up b e in
  0 < d /\ 0 < n
  /\ n < 2 ^ 53 * d
  /\ (2 ^ 52 * d <= n \/ e = -1074).
Proof.
  intros Ha Hb e n d.
  pose proof (ilog2_quot_spec a b Ha Hb) as S.
  set (r := ilog2_quot a b) in *.
  assert (Hd : 0 < d) by (apply scale_up_pos; exact Hb).
  assert (Hn : 0 < n) by (apply scale_up_pos; exact Ha).
  split; [exact Hd|]. split; [exact Hn|].
  destruct (Z.le_gt_cases (-1074) (r - 52)) as [C|C].
  - assert (e = r - 52) as He by (unfold e; lia).
    unfold n, d. rewrite He.
    destruct (Z.le_gt_cases 52 r) as [R|R].
    + rewrite (scale_up_nonneg_exp b r), (scale_up_neg_exp a (- r)) in S
        by lia.
      rewrite (scale_up_nonneg_exp b (r - 52)) by lia.
      rewrite (scale_up_neg_exp a (- (r - 52))) by lia.
      assert (E : 2 ^ r = 2 ^ (r - 52) * 2 ^ 52).
      { rewrite <- Z.pow_add_r by lia. f_equal. lia. }
      rewrite E in S. set (P := 2 ^ (r - 52)) in *.
      change (2 ^ 53) with (2 * 2 ^ 52). split; [|left]; lia.
    + rewrite (scale_up_neg_exp b (r - 52)) by lia.
      rewrite (scale_up_nonneg_exp a (- (r - 52))) by lia.
      destruct (Z.le_gt_cases 0 r) as [R0|R0].
      * rewrite (scale_up_nonneg_exp b r), (scale_up_neg_exp a (- r)) in S
          by lia.
        assert (E : 2 ^ 52 = 2 ^ (- (r - 52)) * 2 ^ r).
        { rewrite <- Z.pow_add_r by lia. f_equal. lia. }
        change (2 ^ 53) with (2 * 2 ^ 52). rewrite E.
        set (P := 2 ^ (- (r - 52))) in *. set (Q := 2 ^ r) in *.
        assert (0 < P) by (apply Z.pow_pos_nonneg; lia).
        split; [|left]; nia.
      * rewrite (scale_up_neg_exp b r), (scale_up_nonneg_exp a (- r)) in S
          by lia.
        assert (E : 2 ^ (- (r - 52)) = 2 ^ (- r) * 2 ^ 52).
        { rewrite <- Z.pow_add_r by lia. f_equal. lia. }
        rewrite E. set (P := 2 ^ (- r)) in *.
        change (2 ^ 53) with (2 * 2 ^ 52). split; [|left]; lia.
  - assert (e = -1074) as He by (unfold e; lia).
    split; [|right; exact He].
    unfold n, d. rewrite He.
    rewrite (scale_up_neg_exp b (-1074)) by lia.
    rewrite (scale_up_nonneg_exp a (- -1074)) by lia.
    rewrite (scale_up_neg_exp b r), (scale_up_nonneg_exp a (- r)) in S
      by lia.
    change (- -1074) with 1074.
    destruct (Z.le_gt_cases 1074 (- r)) as [R|R].
    + assert (E : 2 ^ 1074 <= 2 ^ (- r)) by (apply Z.pow_le_mono_r; lia).
      assert (0 < 2 ^ 1074) by (apply Z.pow_pos_nonneg; lia).
      set (P := 2 ^ 1074) in *. set (Q := 2 ^ (- r)) in *.
      assert (a * P <= a * Q) by nia.
      change (2 ^ 53) with 9007199254740992. lia.
    + assert (E : 2 ^ 1074 = 2 ^ (- r) * 2 ^ (1074 + r)).
      { rewrite <- Z.pow_add_r by lia. f_equal. lia. }
      assert (E2 : 2 * 2 ^ (1074 + r) <= 2 ^ 53).
      { change (2 ^ 53) with (2 * 2 ^ 52).
        assert (2 ^ (1074 + r) <= 2 ^ 52) by (apply Z.pow_le_mono_r; lia).
        lia. }
      rewrite E. set (Q := 2 ^ (- r)) in *. set (T := 2 ^ (1074 + r)) in *.
      assert (0 < T) by (apply Z.pow_pos_nonneg; lia).
      assert (a * Q * T < 2 * b * T) by nia.
      nia.
Qed.

(** X3: the float that [round_quot] gives for [a / b] is a binary64
    number within half a unit in the last place of the quotient; it gives
    a zero only for quotients up to [2^-1075] and an infinity only for
    quotients from [2^1024 - 2^970] on. *)
Theorem round_quot_nearest (s : bool) (a b : Z) :
  0 < a -> 0 < b ->
  match round_quot s a b with
  | S754_finite s' m e =>
      s' = s /\ Reference.canonical (Zpos m) e
      /\ Reference.within_half_ulp a b (Zpos m) e
  | S754_zero s' => s' = s /\ 2 * scale_up a 1074 <= b
  | S754_infinity s' => s' = s /\ (2 ^ 1024 - 2 ^ 970) * b <= a
  | S754_nan => False
  end.
Proof.
  intros Ha Hb.
  pose proof (scaled_quotient_bounds a b Ha Hb) as B. cbv zeta in B.
  unfold round_quot, Reference.canonical, Reference.within_half_ulp.
  set (e := Z.max (ilog2_quot a b - 52) (-1074)) in *.
  assert (He : -1074 <= e) by (unfold e; lia).
  set (n := scale_up a (- e)) in *. set (d := scale_up b e) in *.
  destruct B as (Hd & Hn & U & L).
  pose proof (rne_near n d Hd) as N.
  pose proof (rne_nonneg n d ltac:(lia) Hd) as P.
  set (m := rne n d) in *.
  assert (E52 : 2 ^ 52 = 4503599627370496) by reflexivity.
  assert (E53 : 2 ^ 53 = 9007199254740992) by reflexivity.
  rewrite E52 in *. rewrite E53 in *.
  assert (Hm : m <= 9007199254740992) by nia.
  assert (Hm' : 4503599627370496 * d <= n -> 4503599627370496 <= m) by nia.
  destruct (Z.eqb_spec m 9007199254740992) as [C|C].
  - change 4503599627370496 with (Zpos 4503599627370496) at 1.
    cbv iota beta.
    destruct (Z.leb_spec (e + 1) 971) as [F|F].
    + split; [reflexivity|]. split; [lia|].
      destruct (Z.le_gt_cases 0 e) as [S|S].
      * unfold n, d in N.
        rewrite (scale_up_nonneg_exp b e), (scale_up_neg_exp a (- e)) in N
          by lia.
        rewrite (scale_up_nonneg_exp b (e + 1)) by lia.
        rewrite (scale_up_neg_exp a (- (e + 1))) by lia.
        replace (e + 1) with (Z.succ e) by lia.
        rewrite Z.pow_succ_r by lia. lia.
      * unfold n, d in N.
        rewrite (scale_up_neg_exp b e), (scale_up_nonneg_exp a (- e)) in N
          by lia.
        rewrite (scale_up_neg_exp b (e + 1)) by lia.
        rewrite (scale_up_nonneg_exp a (- (e + 1))) by lia.
        assert (E : 2 ^ (- e) = 2 * 2 ^ (- (e + 1))).
        { replace (- e) with (Z.succ (- (e + 1))) by lia.
          rewrite Z.pow_succ_r by lia. reflexivity. }
        rewrite E in N. lia.
    + split; [reflexivity|].
      unfold n, d in N.
      rewrite (scale_up_nonneg_exp b e), (scale_up_neg_exp a (- e)) in N
        by lia.
      assert (E : 2 ^ 971 <= 2 ^ e) by (apply Z.pow_le_mono_r; lia).
      assert (E1 : 2 ^ 1024 - 2 ^ 970 = 2 ^ 970 * (2 * 9007199254740992 - 1))
        by reflexivity.
      assert (E2 : 2 ^ 971 = 2 * 2 ^ 970) by reflexivity.
      rewrite E1. rewrite E2 in E.
      set (Q := 2 ^ 970) in *. set (R := 2 ^ e) in *.
      assert (0 < Q) by (apply Z.pow_pos_nonneg; lia).
      assert (b * (2 * Q) <= b * R) by nia.
      nia.
  - cbv iota beta. destruct m as [|p|p] eqn:Em.
    + split; [reflexivity|].
      destruct L as [L|L]; [lia|].
      unfold n in N. rewrite L in N. change (- -1074) with 1074 in N.
      unfold d in N. rewrite L in N. rewrite scale_up_neg_exp in N by lia.
      lia.
    + destruct (Z.leb_spec e 971) as [F|F].
      * split; [reflexivity|]. split; [lia|]. lia.
      * split; [reflexivity|].
        destruct L as [L|L]; [|lia].
        unfold n, d in L.
        rewrite (scale_up_nonneg_exp b e), (scale_up_neg_exp a (- e)) in L
          by lia.
        assert (E : 2 ^ 972 <= 2 ^ e) by (apply Z.pow_le_mono_r; lia).
        assert (E1 : 2 ^ 1024 = 4503599627370496 * 2 ^ 972) by reflexivity.
        assert (E2 : 0 < 2 ^ 970) by (apply Z.pow_pos_nonneg; lia).
        set (Q := 2 ^ 972) in *. set (R := 2 ^ e) in *.
        assert (b * Q <= b * R) by nia.
        lia.
    + lia.
Qed.

Lemma one_third_is_correctly_rounded :
  Reference.canonical 6004799503160661 (-54)
  /\ Reference.within_half_ulp 1 3 6004799503160661 (-54).
Proof.
  pose proof (round_quot_nearest false 1 3 ltac:(lia) ltac:(lia)) as H.
  assert (E : round_quot false 1 3 = S754_finite false 6004799503160661 (-54))
    by (vm_compute; reflexivity).
  rewrite E in H. exact (proj2 H).
Defined.

End Nearest.

(** * The monitor *)

Section MonitorFacts.
Import PyFloat Monitor Observe.

Variable cfg : config.

Lemma new_events_app (st st' : state) (evs : list event) :
  trace st' = trace st ++ evs -> new_events st st' = evs.
Proof.
  intros E. unfold new_events. rewrite E.
  rewrite skipn_app, Nat.sub_diag, skipn_all. reflexivity.
Qed.

Lemma is_loki_healthy_cases (env : cycle_env) (st : state) :
  exists b evs,
    is_loki_healthy cfg env st
    = (Ok b,
       {| self := self st; metrics := metrics st;
          trace := trace st ++ HttpGet (LOKI_API_URL cfg ++ "/ready") 10 :: evs |})
    /\ count is_post evs = 0%nat
    /\ count (is_health_probe cfg) evs = 0%nat.
Proof.
  unfold is_loki_healthy.
  destruct (env_ready env) as [code text|e]; run.
  - exists (code =? 200), []. simpl. auto.
  - exists false, [Log WARNING (HealthCheckFailed e)].
    rewrite <- List.app_assoc. simpl. auto.
Qed.



Lemma acceptable_status_iff (code : Z) :
  acceptable_status code = true <-> code = 200 \/ code = 202 \/ code = 204.
Proof.
  unfold acceptable_status. simpl. rewrite !orb_true_iff, !Z.eqb_eq.
  intuition congruence.
Qed.

Lemma count_app (p : event -> bool) (l1 l2 : list event) :
  count p (l1 ++ l2) = (count p l1 + count p l2)%nat.
Proof. unfold count. now rewrite filter_app, length_app. Qed.



End MonitorFacts.

Section Cleanup.
Import PyFloat Monitor Observe.

Variable cfg : config.

(** C3: when the health check answers unhealthy, [trigger_cleanup] returns
    [False], sends no POST (neither the delete request nor the compaction
    request) and leaves the cleanup-operations and the cleanup-errors
    counters as they were. *)
Theorem unhealthy_backend_aborts_cleanup (env : cycle_env) (st : state) :
  fst (is_loki_healthy cfg env st) = Ok false ->
  fst (trigger_cleanup cfg env st) = Ok false
  /\ count is_post (new_events st (snd (trigger_cleanup cfg env st))) = 0%nat
  /\ loki_cleanup_operations (metrics (snd (trigger_cleanup cfg env st)))
     = loki_cleanup_operations (metrics st)
  /\ loki_cleanup_errors (metrics (snd (trigger_cleanup cfg env st)))
     = loki_cleanup_errors (metrics st).
Proof.
  unfold trigger_cleanup, is_loki_healthy.
  destruct (env_ready env) as [code text|e]; run;
    [destruct (code =? 200); run|]; intros H; try discriminate H;
    rewrite <- ?List.app_assoc;
    (erewrite new_events_app by (cbn [trace]; reflexivity));
    repeat split; reflexivity.
Qed.

(** C4: with a healthy backend, a delete answered 200, 202 or 204 makes
    [trigger_cleanup] return [True] and adds one to the cleanup-operations
    counter only, whatever the compaction request does; any other answer,
    or an exception of the delete request, makes it return [False] and
    adds one to the cleanup-errors counter only. *)
Theorem cleanup_result_follows_delete_answer
  (env : cycle_env) (st : state) :
  fst (is_loki_healthy cfg env st) = Ok true ->
  let st' := snd (trigger_cleanup cfg env st) in
  let accepted :=
    exists code text,
      env_delete env = Response code text
      /\ (code = 200 \/ code = 202 \/ code = 204) in
  (accepted ->
   fst (trigger_cleanup cfg env st) = Ok true
   /\ loki_cleanup_operations (metrics st')
      = loki_cleanup_operations (metrics st) + 1
   /\ loki_cleanup_errors (metrics st') = loki_cleanup_errors (metrics st))
  /\ (~ accepted ->
      fst (trigger_cleanup cfg env st) = Ok false
      /\ loki_cleanup_errors (metrics st')
         = loki_cleanup_errors (metrics st) + 1
      /\ loki_cleanup_operations (metrics st')
         = loki_cleanup_operations (metrics st)).
Proof.
  unfold trigger_cleanup, is_loki_healthy.
  destruct (env_ready env) as [code text|e]; run;
    [destruct (code =? 200); run|]; intros H; try discriminate H.
  destruct (env_delete env) as [dcode dtext|de]; run.
  - destruct (acceptable_status dcode) eqn:A; run.
    + split.
      * intros _.
        destruct (env_compactor env) as [ccode ctext|ce]; run;
          repeat split; reflexivity.
      * intros N. exfalso. apply N. exists dcode, dtext.
        split; [reflexivity|]. now apply acceptable_status_iff.
    + split.
      * intros (c & t & E & Hc). injection E as -> ->.
        apply acceptable_status_iff in Hc. congruence.
      * intros _. repeat split; reflexivity.
  - split.
    + intros (c & t & E & _). discriminate E.
    + intros _. repeat split; reflexivity.
Qed.

End Cleanup.

Section Metrics.
Import PyFloat Monitor Observe.

Variable cfg : config.

Lemma mul_int_100_returns (q : float) : exists p, mul_int q 100 = Ok p.
Proof.
  unfold mul_int. destruct (of_int 100) as [y|e] eqn:E; [eauto|].
  vm_compute in E. discriminate E.
Qed.

Lemma bytes_to_gb_returns (n : Z) :
  Z.abs n < 2 ^ 1023 -> exists gb, bytes_to_gb n = Ok gb.
Proof.
  intros H. unfold bytes_to_gb.
  destruct (truediv_returns n (1024 * 1024 * 1024)) as [x E]; [lia|exact H|].
  rewrite E. eauto.
Qed.

Lemma usage_percent_of_returns (size max : Z) :
  Z.abs size < 2 ^ 1023 -> exists pct, usage_percent_of size max = Ok pct.
Proof.
  intros H. unfold usage_percent_of.
  destruct (Z.gtb_spec max 0) as [P|P]; [|eauto].
  destruct (truediv_returns size max) as [q E]; [lia|exact H|].
  rewrite E. destruct (mul_int_100_returns q) as [p E']. rewrite E'. eauto.
Qed.

Lemma to_float_usage_percent (size max : Z) (pct : number) :
  usage_percent_of size max = Ok pct -> exists x, to_float pct = Ok x.
Proof.
  unfold usage_percent_of.
  destruct (max >? 0).
  - destruct (truediv size max) as [q|]; [|discriminate].
    destruct (mul_int q 100) as [p|]; [|discriminate].
    intros [= <-]. simpl. eauto.
  - intros [= <-]. exists zero. reflexivity.
Qed.

Lemma update_metrics_run (size : Z) (env : cycle_env) (st : state)
  (gb fb fm fp : float) (pct : number) :
  bytes_to_gb size = Ok gb ->
  usage_percent_of size (max_size_bytes (self st)) = Ok pct ->
  of_int size = Ok fb ->
  of_int (max_size_bytes (self st)) = Ok fm ->
  to_float pct = Ok fp ->
  update_metrics size env st
  = (Ok tt,
     after_update st fb gb fm fp
       {| content_data_size_bytes := size;
          content_data_size_gb := gb;
          content_max_size_bytes := max_size_bytes (self st);
          content_usage_percent := format_2f fp |}
       match env_write env with
       | None => Log DEBUG (MetricsUpdated gb pct)
       | Some e => Log ERROR (ErrorSavingMetricsFile e)
       end).
Proof.
  intros Hgb Hpct Hfb Hfm Hfp.
  unfold update_metrics, after_update. run.
  rewrite Hgb. run. rewrite Hpct. run.
  unfold to_float at 1. rewrite Hfb. run.
  unfold to_float at 1. run.
  unfold to_float at 1. rewrite Hfm. run.
  rewrite Hfp. run.
  unfold format_number_2f. rewrite Hfp. run.
  destruct (env_write env) as [e|]; run;
    cbn [registry_set loki_data_size_bytes loki_data_size_gb
         loki_max_size_bytes loki_usage_percent loki_cleanup_operations
         loki_cleanup_errors];
    rewrite <- !List.app_assoc; reflexivity.
Qed.

End Metrics.

Section Startup.
Import PyFloat Monitor Observe.

Variable cfg : config.

(** The attributes that a successful [__init__] leaves in the object. *)
Lemma init_attributes (env : init_env) (st0 st : state) :
  __init__ cfg env st0 = (Ok tt, st) ->
  exists x1 x2 x3 q,
    mul_int (MAX_SIZE_GB cfg) 1024 = Ok x1
    /\ mul_int x1 1024 = Ok x2
    /\ mul_int x2 1024 = Ok x3
    /\ to_int x3 = Ok (max_size_bytes (self st))
    /\ truediv (max_size_bytes (self st) * CLEANUP_THRESHOLD_PERCENT cfg) 100
       = Ok q
    /\ to_int q = Ok (threshold_bytes (self st)).
Proof.
  unfold __init__. run.
  destruct (mul_int (MAX_SIZE_GB cfg) 1024) as [x1|] eqn:E1; run; [|discriminate].
  destruct (mul_int x1 1024) as [x2|] eqn:E2; run; [|discriminate].
  destruct (mul_int x2 1024) as [x3|] eqn:E3; run; [|discriminate].
  destruct (to_int x3) as [max|] eqn:Em; run; [|discriminate].
  destruct (truediv (max * CLEANUP_THRESHOLD_PERCENT cfg) 100) as [q|] eqn:Eq;
    run; [|discriminate].
  destruct (to_int q) as [thr|] eqn:Et; run; [|discriminate].
  destruct (env_probe env) as [[[] e]|]; run;
    try (destruct (env_fallback_mkdir env) as [e'|]; run;
         [discriminate|]);
    intros [= <-]; cbn [self max_size_bytes threshold_bytes];
    exists x1, x2, x3, q; auto 10.
Qed.




End Startup.

Section Steady.
Import PyFloat Monitor Observe.

Context {A B : Type}.

Lemma steady_ret (a : A) : steady (ret a).
Proof. intros st. split; [reflexivity|]. exists []. now rewrite app_nil_r. Qed.

Lemma steady_raise (e : exn) : steady (@raise A e).
Proof. intros st. split; [reflexivity|]. exists []. now rewrite app_nil_r. Qed.

Lemma steady_lift (r : result A) : steady (lift r).
Proof. intros st. split; [reflexivity|]. exists []. now rewrite app_nil_r. Qed.

Lemma steady_bind (m : M A) (k : A -> M B) :
  steady m -> (forall a, steady (k a)) -> steady (bind m k).
Proof.
  intros Hm Hk st. unfold bind.
  destruct (Hm st) as [S1 [evs1 T1]].
  destruct (m st) as [[a|e] st1]; cbn [snd] in *.
  - destruct (Hk a st1) as [S2 [evs2 T2]].
    split; [congruence|]. exists (evs1 ++ evs2).
    rewrite T2, T1. now rewrite List.app_assoc.
  - split; [assumption|]. now exists evs1.
Qed.

Lemma steady_try_except (m : M A) (h : exn -> M A) :
  steady m -> (forall e, steady (h e)) -> steady (try_except m h).
Proof.
  intros Hm Hh st. unfold try_except.
  destruct (Hm st) as [S1 [evs1 T1]].
  destruct (m st) as [[a|e] st1]; cbn [snd] in *.
  - split; [assumption|]. now exists evs1.
  - destruct (Hh e st1) as [S2 [evs2 T2]].
    split; [congruence|]. exists (evs1 ++ evs2).
    rewrite T2, T1. now rewrite List.app_assoc.
Qed.

End Steady.

Section SteadyMethods.
Import PyFloat Monitor Observe.

Variable cfg : config.

Lemma steady_get_self : steady get_self.
Proof. intros st. split; [reflexivity|]. exists []. now rewrite app_nil_r. Qed.

Lemma steady_emit (ev : event) : steady (emit ev).
Proof. intros st. split; [reflexivity|]. now exists [ev]. Qed.

Lemma steady_log (l : level) (m : message) : steady (log l m).
Proof. apply steady_emit. Qed.

Lemma steady_gauge_set (g : gauge) (v : number) : steady (gauge_set g v).
Proof.
  unfold gauge_set. apply steady_bind; [apply steady_lift|]. intros x.
  apply steady_bind; [|intros _; apply steady_emit].
  intros st. split; [reflexivity|]. exists []. cbn. now rewrite app_nil_r.
Qed.

Lemma steady_counter_inc (c : counter) : steady (counter_inc c).
Proof.
  unfold counter_inc. apply steady_bind; [|intros _; apply steady_emit].
  intros st. split; [reflexivity|]. exists []. cbn. now rewrite app_nil_r.
Qed.

Lemma steady_sleep (seconds : Z) : steady (sleep seconds).
Proof.
  unfold sleep.
  destruct ((seconds <? - max_sleep) || (max_sleep <? seconds));
    [apply steady_raise|].
  destruct (seconds <? 0); [apply steady_raise|apply steady_emit].
Qed.

(** Decomposes a statement into the primitives above. *)
Ltac steady :=
  repeat first
    [ apply steady_ret | apply steady_raise | apply steady_lift
    | apply steady_get_self | apply steady_emit | apply steady_log
    | apply steady_gauge_set | apply steady_counter_inc | apply steady_sleep
    | apply steady_bind; [|intros ?]
    | apply steady_try_except; [|intros ?]
    | match goal with
      | |- steady (if ?b then _ else _) => destruct b
      | |- steady (match ?x with _ => _ end) => destruct x
      end ].

Lemma steady_get_directory_size (w : walk) : steady (get_directory_size w).
Proof. unfold get_directory_size. steady. Qed.

Lemma steady_is_loki_healthy (env : cycle_env) :
  steady (is_loki_healthy cfg env).
Proof. unfold is_loki_healthy, requests_get. steady. Qed.

Lemma steady_trigger_cleanup (env : cycle_env) :
  steady (trigger_cleanup cfg env).
Proof.
  unfold trigger_cleanup, requests_post.
  steady; try apply steady_is_loki_healthy.
Qed.

Lemma steady_update_metrics (size : Z) (env : cycle_env) :
  steady (update_metrics size env).
Proof. unfold update_metrics. steady. Qed.

Lemma steady_iteration (env : cycle_env) : steady (iteration cfg env).
Proof.
  unfold iteration.
  steady;
    try first [ apply steady_get_directory_size | apply steady_update_metrics
              | apply steady_trigger_cleanup ].
Qed.

Lemma steady_cycle (env : cycle_env) : steady (cycle cfg env).
Proof. unfold cycle. steady; try apply steady_iteration. Qed.

Lemma steady_turns (fuel : nat) (envs : nat -> cycle_env) (i : nat) :
  steady (turns cfg fuel envs i).
Proof.
  revert i. induction fuel as [|fuel IH]; intros i; cbn [turns].
  - apply steady_ret.
  - apply steady_bind; [apply steady_cycle|intros _; apply IH].
Qed.

Lemma steady_monitor_loop (fuel : nat) (envs : nat -> cycle_env) :
  steady (monitor_loop cfg fuel envs).
Proof.
  unfold monitor_loop.
  apply steady_bind; [apply steady_log|intros _; apply steady_turns].
Qed.

End SteadyMethods.

Section LoopClaims.
Import PyFloat Monitor Observe.

Variable cfg : config.






(** C9, as amended: [threshold_bytes] is the quotient of
    [max_size_bytes * CLEANUP_THRESHOLD_PERCENT] by 100 with its fraction
    dropped (the float quotient goes through [int()]), for products below
    [2^53]; [__init__] computes it, and the methods of the monitor and its
    loop leave it as it is. *)
Theorem threshold_bytes_truncated_and_fixed
  (ienv : init_env) (st0 st : state) :
  __init__ cfg ienv st0 = (Ok tt, st) ->
  Z.abs (max_size_bytes (self st) * CLEANUP_THRESHOLD_PERCENT cfg) < 2 ^ 53 ->
  threshold_bytes (self st)
  = Z.quot (max_size_bytes (self st) * CLEANUP_THRESHOLD_PERCENT cfg) 100
  /\ (forall w env size,
        steady (get_directory_size w)
        /\ steady (is_loki_healthy cfg env)
        /\ steady (trigger_cleanup cfg env)
        /\ steady (update_metrics size env))
  /\ forall fuel envs s,
       threshold_bytes (self (snd (monitor_loop cfg fuel envs s)))
       = threshold_bytes (self s).
Proof.
  intros Hinit Hrange.
  destruct (init_attributes cfg ienv st0 st Hinit)
    as (x1 & x2 & x3 & q & _ & _ & _ & _ & Eq & Et).
  destruct (to_int_truediv_100 _ Hrange) as (q' & Eq' & Et').
  rewrite Eq in Eq'. injection Eq' as <-. rewrite Et in Et'.
  injection Et' as Et'.
  split; [exact Et'|]. split.
  - intros w env size.
    auto using steady_get_directory_size, steady_is_loki_healthy,
      steady_trigger_cleanup, steady_update_metrics.
  - intros fuel envs s.
    destruct (steady_monitor_loop cfg fuel envs s) as [-> _]. reflexivity.
Qed.

End LoopClaims.

Section MetricsClaims.
Import PyFloat Monitor Observe.

(** C8: a call of [update_metrics] returns normally whether the write of
    [loki_metrics.prom] succeeds or raises; the four gauges hold the new
    values, and in the trace the four updates come before the write, which
    is followed by one log entry (the error when the write has failed). *)
Theorem metrics_write_failure_is_contained
  (size : Z) (env : cycle_env) (st : state) :
  Z.abs size < 2 ^ 1023 ->
  Z.abs (max_size_bytes (self st)) < 2 ^ 1023 ->
  exists fb gb fm fp pct content last,
    update_metrics size env st
    = (Ok tt, after_update st fb gb fm fp content last)
    /\ of_int size = Ok fb
    /\ bytes_to_gb size = Ok gb
    /\ of_int (max_size_bytes (self st)) = Ok fm
    /\ usage_percent_of size (max_size_bytes (self st)) = Ok pct
    /\ to_float pct = Ok fp
    /\ (forall e, env_write env = Some e ->
                  last = Log ERROR (ErrorSavingMetricsFile e)).
Proof.
  intros Bsize Bmax.
  destruct (bytes_to_gb_returns size Bsize) as [gb Egb].
  destruct (usage_percent_of_returns size (max_size_bytes (self st)) Bsize)
    as [pct Epct].
  destruct (of_int_returns size Bsize) as [fb Efb].
  destruct (of_int_returns _ Bmax) as [fm Efm].
  destruct (to_float_usage_percent _ _ _ Epct) as [fp Efp].
  exists fb, gb, fm, fp, pct. do 2 eexists.
  split; [apply update_metrics_run; eassumption|].
  repeat (split; [assumption|]).
  intros e ->. reflexivity.
Qed.

Lemma update_metrics_gauge (size : Z) (env : cycle_env) (st : state) :
  fst (update_metrics size env st) = Ok tt ->
  exists pct,
    usage_percent_of size (max_size_bytes (self st)) = Ok pct
    /\ to_float pct
       = Ok (loki_usage_percent (metrics (snd (update_metrics size env st)))).
Proof.
  unfold update_metrics. run.
  destruct (bytes_to_gb size) as [gb|]; run; [|intros X; discriminate X].
  destruct (usage_percent_of size (max_size_bytes (self st))) as [pct|];
    run; [|intros X; discriminate X].
  cbn [to_float].
  destruct (of_int size) as [fb|]; run; [|intros X; discriminate X].
  destruct (of_int (max_size_bytes (self st))) as [fm|]; run;
    [|intros X; discriminate X].
  destruct (to_float pct) as [fp|] eqn:Efp; run; [|intros X; discriminate X].
  unfold format_number_2f. rewrite Efp. run.
  intros _. exists pct. split; [reflexivity|].
  destruct (env_write env); run; cbn [registry_set loki_usage_percent];
    exact Efp.
Qed.

Lemma of_int_100 :
  of_int 100 = Ok (S754_finite false 7036874417766400 (-46)).
Proof. vm_compute. reflexivity. Qed.

Lemma update_metrics_no_zero_division
  (size : Z) (env : cycle_env) (st : state) :
  fst (update_metrics size env st) <> Raise ZeroDivisionError.
Proof.
  unfold update_metrics, bytes_to_gb, usage_percent_of, truediv, mul_int.
  rewrite of_int_100. run.
  change (1024 * 1024 * 1024 =? 0) with false. cbv iota.
  destruct (is_infinity _); run; [discriminate|].
  destruct (Z.gtb_spec (max_size_bytes (self st)) 0) as [P|P].
  - destruct (Z.eqb_spec (max_size_bytes (self st)) 0); [lia|].
    destruct (is_infinity _); run; [discriminate|].
    cbn [to_float]. unfold of_int.
    repeat (destruct (is_infinity _); run; [discriminate|]).
    destruct (env_write env); run; discriminate.
  - run. cbn [to_float]. unfold of_int.
    repeat (destruct (is_infinity _); run; [discriminate|]).
    destruct (env_write env); run; discriminate.
Qed.

(** C5, as amended: no call of [update_metrics] raises
    [ZeroDivisionError]; after a call that returns, the usage gauge holds
    the float product [(size / max_size_bytes) * 100] as it is (the
    division is rounded, then the product; no decimal rounding follows)
    when [max_size_bytes] is positive, and [0.0] otherwise. *)
Theorem usage_gauge_is_unrounded_product
  (size : Z) (env : cycle_env) (st : state) :
  fst (update_metrics size env st) <> Raise ZeroDivisionError
  /\ (fst (update_metrics size env st) = Ok tt ->
      (0 < max_size_bytes (self st) ->
       exists q,
         truediv size (max_size_bytes (self st)) = Ok q
         /\ usage_gauge_after size env st = mul q hundred)
      /\ (max_size_bytes (self st) <= 0 ->
          usage_gauge_after size env st = zero)).
Proof.
  split; [apply update_metrics_no_zero_division|].
  intros R. destruct (update_metrics_gauge size env st R) as (pct & Ep & Ef).
  fold (usage_gauge_after size env st) in Ef.
  unfold usage_percent_of, mul_int in Ep. rewrite of_int_100 in Ep.
  destruct (Z.gtb_spec (max_size_bytes (self st)) 0) as [P|P].
  - split; [intros _|lia].
    destruct (truediv size (max_size_bytes (self st))) as [q|];
      [|discriminate Ep].
    injection Ep as <-. cbn [to_float] in Ef. injection Ef as <-.
    exists q. split; reflexivity.
  - split; [lia|intros _].
    injection Ep as <-. cbn [to_float] in Ef.
    assert (Z0 : of_int 0 = Ok zero) by (vm_compute; reflexivity).
    rewrite Z0 in Ef. injection Ef as <-. reflexivity.
Qed.

End MetricsClaims.

Section RoundingFacts.
Import PyFloat Monitor Observe.

Lemma rne_unique (n d m : Z) :
  0 < d -> - d < 2 * (d * m - n) < d -> rne n d = m.
Proof.
  intros Hd Hm. unfold rne.
  pose proof (Z.div_mod n d ltac:(lia)) as E.
  pose proof (Z.mod_pos_bound n d Hd) as B.
  assert (m = n / d \/ m = n / d + 1) as [->| ->] by nia.
  - destruct (Z.compare_spec (2 * (n mod d)) d) as [H|H|H]; nia.
  - destruct (Z.compare_spec (2 * (n mod d)) d) as [H|H|H]; nia.
Qed.

Lemma ilog2_quot_unique (a b r : Z) :
  0 < a -> 0 < b ->
  scale_up b r <= scale_up a (- r) < 2 * scale_up b r ->
  ilog2_quot a b = r.
Proof.
  intros Ha Hb.
  pose proof (Z.log2_spec a Ha) as [La Ua].
  pose proof (Z.log2_spec b Hb) as [Lb Ub].
  pose proof (Z.log2_nonneg a) as Na.
  pose proof (Z.log2_nonneg b) as Nb.
  set (la := Z.log2 a) in *. set (lb := Z.log2 b) in *.
  unfold ilog2_quot. fold la lb.
  destruct (Z.le_gt_cases 0 r) as [Hr|Hr].
  - rewrite (scale_up_nonneg_exp b r) by lia.
    rewrite (scale_up_neg_exp a (- r)) by lia. intros [L U].
    assert (Hl : r <= la - lb <= r + 1).
    { split.
      - assert (2 ^ (lb + r) < 2 ^ Z.succ la) as H.
        { rewrite Z.pow_add_r by lia. nia. }
        apply Z.pow_lt_mono_r_iff in H; lia.
      - assert (2 ^ la < 2 ^ (Z.succ (Z.succ lb) + r)) as H.
        { rewrite (Z.pow_add_r 2 (Z.succ (Z.succ lb))) by lia.
          rewrite (Z.pow_succ_r 2 (Z.succ lb)) by lia.
          assert (0 < 2 ^ r) by (apply Z.pow_pos_nonneg; lia).
          nia. }
        apply Z.pow_lt_mono_r_iff in H; lia. }
    rewrite (scale_up_nonneg_exp b) by lia.
    rewrite (scale_up_neg_exp a) by lia.
    assert (la - lb = r \/ la - lb = r + 1) as [E|E] by lia; rewrite E.
    + destruct (Z.leb_spec (b * 2 ^ r) a); lia.
    + replace (r + 1) with (Z.succ r) by lia.
      rewrite Z.pow_succ_r by lia.
      destruct (Z.leb_spec (b * (2 * 2 ^ r)) a); lia.
  - rewrite (scale_up_neg_exp b r) by lia.
    rewrite (scale_up_nonneg_exp a (- r)) by lia. intros [L U].
    assert (HP : 0 < 2 ^ (- r)) by (apply Z.pow_pos_nonneg; lia).
    assert (Hl : r <= la - lb <= r + 1).
    { split.
      - assert (2 ^ lb < 2 ^ (Z.succ la + - r)) as H.
        { rewrite Z.pow_add_r by lia. nia. }
        apply Z.pow_lt_mono_r_iff in H; lia.
      - assert (2 ^ (la + - r) < 2 ^ Z.succ (Z.succ lb)) as H.
        { rewrite Z.pow_add_r by lia.
          rewrite (Z.pow_succ_r 2 (Z.succ lb)) by lia. nia. }
        apply Z.pow_lt_mono_r_iff in H; lia. }
    rewrite (scale_up_neg_exp b) by lia.
    rewrite (scale_up_nonneg_exp a) by lia.
    assert (la - lb = r \/ la - lb = r + 1) as [E|E] by lia; rewrite E.
    + destruct (Z.leb_spec b (a * 2 ^ (- r))); lia.
    + assert (2 ^ (- r) = 2 * 2 ^ (- (r + 1))) as E2.
      { replace (- r) with (Z.succ (- (r + 1))) by lia.
        rewrite Z.pow_succ_r by lia. reflexivity. }
      destruct (Z.leb_spec b (a * 2 ^ (- (r + 1)))); lia.
Qed.

(** From eight decimals on, rounding [0.21484375] gives it back: it has
    eight decimals. *)
Lemma round_exact_percent_many_digits (ndigits : nat) :
  (8 <= ndigits)%nat -> round exact_percent ndigits = exact_percent.
Proof.
  intros Hn. unfold round, exact_percent.
  assert (HT : exists U, 0 < U /\ 10 ^ Z.of_nat ndigits = 100000000 * U).
  { exists (10 ^ (Z.of_nat ndigits - 8)). split.
    - apply Z.pow_pos_nonneg; lia.
    - change 100000000 with (10 ^ 8). rewrite <- Z.pow_add_r by lia.
      f_equal. lia. }
  destruct HT as (U & HU & ->).
  rewrite scale_up_neg_exp by lia.
  change (2 ^ Z.max 0 (- (-55))) with 36028797018963968.
  assert (Hk : rne (7740561859543040 * (100000000 * U)) 36028797018963968
               = 21484375 * U).
  { apply rne_unique; lia. }
  rewrite Hk.
  assert (Hlog : ilog2_quot (21484375 * U) (100000000 * U) = -3).
  { apply ilog2_quot_unique; try lia.
    rewrite scale_up_neg_exp by lia.
    rewrite scale_up_nonneg_exp by lia. change (2 ^ (- (-3))) with 8. lia. }
  unfold round_quot. rewrite Hlog.
  change (Z.max (-3 - 52) (-1074)) with (-55).
  rewrite scale_up_nonneg_exp by lia. rewrite scale_up_neg_exp by lia.
  change (2 ^ (- (-55))) with 36028797018963968.
  assert (Hm : rne (21484375 * U * 36028797018963968) (100000000 * U)
               = 7740561859543040).
  { apply rne_unique; lia. }
  rewrite Hm. reflexivity.
Qed.

Lemma round_exact_percent_never_gauge (ndigits : nat) :
  round exact_percent ndigits <> drifted_percent.
Proof.
  destruct (Nat.le_gt_cases 8 ndigits) as [H|H].
  - rewrite round_exact_percent_many_digits by exact H. discriminate.
  - do 8 (destruct ndigits as [|ndigits];
          [vm_compute; discriminate|]).
    lia.
Qed.

End RoundingFacts.

Section DirectorySize.
Import PyFloat Monitor Observe.







End DirectorySize.

(** * The dashboard fixer *)

Section DashboardFacts.
Import Dashboard Panels.

Lemma dict_get_set_same (key : string) (v : json) (d : dict) :
  dict_get key (dict_set key v d) = Some v.
Proof.
  induction d as [|[k w] d IH]; cbn.
  - now rewrite String.eqb_refl.
  - destruct (String.eqb_spec k key) as [->|N]; cbn.
    + now rewrite String.eqb_refl.
    + destruct (String.eqb_spec k key); [contradiction|exact IH].
Qed.

Lemma dict_get_set_other (key key' : string) (v : json) (d : dict) :
  key' <> key -> dict_get key' (dict_set key v d) = dict_get key' d.
Proof.
  intros N. induction d as [|[k w] d IH]; cbn.
  - destruct (String.eqb_spec key key'); [congruence|reflexivity].
  - destruct (String.eqb_spec k key) as [->|Nk]; cbn.
    + destruct (String.eqb_spec key key'); [congruence|reflexivity].
    + destruct (String.eqb_spec k key'); [reflexivity|exact IH].
Qed.

Lemma dict_apply_ok (key : string) (f : json -> result json) (d d' : dict) :
  dict_apply key f d = Ok d' ->
  exists v v',
    dict_get key d = Some v /\ f v = Ok v'
    /\ dict_get key d' = Some v'
    /\ forall k, k <> key -> dict_get k d' = dict_get k d.
Proof.
  revert d'. induction d as [|[k w] d IH]; intros d'; cbn; [discriminate|].
  destruct (String.eqb_spec k key) as [->|N].
  - destruct (f w) as [w'|] eqn:E; [|discriminate]. cbn. intros [= <-].
    exists w, w'. cbn. rewrite String.eqb_refl.
    split; [reflexivity|]. split; [exact E|]. split; [reflexivity|].
    intros k' N'. destruct (String.eqb_spec key k'); [congruence|reflexivity].
  - destruct (dict_apply key f d) as [r|]; [|discriminate]. cbn. intros [= <-].
    destruct (IH r eq_refl) as (v & v' & G & F & G' & O).
    exists v, v'. cbn. destruct (String.eqb_spec k key); [contradiction|].
    split; [assumption|]. split; [assumption|]. split; [assumption|].
    intros k' N'. destruct (String.eqb_spec k k'); [reflexivity|auto].
Qed.

Lemma dict_apply_returns (key : string) (f : json -> result json)
  (g : json -> bool) (d : dict) :
  Forall (fun kv => g (snd kv) = true -> exists v', f (snd kv) = Ok v') d ->
  dict_check key g d = true -> exists d', dict_apply key f d = Ok d'.
Proof.
  induction 1 as [|[k w] d Hw _ IH]; cbn in *; [discriminate|].
  destruct (String.eqb_spec k key) as [->|N].
  - intros G. destruct (Hw G) as [w' ->]. eauto.
  - intros G. destruct (IH G) as [r ->]. eauto.
Qed.

Lemma dict_check_get (key : string) (g : json -> bool) (d : dict) :
  dict_check key g d = true -> exists v, dict_get key d = Some v /\ g v = true.
Proof.
  induction d as [|[k w] d IH]; cbn; [discriminate|].
  destruct (String.eqb_spec k key); eauto.
Qed.

Lemma map_result_ok {A B : Type} (f : A -> result B) (l : list A)
  (l' : list B) :
  map_result f l = Ok l' -> Forall2 (fun x y => f x = Ok y) l l'.
Proof.
  revert l'. induction l as [|x l IH]; intros l'; cbn.
  - intros [= <-]. constructor.
  - destruct (f x) as [y|] eqn:E; [|discriminate].
    destruct (map_result f l) as [ys|]; [|discriminate].
    cbn. intros [= <-]. constructor; auto.
Qed.

Lemma map_result_returns {A B : Type} (f : A -> result B) (l : list A) :
  Forall (fun x => exists y, f x = Ok y) l -> exists l', map_result f l = Ok l'.
Proof.
  induction 1 as [|x l [y E] _ [ys IH]]; cbn; [eauto|].
  rewrite E, IH. eauto.
Qed.

Lemma valid_targets_of_filter (items valid : list json) :
  valid_targets_of items = Ok valid -> valid = filter keeps items.
Proof.
  revert valid. induction items as [|t items IH]; intros valid; cbn.
  - now intros [= <-].
  - unfold keeps. destruct (target_expr t) as [expr|]; [|discriminate].
    destruct (valid_targets_of items) as [r|]; [|discriminate].
    cbn. intros [= <-]. rewrite (IH r eq_refl).
    destruct (is_valid_expr expr); reflexivity.
Qed.

Lemma valid_targets_of_returns (items : list json) :
  forallb well_formed_target items = true ->
  exists valid, valid_targets_of items = Ok valid.
Proof.
  induction items as [|t items IH]; cbn; [eauto|].
  intros H. apply andb_true_iff in H as [Ht Hr].
  destruct (IH Hr) as [r ->].
  destruct t as [| | | | |?|d]; try discriminate Ht. cbn in *.
  destruct (dict_get "expr" d) as [[| | | |s| |]|]; try discriminate Ht;
    eauto.
Qed.

Lemma fix_panel_targets_same (d d' : dict) :
  is_row d = false ->
  fix_panel_targets d = Ok d' -> same_panel (JObject d) (JObject d').
Proof.
  intros Hrow. unfold fix_panel_targets.
  destruct (dict_get "targets" d) as [targets|] eqn:T.
  - destruct (py_iter targets) as [items|] eqn:I; [|discriminate].
    destruct (valid_targets_of items) as [valid|] eqn:V; [|discriminate].
    apply valid_targets_of_filter in V. subst valid.
    match goal with
    | |- (if ?b then _ else _) = _ -> _ => destruct b
    end.
    + destruct (annotated_description d) as [description|] eqn:A;
        [|discriminate].
      intros [= <-]. apply plain_panel; [exact Hrow|..].
      * intros key N1 N2. now rewrite !dict_get_set_other by assumption.
      * unfold targets_filtered. rewrite T. exists items.
        split; [exact I|]. apply dict_get_set_same.
      * right. unfold annotated_description in A.
        rewrite dict_get_set_other by discriminate.
        rewrite dict_get_set_same.
        destruct (dict_get "description" d) as [[| | | |s| |]|];
          try discriminate A; injection A as <-.
        -- exists s. split; [right|]; reflexivity.
        -- exists EmptyString. split; [left; split|]; reflexivity.
    + intros [= <-]. apply plain_panel; [exact Hrow|..].
      * intros key N1 N2. now rewrite dict_get_set_other by assumption.
      * unfold targets_filtered. rewrite T. exists items.
        split; [exact I|]. apply dict_get_set_same.
      * left. now rewrite dict_get_set_other by discriminate.
  - intros [= <-]. apply plain_panel; [exact Hrow|reflexivity| |].
    + unfold targets_filtered. now rewrite T.
    + now left.
Qed.

Lemma fix_panel_targets_returns (d : dict) :
  well_formed_plain d = true -> exists d', fix_panel_targets d = Ok d'.
Proof.
  unfold well_formed_plain, fix_panel_targets, annotated_description.
  intros H. apply andb_true_iff in H as [Ht Hd].
  destruct (dict_get "targets" d) as [[| | | | |targets|]|];
    try discriminate Ht; [|eauto].
  cbn [py_iter]. destruct (valid_targets_of_returns targets Ht) as [valid ->].
  match goal with
  | |- exists _, (if ?b then _ else _) = _ => destruct b
  end; [|eauto].
  destruct (dict_get "description" d) as [[| | | |s| |]|];
    try discriminate Hd; eauto.
Qed.

Lemma process_panels_array (items : list json) :
  process_panels (JArray items)
  = match map_result (process_panel process_panels) items with
    | Raise e => Raise e
    | Ok fixed_panels => Ok (JArray fixed_panels)
    end.
Proof. reflexivity. Qed.

(** Whenever the script returns, what it returns is related to its
    argument: for a list of panels, and for one panel. *)
Lemma process_panels_sound (v : json) :
  (forall r,
     process_panels v = Ok r ->
     exists items fixed,
       py_iter v = Ok items /\ r = JArray fixed
       /\ Forall2 same_panel items fixed)
  /\ (forall p', process_panel process_panels v = Ok p' -> same_panel v p').
Proof.
  induction v as [| | | |s|items IH|d IH] using json_rect';
    (split; [intros r|intros p']); try discriminate.
  - destruct s; [|discriminate]. intros [= <-].
    exists [], []. repeat split; constructor.
  - rewrite process_panels_array.
    destruct (map_result _ items) as [fixed|] eqn:E; [|discriminate].
    intros [= <-]. exists items, fixed.
    split; [reflexivity|]. split; [reflexivity|].
    apply map_result_ok in E. revert IH.
    induction E as [|x y l l' Hxy _ IHE]; intros IH; constructor.
    + apply Forall_inv in IH. now apply IH.
    + apply IHE. now apply Forall_inv_tail in IH.
  - destruct d; [|discriminate]. intros [= <-].
    exists [], []. repeat split; constructor.
  - cbn [process_panel]. destruct (is_row d) eqn:Hrow.
    + destruct (dict_apply "panels" process_panels d) as [d'|] eqn:E;
        [|discriminate].
      intros [= <-].
      apply dict_apply_ok in E as (nested & fixed & G & F & G' & O).
      assert (R : exists items fixed',
                 py_iter nested = Ok items /\ fixed = JArray fixed'
                 /\ Forall2 same_panel items fixed').
      { clear - IH G F. induction IH as [|[k w] d Hw _ IHd]; cbn in G;
          [discriminate|].
        destruct (k =? "panels")%string.
        - injection G as ->. now apply Hw.
        - now apply IHd. }
      destruct R as (items & fixed' & I & -> & S).
      eapply row_panel; eauto.
    + destruct (fix_panel_targets d) as [d'|] eqn:E; [|discriminate].
      intros [= <-]. now apply fix_panel_targets_same.
Qed.

(** The script returns on every well-formed argument. *)
Lemma process_panels_total (v : json) :
  (forall items,
     v = JArray items -> forallb well_formed_panel items = true ->
     exists r, process_panels v = Ok r)
  /\ (well_formed_panel v = true ->
      exists p', process_panel process_panels v = Ok p').
Proof.
  induction v as [| | | |s|items IH|d IH] using json_rect';
    (split; [intros items0 E W|intros W]); try discriminate.
  - injection E as <-. rewrite process_panels_array.
    destruct (map_result_returns (process_panel process_panels) items)
      as [fixed ->]; [|eauto].
    rewrite forallb_forall in W. rewrite Forall_forall in *.
    intros x Hx. now apply IH, W.
  - cbn [well_formed_panel] in W. cbn [process_panel].
    destruct (is_row d).
    + match type of W with
      | dict_check _ ?g _ = true =>
          assert (F : Forall
                        (fun kv => g (snd kv) = true ->
                                   exists v', process_panels (snd kv) = Ok v')
                        d)
      end.
      { rewrite Forall_forall in *. intros [k nested] Hin. cbn.
        destruct nested as [| | | | |children|]; try discriminate.
        intros Wc. apply (proj1 (IH _ Hin) children eq_refl Wc). }
      destruct (dict_apply_returns "panels" process_panels _ d F W)
        as [d' ->].
      eauto.
    + destruct (fix_panel_targets_returns d W) as [d' ->]. eauto.
Qed.

(** C10: on a list of well-formed panels [process_panels] returns a list
    of as many panels, and the panel at each place is the panel that was
    at that place, changed at most in its targets (filtered), in its
    description (the note added) or, for a row, in its nested panels, which
    are processed in the same way. *)
Theorem process_panels_keeps_every_panel (panels : list json) :
  forallb well_formed_panel panels = true ->
  exists fixed,
    process_panels (JArray panels) = Ok (JArray fixed)
    /\ List.length fixed = List.length panels
    /\ Forall2 same_panel panels fixed.
Proof.
  intros W.
  destruct (proj1 (process_panels_total (JArray panels)) panels eq_refl W)
    as [r E].
  destruct (proj1 (process_panels_sound (JArray panels)) r E)
    as (items & fixed & I & -> & S).
  injection I as <-. exists fixed.
  split; [exact E|]. split; [|exact S].
  symmetry. eapply Forall2_length, S.
Qed.

End DashboardFacts.

(** * Sample runs *)

Section Instances.
Import PyFloat Monitor Observe Examples.

(** X1: when [datetime.now()] answers the same instant twice, the window
    of every delete request that [trigger_cleanup] sends is four days
    long. *)
Theorem window_with_one_clock_reading
  (cfg : config) (env : cycle_env) (st : state) (p : cleanup_payload) :
  env_now_start env = env_now_end env ->
  In p (delete_payloads (new_events st (snd (trigger_cleanup cfg env st)))) ->
  window_seconds p = 4 * 86400.
Proof.
  intros Hnow. unfold trigger_cleanup, is_loki_healthy.
  destruct (env_ready env) as [code text|e]; run;
    [destruct (code =? 200); run|];
    try (destruct (env_delete env) as [dcode dtext|de]; run;
         [destruct (acceptable_status dcode); run;
          [destruct (env_compactor env) as [ccode ctext|ce]; run|]|]);
    rewrite <- ?List.app_assoc;
    (erewrite new_events_app by (cbn [trace]; reflexivity));
    cbn [delete_payloads flat_map app In];
    intros H; repeat (destruct H as [<-|H]; [|]); try contradiction;
    unfold window_seconds, strftime, timedelta; cbn [start end_];
    rewrite Hnow;
    (replace (env_now_end env - 3 * 86400 * 1000000)
       with (env_now_end env - 7 * 86400 * 1000000 + 345600 * 1000000)
       by lia);
    rewrite Z.div_add by lia; lia.
Qed.

(** C2: the two ends of the window come from two readings of the clock.
    With the first reading at 00:00:00.999999 and the second two
    microseconds later, the delete request asks for a window of four days
    less one second. *)
Theorem cleanup_window_across_a_second :
  map window_seconds
    (delete_payloads
       (new_events started
          (snd (trigger_cleanup config_1gb_80
                  (healthy_cycle (data_tree (900 * MB)) (new_year + 999999) 2)
                  started))))
  = [4 * 86400 - 1].
Proof. vm_compute. reflexivity. Qed.

(** X2: the health check never raises; it answers [True] exactly when
    the readiness probe is answered with status 200. *)
Theorem health_check_is_a_total_predicate
  (cfg : config) (env : cycle_env) (st : state) :
  exists b,
    fst (is_loki_healthy cfg env st) = Ok b
    /\ (b = true <-> exists text, env_ready env = Response 200 text).
Proof.
  unfold is_loki_healthy.
  destruct (env_ready env) as [code text|e]; run.
  - exists (code =? 200). split; [reflexivity|]. rewrite Z.eqb_eq. split.
    + intros ->. now exists text.
    + intros [text' [= -> _]]. reflexivity.
  - exists false. split; [reflexivity|]. split; [discriminate|].
    intros [text [=]].
Qed.

(** *** Instances of the statements above at the sample inputs *)

Lemma window_of_four_days_on_new_year :
  window_seconds
    {| query := "{job=" ++ dquote ++ "container_monitoring" ++ dquote ++ "}";
       start := strftime (new_year - timedelta 7);
       end_ := strftime (new_year - timedelta 3) |}
  = 4 * 86400.
Proof.
  apply (window_with_one_clock_reading config_1gb_80
           (healthy_cycle (data_tree (900 * MB)) new_year 0) started).
  - vm_compute. reflexivity.
  - vm_compute. left. reflexivity.
Defined.


Lemma unhealthy_backend_aborts_cleanup_on_503 :
  fst (trigger_cleanup config_1gb_80
         (unhealthy_cycle (data_tree (900 * MB))) started)
  = Ok false
  /\ count is_post
       (new_events started
          (snd (trigger_cleanup config_1gb_80
                  (unhealthy_cycle (data_tree (900 * MB))) started)))
     = 0%nat.
Proof.
  split;
    apply (unhealthy_backend_aborts_cleanup config_1gb_80
             (unhealthy_cycle (data_tree (900 * MB))) started);
    vm_compute; reflexivity.
Defined.

Lemma cleanup_succeeds_when_compaction_fails :
  fst (trigger_cleanup config_1gb_80
         (failed_compaction_cycle (data_tree (900 * MB))) started)
  = Ok true
  /\ loki_cleanup_operations
       (metrics
          (snd (trigger_cleanup config_1gb_80
                  (failed_compaction_cycle (data_tree (900 * MB))) started)))
     = loki_cleanup_operations (metrics started) + 1
  /\ loki_cleanup_errors
       (metrics
          (snd (trigger_cleanup config_1gb_80
                  (failed_compaction_cycle (data_tree (900 * MB))) started)))
     = loki_cleanup_errors (metrics started).
Proof.
  apply (cleanup_result_follows_delete_answer config_1gb_80
           (failed_compaction_cycle (data_tree (900 * MB))) started).
  - vm_compute. reflexivity.
  - exists 202, EmptyString. split; [reflexivity|]. right. left. reflexivity.
Defined.

Lemma usage_gauge_for_11_MB_of_5_GB :
  exists q,
    truediv (11 * MB) (max_size_bytes (self started_default)) = Ok q
    /\ usage_gauge_after (11 * MB)
         (healthy_cycle (data_tree (11 * MB)) new_year 0) started_default
       = mul q hundred.
Proof.
  apply (usage_gauge_is_unrounded_product (11 * MB)
           (healthy_cycle (data_tree (11 * MB)) new_year 0) started_default);
    vm_compute; reflexivity.
Defined.

(** C5, as stated, fails: with the default limit of 5 GB and 11 MiB of
    data the exact percentage is the float [0.21484375], but the gauge
    holds [0.21484375000000003], which is [round(100 * size / max, n)] for
    no number [n] of decimals. *)
Lemma usage_gauge_is_not_a_rounded_percent :
  fst (update_metrics (11 * MB)
         (healthy_cycle (data_tree (11 * MB)) new_year 0) started_default)
  = Ok tt
  /\ usage_gauge_after (11 * MB)
       (healthy_cycle (data_tree (11 * MB)) new_year 0) started_default
     = drifted_percent
  /\ ~ (exists ndigits,
          rounded_percent ndigits (11 * MB)
            (max_size_bytes (self started_default))
          = Ok (usage_gauge_after (11 * MB)
                  (healthy_cycle (data_tree (11 * MB)) new_year 0)
                  started_default)).
Proof.
  assert (G : usage_gauge_after (11 * MB)
                (healthy_cycle (data_tree (11 * MB)) new_year 0)
                started_default
              = drifted_percent) by (vm_compute; reflexivity).
  split; [vm_compute; reflexivity|]. split; [exact G|].
  intros [ndigits H]. rewrite G in H. unfold rounded_percent in H.
  assert (E : truediv (100 * (11 * MB))
                (max_size_bytes (self started_default))
              = Ok exact_percent) by (vm_compute; reflexivity).
  rewrite E in H. injection H as H.
  exact (round_exact_percent_never_gauge ndigits H).
Qed.




Lemma metrics_survive_a_full_disk :
  exists fb gb fm fp pct content,
    update_metrics (11 * MB) (disk_full_cycle (data_tree (11 * MB)))
      started_default
    = (Ok tt,
       after_update started_default fb gb fm fp content
         (Log ERROR (ErrorSavingMetricsFile (OSError "No space left on device"))))
    /\ of_int (11 * MB) = Ok fb
    /\ bytes_to_gb (11 * MB) = Ok gb
    /\ of_int (max_size_bytes (self started_default)) = Ok fm
    /\ usage_percent_of (11 * MB) (max_size_bytes (self started_default))
       = Ok pct
    /\ to_float pct = Ok fp.
Proof.
  destruct (metrics_write_failure_is_contained (11 * MB)
              (disk_full_cycle (data_tree (11 * MB))) started_default)
    as (fb & gb & fm & fp & pct & content & last & E & H1 & H2 & H3 & H4
        & H5 & L); [vm_compute; reflexivity|vm_compute; reflexivity|].
  exists fb, gb, fm, fp, pct, content.
  rewrite (L _ eq_refl) in E. auto 10.
Defined.

Lemma threshold_bytes_for_1_GB_at_80_percent :
  threshold_bytes (self started)
  = Z.quot (max_size_bytes (self started)
            * CLEANUP_THRESHOLD_PERCENT config_1gb_80) 100
  /\ forall fuel envs s,
       threshold_bytes (self (snd (monitor_loop config_1gb_80 fuel envs s)))
       = threshold_bytes (self s).
Proof.
  destruct (threshold_bytes_truncated_and_fixed config_1gb_80 writable blank
              started)
    as (Q & _ & F); [vm_compute; reflexivity|vm_compute; reflexivity|].
  split; [exact Q|exact F].
Defined.

(** C9, as stated, fails: for 1 GB at 80 percent the product
    [max_size_bytes * 80] is not a multiple of 100, and [threshold_bytes]
    is 858993459 where the quotient is 858993459.2. *)
Lemma threshold_bytes_drops_the_fraction :
  __init__ config_1gb_80 writable blank = (Ok tt, started)
  /\ threshold_bytes (self started) = 858993459
  /\ threshold_bytes (self started) * 100
     <> max_size_bytes (self started)
        * CLEANUP_THRESHOLD_PERCENT config_1gb_80.
Proof.
  split; [vm_compute; reflexivity|]. split; [vm_compute; reflexivity|].
  vm_compute. discriminate.
Qed.

Lemma process_panels_keeps_the_sample_panels :
  exists fixed,
    Dashboard.process_panels (Dashboard.JArray sample_panels)
    = Ok (Dashboard.JArray fixed)
    /\ List.length fixed = List.length sample_panels
    /\ Forall2 Panels.same_panel sample_panels fixed.
Proof.
  apply (process_panels_keeps_every_panel sample_panels). reflexivity.
Defined.

End Instances.

(** * Further properties of the monitor *)

(** * What the loop adds to the trace *)

Section Adds.
Import PyFloat Monitor Observe.

Variable cfg : config.
Variable s : LokiStorageMonitor.

(** A property of stretches of the trace, with a budget: it holds of the
    empty stretch with no budget, of two stretches in a row with the sum
    of their budgets, and with any larger budget. *)
Variable P : nat -> list event -> Prop.

Hypothesis P_nil : P 0 [].
Hypothesis P_app :
  forall a b e1 e2, P a e1 -> P b e2 -> P (a + b) (e1 ++ e2).
Hypothesis P_mono : forall a b e, (a <= b)%nat -> P a e -> P b e.

(** It holds of every event that the monitor records outside of
    [trigger_cleanup], and of one run of [trigger_cleanup] with a budget
    of one. *)
Hypothesis P_log : forall l m, P 0 [Log l m].
Hypothesis P_gauge : forall g x, P 0 [GaugeSet g x].
Hypothesis P_sleep : forall n, P 0 [Sleep n].
Hypothesis P_write :
  forall content,
    P 0 [WriteFile (metrics_file (metrics_dir s)) content].
Hypothesis P_cleanup : forall env, adds s (P 1) (trigger_cleanup cfg env).

Lemma adds_weaken {A : Type} (a b : nat) (m : M A) :
  (a <= b)%nat -> adds s (P a) m -> adds s (P b) m.
Proof.
  intros L H st E. destruct (H st E) as (E1 & evs & E2 & H2).
  split; [exact E1|]. exists evs. split; [exact E2|]. now apply P_mono with a.
Qed.

Lemma adds_ret {A : Type} (a : A) : adds s (P 0) (ret a).
Proof.
  intros st E. split; [exact E|]. exists []. cbn. now rewrite app_nil_r.
Qed.

Lemma adds_raise {A : Type} (e : exn) : adds s (P 0) (@raise A e).
Proof.
  intros st E. split; [exact E|]. exists []. cbn. now rewrite app_nil_r.
Qed.

Lemma adds_lift {A : Type} (r : result A) : adds s (P 0) (lift r).
Proof.
  intros st E. split; [exact E|]. exists []. cbn. now rewrite app_nil_r.
Qed.

Lemma adds_bind {A B : Type} (a b : nat) (m : M A) (k : A -> M B) :
  adds s (P a) m -> (forall x, adds s (P b) (k x)) ->
  adds s (P (a + b)) (bind m k).
Proof.
  intros Hm Hk st E. unfold bind.
  destruct (Hm st E) as (E1 & evs & E2 & H2).
  destruct (m st) as [[x|e] st1]; cbn [snd] in *.
  - destruct (Hk x st1 E1) as (E3 & evs' & E4 & H4).
    split; [exact E3|]. exists (evs ++ evs').
    rewrite E4, E2, List.app_assoc. split; [reflexivity|]. now apply P_app.
  - split; [exact E1|]. exists evs. split; [exact E2|].
    apply P_mono with a; [lia|exact H2].
Qed.

Lemma adds_try_except {A : Type} (a b : nat) (m : M A) (h : exn -> M A) :
  adds s (P a) m -> (forall e, adds s (P b) (h e)) ->
  adds s (P (a + b)) (try_except m h).
Proof.
  intros Hm Hh st E. unfold try_except.
  destruct (Hm st E) as (E1 & evs & E2 & H2).
  destruct (m st) as [[x|e] st1]; cbn [snd] in *.
  - split; [exact E1|]. exists evs. split; [exact E2|].
    apply P_mono with a; [lia|exact H2].
  - destruct (Hh e st1 E1) as (E3 & evs' & E4 & H4).
    split; [exact E3|]. exists (evs ++ evs').
    rewrite E4, E2, List.app_assoc. split; [reflexivity|]. now apply P_app.
Qed.

(** The attributes read from [self] are those of [s]. *)
Lemma adds_with_self {A : Type} (a : nat) (k : LokiStorageMonitor -> M A) :
  adds s (P a) (k s) -> adds s (P a) (bind get_self k).
Proof.
  intros H st E. unfold bind, get_self. rewrite E. now apply H.
Qed.

Lemma adds_if {A : Type} (c : bool) (a b : nat) (m1 m2 : M A) :
  adds s (P a) m1 -> adds s (P b) m2 ->
  adds s (P (Nat.max a b)) (if c then m1 else m2).
Proof.
  intros H1 H2. destruct c.
  - apply adds_weaken with a; [lia|exact H1].
  - apply adds_weaken with b; [lia|exact H2].
Qed.

Lemma adds_emit (ev : event) : P 0 [ev] -> adds s (P 0) (emit ev).
Proof.
  intros H st E. split; [exact E|]. exists [ev]. split; [reflexivity|exact H].
Qed.

Lemma adds_log (l : level) (m : message) : adds s (P 0) (log l m).
Proof. apply adds_emit, P_log. Qed.

Lemma adds_gauge_set (g : gauge) (v : number) : adds s (P 0) (gauge_set g v).
Proof.
  intros st E. unfold gauge_set. run.
  destruct (to_float v) as [x|e]; run.
  - split; [exact E|]. exists [GaugeSet g x]. split; [reflexivity|].
    apply P_gauge.
  - split; [exact E|]. exists []. now rewrite app_nil_r.
Qed.

Lemma adds_sleep (n : Z) : adds s (P 0) (sleep n).
Proof.
  unfold sleep.
  destruct ((n <? - max_sleep) || (max_sleep <? n)); [apply adds_raise|].
  destruct (n <? 0).
  - apply adds_raise.
  - apply adds_emit, P_sleep.
Qed.

Lemma adds_get_directory_size (w : walk) :
  adds s (P 0) (get_directory_size w).
Proof.
  unfold get_directory_size.
  apply (adds_try_except 0 0); [apply adds_lift|].
  intros e. apply (adds_bind 0 0); [apply adds_log|intros; apply adds_ret].
Qed.

Lemma adds_update_metrics (size : Z) (env : cycle_env) :
  adds s (P 0) (update_metrics size env).
Proof.
  unfold update_metrics.
  apply (adds_bind 0 0); [apply adds_lift|intros gb].
  apply adds_with_self.
  apply (adds_bind 0 0); [apply adds_lift|intros pct].
  apply (adds_bind 0 0); [apply adds_gauge_set|intros _].
  apply (adds_bind 0 0); [apply adds_gauge_set|intros _].
  apply adds_with_self.
  apply (adds_bind 0 0); [apply adds_gauge_set|intros _].
  apply (adds_bind 0 0); [apply adds_gauge_set|intros _].
  apply adds_with_self.
  apply (adds_bind 0 0); [apply adds_lift|intros usage_text]. cbv zeta.
  apply (adds_try_except 0 0); [|intros e; apply adds_log].
  apply adds_with_self.
  apply (adds_bind 0 0); [apply adds_emit, P_write|intros _].
  apply (adds_bind 0 0); [|intros _; apply adds_log].
  destruct (env_write env); [apply adds_raise|apply adds_ret].
Qed.

Lemma adds_iteration (env : cycle_env) : adds s (P 1) (iteration cfg env).
Proof.
  unfold iteration.
  apply (adds_bind 0 1); [apply adds_get_directory_size|intros size].
  apply (adds_bind 0 1); [apply adds_lift|intros gb].
  apply adds_with_self.
  apply (adds_bind 0 1); [apply adds_lift|intros pct].
  apply (adds_bind 0 1); [apply adds_log|intros _].
  apply (adds_bind 0 1); [apply adds_update_metrics|intros _].
  apply adds_with_self.
  apply (adds_if _ 1 0); [|apply adds_log].
  apply (adds_bind 0 1); [apply adds_lift|intros tgb].
  apply (adds_bind 0 1); [apply adds_log|intros _].
  apply (adds_bind 1 0); [apply P_cleanup|intros cleaned].
  apply (adds_if _ 0 0); [|apply adds_log].
  apply (adds_bind 0 0); [apply adds_log|intros _; apply adds_sleep].
Qed.

Lemma adds_cycle (env : cycle_env) : adds s (P 1) (cycle cfg env).
Proof.
  unfold cycle.
  apply (adds_bind 1 0); [|intros _; apply adds_sleep].
  apply (adds_try_except 1 0); [apply adds_iteration|].
  intros e. apply adds_log.
Qed.

Lemma adds_turns (fuel : nat) (envs : nat -> cycle_env) (i : nat) :
  adds s (P fuel) (turns cfg fuel envs i).
Proof.
  revert i. induction fuel as [|fuel IH]; intros i; cbn [turns].
  - apply adds_ret.
  - apply (adds_bind 1 fuel); [apply adds_cycle|intros _; apply IH].
Qed.

Lemma adds_monitor_loop (fuel : nat) (envs : nat -> cycle_env) :
  adds s (P fuel) (monitor_loop cfg fuel envs).
Proof.
  unfold monitor_loop.
  apply (adds_bind 0 fuel); [apply adds_log|intros _; apply adds_turns].
Qed.

End Adds.

Section Requests.
Import PyFloat Monitor Observe.

Variable cfg : config.

Lemma orderly_app (a b : nat) (e1 e2 : list event) :
  orderly cfg a e1 -> orderly cfg b e2 -> orderly cfg (a + b) (e1 ++ e2).
Proof.
  unfold orderly, cleanup_runs. rewrite !count_app. lia.
Qed.

Lemma orderly_mono (a b : nat) (e : list event) :
  (a <= b)%nat -> orderly cfg a e -> orderly cfg b e.
Proof. unfold orderly. lia. Qed.

Lemma orderly_quiet (ev : event) :
  is_request ev = false -> orderly cfg 0 [ev].
Proof.
  destruct ev; cbn; intros H; try discriminate H;
    unfold orderly, cleanup_runs, count; cbn; lia.
Qed.

(** One run of [trigger_cleanup] sends the probe once, the delete
    request at most once, and the compaction request only after the
    delete request. *)
Lemma orderly_trigger_cleanup (s : LokiStorageMonitor) (env : cycle_env) :
  adds s (orderly cfg 1) (trigger_cleanup cfg env).
Proof.
  intros st E.
  unfold trigger_cleanup, is_loki_healthy.
  destruct (env_ready env) as [code text|e]; run;
    [destruct (code =? 200); run|];
    try (destruct (env_delete env) as [dcode dtext|de]; run;
         [destruct (acceptable_status dcode); run;
          [destruct (env_compactor env) as [ccode ctext|ce]; run|]|]);
    rewrite <- ?List.app_assoc;
    (split; [exact E|]);
    eexists; (split; [reflexivity|]);
    unfold orderly, cleanup_runs, count; simpl; rewrite String.eqb_refl;
    simpl; lia.
Qed.

(** X4: over any number of turns of the loop, whatever the environment
    answers, the monitor sends at most one readiness probe per turn, never
    more delete requests than probes, and never more compaction requests
    than delete requests. *)
Theorem loop_requests_are_orderly
  (fuel : nat) (envs : nat -> cycle_env) (st : state) :
  orderly cfg fuel (new_events st (snd (monitor_loop cfg fuel envs st))).
Proof.
  destruct (adds_monitor_loop cfg (self st) (orderly cfg)) with
    (fuel := fuel) (envs := envs) (st := st) as (_ & evs & E & H);
    try reflexivity.
  - unfold orderly, cleanup_runs, count. cbn. lia.
  - apply orderly_app.
  - apply orderly_mono.
  - intros. now apply orderly_quiet.
  - intros. now apply orderly_quiet.
  - intros. now apply orderly_quiet.
  - intros. now apply orderly_quiet.
  - intros. apply orderly_trigger_cleanup.
  - now rewrite (new_events_app _ _ _ E).
Qed.

End Requests.

(** * The delete window and the scan *)

Section Window.
Import PyFloat Monitor Observe.

Variable cfg : config.

(** X5: when the clock does not go back between its two readings, every
    delete request of [trigger_cleanup] selects the job
    [container_monitoring], ends at least three days before the first
    reading, and spans at most four days. *)
Theorem delete_window_is_bounded
  (env : cycle_env) (st : state) (p : cleanup_payload) :
  env_now_end env <= env_now_start env ->
  In p (delete_payloads (new_events st (snd (trigger_cleanup cfg env st)))) ->
  query p
  = ("{job=" ++ dquote ++ "container_monitoring" ++ dquote ++ "}")%string
  /\ end_ p * 1000000 <= env_now_end env - timedelta 3
  /\ window_seconds p <= 4 * 86400.
Proof.
  intros Hnow. unfold trigger_cleanup, is_loki_healthy.
  destruct (env_ready env) as [code text|e]; run;
    [destruct (code =? 200); run|];
    try (destruct (env_delete env) as [dcode dtext|de]; run;
         [destruct (acceptable_status dcode); run;
          [destruct (env_compactor env) as [ccode ctext|ce]; run|]|]);
    rewrite <- ?List.app_assoc;
    (erewrite new_events_app by (cbn [trace]; reflexivity));
    cbn [delete_payloads flat_map app In];
    intros H; repeat (destruct H as [<-|H]; [|]); try contradiction;
    unfold window_seconds, strftime, timedelta; cbn [start end_ query];
    (split; [reflexivity|]);
    (split; [rewrite Z.mul_comm; apply Z.mul_div_le; lia|]);
    (assert (L : (env_now_end env - 3 * 86400 * 1000000) / 1000000
                 <= (env_now_start env - 3 * 86400 * 1000000) / 1000000)
       by (apply Z.div_le_mono; lia));
    (replace (env_now_start env - 3 * 86400 * 1000000)
       with (env_now_start env - 7 * 86400 * 1000000 + 345600 * 1000000)
       in L by lia);
    rewrite Z.div_add in L by lia; lia.
Qed.

End Window.

Section Scan.
Import PyFloat Monitor Observe.

Variable cfg : config.

Lemma sum_files_unreadable (l : list dirent) (rest : walk) (p : dirent)
  (total : Z) :
  In p l -> unreadable p = true ->
  exists e, sum_files (yields l rest) total = Raise e.
Proof.
  intros Hin Hp. revert total.
  induction l as [|x l IH]; intros total; [contradiction|].
  cbn [yields fold_right sum_files]. fold (yields l rest).
  destruct Hin as [->|Hin].
  - unfold unreadable in Hp.
    destruct (is_file p) as [[|]|e]; try discriminate Hp.
    + destruct (st_size p) as [n|e]; [discriminate Hp|]. now exists e.
    + now exists e.
  - destruct (is_file x) as [[|]|e]; [|now apply IH|now exists e].
    destruct (st_size x) as [n|e]; [now apply IH|now exists e].
Qed.

Lemma of_int_0 : of_int 0 = Ok zero.
Proof. vm_compute. reflexivity. Qed.

(** X6: one entry of the walk that cannot be read, wherever it comes,
    makes the whole reading zero, not the sum of the files read so far:
    the turn of the loop goes on, sets the size gauge to zero and, the
    threshold not being negative, sends no request to the backend. *)
Theorem unreadable_entry_zeroes_the_reading
  (env : cycle_env) (st : state) (l : list dirent) (rest : walk)
  (p : dirent) :
  env_rglob env = yields l rest ->
  In p l -> unreadable p = true ->
  0 <= threshold_bytes (self st) ->
  Z.abs (max_size_bytes (self st)) < 2 ^ 1023 ->
  let st' := snd (iteration cfg env st) in
  fst (get_directory_size (env_rglob env) st) = Ok 0
  /\ fst (iteration cfg env st) = Ok tt
  /\ loki_data_size_bytes (metrics st') = zero
  /\ count is_request (new_events st st') = 0%nat.
Proof.
  intros Ew Hin Hp Hthr Bmax. cbv zeta.
  destruct (sum_files_unreadable l rest p 0 Hin Hp) as [e Ee].
  rewrite <- Ew in Ee.
  assert (E0 : get_directory_size (env_rglob env) st
               = (Ok 0,
                  {| self := self st; metrics := metrics st;
                     trace := trace st
                              ++ [Log ERROR
                                    (ErrorCalculatingDirectorySize e)] |})).
  { unfold get_directory_size. run. rewrite Ee. reflexivity. }
  assert (B0 : Z.abs 0 < 2 ^ 1023) by (cbn; lia).
  destruct (bytes_to_gb_returns 0 B0) as [gb Egb].
  destruct (usage_percent_of_returns 0 (max_size_bytes (self st)) B0)
    as [pct Epct].
  destruct (of_int_returns _ Bmax) as [fm Efm].
  destruct (to_float_usage_percent _ _ _ Epct) as [fp Efp].
  split; [now rewrite E0|].
  unfold iteration. run. rewrite E0. run. rewrite Egb. run.
  rewrite Epct. run.
  erewrite (update_metrics_run _ _ _ gb zero fm fp pct)
    by (cbn [self]; first [exact of_int_0 | eassumption]).
  unfold after_update. run.
  destruct (Z.gtb_spec 0 (threshold_bytes (self st))) as [G|G]; [lia|].
  run. rewrite <- !List.app_assoc.
  split; [reflexivity|]. split; [reflexivity|].
  erewrite new_events_app by (cbn [trace]; reflexivity).
  destruct (env_write env); reflexivity.
Qed.

(** The reading of a scan that comes to its end: nothing when an entry
    cannot be read, the sizes of the files otherwise. *)
Lemma sum_files_yields (l : list dirent) (total : Z) :
  match sum_files (yields l WEnd) total with
  | Ok n => existsb unreadable l = false
            /\ n = total + sum (map counted_size l)
  | Raise _ => existsb unreadable l = true
  end.
Proof.
  revert total. induction l as [|x l IH]; intros total.
  - cbn. split; [reflexivity|lia].
  - cbn [yields fold_right sum_files existsb map]. fold (yields l WEnd).
    change (sum (counted_size x :: map counted_size l))
      with (counted_size x + sum (map counted_size l)).
    set (ex := existsb unreadable l) in *.
    set (sm := sum (map counted_size l)) in *.
    unfold unreadable, counted_size.
    destruct (is_file x) as [[|]|e]; [| |reflexivity].
    + destruct (st_size x) as [n|e]; [|reflexivity].
      specialize (IH (total + n)).
      destruct (sum_files (yields l WEnd) (total + n)); cbn [orb].
      * destruct IH as [-> ->]. split; [reflexivity|lia].
      * exact IH.
    + specialize (IH total).
      destruct (sum_files (yields l WEnd) total); cbn [orb].
      * destruct IH as [-> ->]. split; [reflexivity|lia].
      * exact IH.
Qed.

Lemma existsb_permutation {A : Type} (f : A -> bool) (l l' : list A) :
  Permutation l l' -> existsb f l = existsb f l'.
Proof.
  induction 1; cbn; try congruence.
  now destruct (f x), (f y).
Qed.

Lemma sum_permutation (l l' : list Z) :
  Permutation l l' -> sum l = sum l'.
Proof.
  unfold sum. induction 1; cbn [fold_right]; lia.
Qed.

(** X7: the reading of [get_directory_size] does not depend on the order
    in which the scan yields the paths, also when some of them cannot be
    read. *)
Theorem directory_size_ignores_the_order
  (l l' : list dirent) (st st' : state) :
  Permutation l l' ->
  fst (get_directory_size (yields l WEnd) st)
  = fst (get_directory_size (yields l' WEnd) st').
Proof.
  intros HP. unfold get_directory_size. run.
  pose proof (sum_files_yields l 0) as H.
  pose proof (sum_files_yields l' 0) as H'.
  pose proof (existsb_permutation unreadable l l' HP) as HE.
  pose proof (sum_permutation _ _ (Permutation_map counted_size HP)) as HS.
  destruct (sum_files (yields l WEnd) 0) as [n|e],
           (sum_files (yields l' WEnd) 0) as [n'|e']; run.
  - destruct H as [_ ->], H' as [_ ->]. now rewrite HS.
  - destruct H as [H _]. congruence.
  - destruct H' as [H' _]. congruence.
  - reflexivity.
Qed.

End Scan.

Section ScanInstances.
Import PyFloat Monitor Observe Examples.

Lemma delete_window_on_new_year_with_a_late_second_reading :
  query
    {| query := "{job=" ++ dquote ++ "container_monitoring" ++ dquote ++ "}";
       start := strftime (new_year + 1500000 - timedelta 7);
       end_ := strftime (new_year - timedelta 3) |}
  = ("{job=" ++ dquote ++ "container_monitoring" ++ dquote ++ "}")%string
  /\ strftime (new_year - timedelta 3) * 1000000 <= new_year - timedelta 3
  /\ window_seconds
       {| query :=
            "{job=" ++ dquote ++ "container_monitoring" ++ dquote ++ "}";
          start := strftime (new_year + 1500000 - timedelta 7);
          end_ := strftime (new_year - timedelta 3) |}
     <= 4 * 86400.
Proof.
  apply (delete_window_is_bounded config_1gb_80
           (healthy_cycle (data_tree (900 * MB)) new_year 1500000) started).
  - vm_compute. discriminate.
  - vm_compute. left. reflexivity.
Defined.

Lemma vanished_file_zeroes_the_reading :
  fst (get_directory_size (env_rglob racy_cycle) started) = Ok 0
  /\ fst (iteration config_1gb_80 racy_cycle started) = Ok tt
  /\ loki_data_size_bytes
       (metrics (snd (iteration config_1gb_80 racy_cycle started)))
     = zero
  /\ count is_request
       (new_events started (snd (iteration config_1gb_80 racy_cycle started)))
     = 0%nat.
Proof.
  apply (unreadable_entry_zeroes_the_reading config_1gb_80 racy_cycle started
           [chunk (900 * MB); vanished; chunk (900 * MB)] WEnd vanished).
  - reflexivity.
  - right. left. reflexivity.
  - reflexivity.
  - vm_compute. discriminate.
  - vm_compute. reflexivity.
Defined.

Lemma directory_size_of_two_chunks_in_either_order :
  fst (get_directory_size (yields [chunk 5; chunk 7] WEnd) started)
  = fst (get_directory_size (yields [chunk 7; chunk 5] WEnd) blank).
Proof.
  apply (directory_size_ignores_the_order [chunk 5; chunk 7]
           [chunk 7; chunk 5] started blank).
  apply perm_swap.
Defined.

End ScanInstances.

(** * The start of the process *)

Section Process.
Import PyFloat Monitor Observe.

Variable cfg : config.

Lemma path_eqb_refl (q : path) : path_eqb q q = true.
Proof.
  induction q as [text|parent IH name]; cbn [path_eqb].
  - apply String.eqb_refl.
  - now rewrite IH, String.eqb_refl.
Qed.

(** What a run of [__init__] leaves: in the trace, the directories made,
    the probe file written and removed, and log entries, all of them on
    the configured directory or on the fallback; and, when it returns,
    the data directory of the configuration, the metrics directory that
    could be written, and one of the two directories writable. *)
Lemma init_runs (env : init_env) (st0 : state) :
  exists evs,
    trace (snd (__init__ cfg env st0)) = trace st0 ++ evs
    /\ forallb is_startup_event evs = true
    /\ (forall chosen,
          forallb (touches_only (METRICS_OUTPUT_DIR cfg) chosen) evs = true)
    /\ metrics (snd (__init__ cfg env st0)) = metrics st0
    /\ (fst (__init__ cfg env st0) = Ok tt ->
        data_dir (self (snd (__init__ cfg env st0))) = LOKI_DATA_DIR cfg
        /\ metrics_dir (self (snd (__init__ cfg env st0)))
           = metrics_dir_for cfg env
        /\ (env_probe env = None \/ env_fallback_mkdir env = None)).
Proof.
  unfold __init__, metrics_dir_for. run.
  destruct (mul_int (MAX_SIZE_GB cfg) 1024) as [x1|]; run;
    [|exists []; rewrite app_nil_r; repeat split; discriminate].
  destruct (mul_int x1 1024) as [x2|]; run;
    [|exists []; rewrite app_nil_r; repeat split; discriminate].
  destruct (mul_int x2 1024) as [x3|]; run;
    [|exists []; rewrite app_nil_r; repeat split; discriminate].
  destruct (to_int x3) as [max|]; run;
    [|exists []; rewrite app_nil_r; repeat split; discriminate].
  destruct (truediv (max * CLEANUP_THRESHOLD_PERCENT cfg) 100) as [q|];
    run; [|exists []; rewrite app_nil_r; repeat split; discriminate].
  destruct (to_int q) as [thr|]; run;
    [|exists []; rewrite app_nil_r; repeat split; discriminate].
  destruct (env_probe env) as [[[] e]|]; run;
    try (destruct (env_fallback_mkdir env) as [e'|]; run);
    rewrite <- ?List.app_assoc;
    eexists; (split; [reflexivity|]);
    (split; [reflexivity|]);
    (split;
     [intros chosen; cbn [forallb touches_only app]; unfold probe_file;
      cbn [path_eqb];
      rewrite ?String.eqb_refl, ?orb_true_r; reflexivity|]);
    (split; [reflexivity|]);
    intros H; try discriminate H; auto.
Qed.

(** X8: when the monitor is constructed, its metrics directory is the
    configured one if the probe of that directory succeeded and
    [/tmp/loki_metrics] if it failed; it is not constructed when neither
    can be made. *)
Theorem metrics_directory_falls_back (env : init_env) (st0 : state) :
  fst (__init__ cfg env st0) = Ok tt ->
  metrics_dir (self (snd (__init__ cfg env st0)))
  = match env_probe env with
    | None => METRICS_OUTPUT_DIR cfg
    | Some _ => "/tmp/loki_metrics"
    end
  /\ (env_probe env = None \/ env_fallback_mkdir env = None).
Proof.
  intros H. destruct (init_runs env st0) as (evs & _ & _ & _ & _ & I).
  destruct (I H) as (_ & D & W). split; [exact D|exact W].
Qed.

Lemma inner_events_app (t1 t2 : list main_event) :
  inner_events (t1 ++ t2) = inner_events t1 ++ inner_events t2.
Proof. unfold inner_events. apply flat_map_app. Qed.

Lemma inner_events_map (t : list event) : inner_events (map Inner t) = t.
Proof.
  unfold inner_events.
  induction t as [|ev t IH]; cbn [map flat_map app]; [reflexivity|].
  now rewrite IH.
Qed.


(** One run of [trigger_cleanup] leaves the file system as it is. *)
Lemma trigger_cleanup_writes_nothing (s : LokiStorageMonitor)
  (file : path) (env : cycle_env) :
  adds s (fun evs => forallb (writes_only file) evs = true)
    (trigger_cleanup cfg env).
Proof.
  intros st E.
  unfold trigger_cleanup, is_loki_healthy.
  destruct (env_ready env) as [code text|e]; run;
    [destruct (code =? 200); run|];
    try (destruct (env_delete env) as [dcode dtext|de]; run;
         [destruct (acceptable_status dcode); run;
          [destruct (env_compactor env) as [ccode ctext|ce]; run|]|]);
    rewrite <- ?List.app_assoc;
    (split; [exact E|]);
    eexists; (split; [reflexivity|]); reflexivity.
Qed.

Lemma monitor_loop_writes (fuel : nat) (envs : nat -> cycle_env)
  (st : state) :
  exists evs,
    trace (snd (monitor_loop cfg fuel envs st)) = trace st ++ evs
    /\ forallb (writes_only (metrics_file (metrics_dir (self st)))) evs
       = true.
Proof.
  destruct (adds_monitor_loop cfg (self st)
              (fun _ evs =>
                 forallb (writes_only (metrics_file (metrics_dir (self st))))
                   evs = true))
    with (fuel := fuel) (envs := envs) (st := st) as (_ & evs & E & H);
    try reflexivity.
  - intros a b e1 e2 H1 H2. rewrite forallb_app, H1, H2. reflexivity.
  - intros a b e _ H. exact H.
  - intros content. cbn [forallb writes_only]. now rewrite path_eqb_refl.
  - intros env. apply trigger_cleanup_writes_nothing.
  - exists evs. split; assumption.
Qed.

Lemma writes_only_touches_only (configured chosen : string)
  (evs : list event) :
  forallb (writes_only (metrics_file chosen)) evs = true ->
  forallb (touches_only configured chosen) evs = true.
Proof.
  induction evs as [|ev evs IH]; [reflexivity|].
  cbn [forallb]. rewrite !andb_true_iff. intros [H1 H2].
  split; [|exact (IH H2)].
  destruct ev; try discriminate H1; try reflexivity. exact H1.
Qed.

(** X9: every call by which a run of the process changes the file system,
    over any number of turns, is one of these: the mkdir of the configured
    metrics directory or of [/tmp/loki_metrics], the write and the removal
    of the probe file [test_write.tmp] in the configured directory, and
    the write of [loki_metrics.prom] in the directory chosen at the start
    (the configured one, or [/tmp/loki_metrics] when the probe of the
    configured one has failed). *)
Theorem process_touches_its_own_files_only
  (fuel : nat) (env : main_env) (r : registry) :
  forallb
    (touches_only (METRICS_OUTPUT_DIR cfg)
       (metrics_dir_for cfg (env_init env)))
    (inner_events (events (main cfg fuel env r)))
  = true.
Proof.
  unfold main. destruct (env_server env) as [e|]; [reflexivity|].
  unfold bind.
  destruct (init_runs (env_init env) (before_init r))
    as (evs & Et & _ & Q & _ & I).
  specialize (Q (metrics_dir_for cfg (env_init env))).
  destruct (__init__ cfg (env_init env) (before_init r)) as [[[]|e] st1];
    cbn [fst snd] in *.
  - destruct (I eq_refl) as (_ & D & _).
    destruct (monitor_loop_writes fuel (env_cycles env) st1)
      as (evs' & Et' & Q').
    rewrite D in Q'.
    apply (writes_only_touches_only (METRICS_OUTPUT_DIR cfg)) in Q'.
    assert (T : forallb
                  (touches_only (METRICS_OUTPUT_DIR cfg)
                     (metrics_dir_for cfg (env_init env)))
                  (trace (snd (monitor_loop cfg fuel (env_cycles env) st1)))
                = true).
    { rewrite Et', Et, !forallb_app, Q', Q. reflexivity. }
    destruct (monitor_loop cfg fuel (env_cycles env) st1) as [[[]|e] st2];
      cbn [events snd] in *;
      rewrite !inner_events_app, inner_events_map; cbn [inner_events flat_map app];
      rewrite ?app_nil_r; exact T.
  - cbn [events]. rewrite !inner_events_app, inner_events_map.
    cbn [inner_events flat_map app]. rewrite app_nil_r, Et.
    cbn [before_init trace app]. exact Q.
Qed.



(** The exception of [time.sleep] on a length that it does not
    accept. *)
Lemma sleep_refused (n : Z) (st : state) :
  n < 0 \/ max_sleep < n ->
  sleep n st
  = (Raise (if (n <? - max_sleep) || (max_sleep <? n)
            then OverflowError else ValueError), st).
Proof.
  intros H. unfold sleep.
  destruct ((n <? - max_sleep) || (max_sleep <? n)) eqn:O; [reflexivity|].
  apply orb_false_iff in O. destruct O as [_ O].
  apply Z.ltb_ge in O.
  destruct (Z.ltb_spec n 0); [reflexivity|lia].
Qed.

Lemma cycle_refused_interval (env : cycle_env) (st : state) :
  CHECK_INTERVAL cfg < 0 \/ max_sleep < CHECK_INTERVAL cfg ->
  fst (cycle cfg env st)
  = Raise (if (CHECK_INTERVAL cfg <? - max_sleep)
              || (max_sleep <? CHECK_INTERVAL cfg)
           then OverflowError else ValueError).
Proof.
  intros H. unfold cycle. unfold bind, try_except.
  destruct (iteration cfg env st) as [[[]|e] st1]; run;
    now rewrite (sleep_refused _ _ H).
Qed.

(** X11: a check interval that [time.sleep] does not accept, negative or
    above 9223372036 seconds, is fatal at the end of the first turn: once
    started, the process does one turn of the loop, measurement and
    cleanup included, and exits with status 1 on the exception of the
    sleep, a [ValueError] for a negative interval down to -9223372036
    seconds and an [OverflowError] beyond; what it did does not depend on
    the turns it was given. *)
Theorem refused_interval_stops_after_one_turn
  (fuel : nat) (env : main_env) (r : registry) :
  CHECK_INTERVAL cfg < 0 \/ max_sleep < CHECK_INTERVAL cfg ->
  env_server env = None ->
  fst (__init__ cfg (env_init env) (before_init r)) = Ok tt ->
  main cfg (S fuel) env r = main cfg 1 env r
  /\ exit_status (main cfg (S fuel) env r) = Some 1
  /\ exists t,
       events (main cfg (S fuel) env r)
       = t ++ [MainLog ERROR
                 (FatalError
                    (if (CHECK_INTERVAL cfg <? - max_sleep)
                        || (max_sleep <? CHECK_INTERVAL cfg)
                     then OverflowError else ValueError));
               Exit 1].
Proof.
  intros Hi Hs Hinit.
  set (refusal := if (CHECK_INTERVAL cfg <? - max_sleep)
                     || (max_sleep <? CHECK_INTERVAL cfg)
                  then OverflowError else ValueError) in *.
  assert (E : forall n,
             main cfg (S n) env r
             = let st1 := snd (__init__ cfg (env_init env) (before_init r)) in
               let st2 :=
                 snd (cycle cfg (env_cycles env 0%nat)
                        (snd (log INFO StartingLoop st1))) in
               {| events :=
                    [StartHttpServer (METRICS_PORT cfg);
                     MainLog INFO (MetricsServerStarted (METRICS_PORT cfg))]
                    ++ map Inner (trace st2)
                    ++ [MainLog ERROR (FatalError refusal); Exit 1];
                  exit_status := Some 1;
                  final := st2 |}).
  { intros n. unfold main. rewrite Hs. unfold bind at 1.
    destruct (__init__ cfg (env_init env) (before_init r)) as [[[]|e] st1];
      cbn [fst snd] in *; [|discriminate Hinit].
    unfold monitor_loop. cbn [turns]. unfold bind at 1. unfold log at 1.
    unfold emit at 1. cbv beta iota. unfold bind at 1.
    pose proof (cycle_refused_interval (env_cycles env 0%nat)
                  (snd (log INFO StartingLoop st1)) Hi) as C.
    fold refusal in C.
    unfold log, emit in C. cbn [snd] in C.
    cbv zeta. unfold log at 1. unfold emit at 1. cbn [snd].
    destruct (cycle cfg (env_cycles env 0%nat) _) as [[[]|e] st2];
      cbn [fst] in C; [discriminate C|]. injection C as ->. reflexivity. }
  split; [now rewrite (E fuel), (E 0%nat)|].
  rewrite (E fuel). cbv zeta. cbn [exit_status events].
  split; [reflexivity|].
  eexists. rewrite List.app_assoc. reflexivity.
Qed.

End Process.

Section ProcessInstances.
Import PyFloat Monitor Observe Examples.

Lemma read_only_directory_falls_back_to_tmp :
  metrics_dir (self (snd (__init__ config_1gb_80 read_only blank)))
  = "/tmp/loki_metrics"
  /\ (env_probe read_only = None \/ env_fallback_mkdir read_only = None).
Proof.
  apply (metrics_directory_falls_back config_1gb_80 read_only blank).
  vm_compute. reflexivity.
Defined.


Lemma refused_intervals_stop_the_calm_process :
  (main config_negative_interval 5 calm fresh_registry
   = main config_negative_interval 1 calm fresh_registry
   /\ exit_status (main config_negative_interval 5 calm fresh_registry)
      = Some 1
   /\ exists t,
        events (main config_negative_interval 5 calm fresh_registry)
        = t ++ [MainLog ERROR (FatalError ValueError); Exit 1])
  /\ (main config_long_interval 5 calm fresh_registry
      = main config_long_interval 1 calm fresh_registry
      /\ exit_status (main config_long_interval 5 calm fresh_registry)
         = Some 1
      /\ exists t,
           events (main config_long_interval 5 calm fresh_registry)
           = t ++ [MainLog ERROR (FatalError OverflowError); Exit 1]).
Proof.
  split.
  - apply (refused_interval_stops_after_one_turn config_negative_interval 4
             calm fresh_registry).
    + left. vm_compute. reflexivity.
    + reflexivity.
    + vm_compute. reflexivity.
  - apply (refused_interval_stops_after_one_turn config_long_interval 4
             calm fresh_registry).
    + right. vm_compute. reflexivity.
    + reflexivity.
    + vm_compute. reflexivity.
Defined.

End ProcessInstances.

(** * The metrics file and the threshold *)

Section File.
Import PyFloat Monitor Observe.

Variable cfg : config.

(** X12: a call of [update_metrics] that returns attempts one write, of
    [loki_metrics.prom] in the metrics directory.  The text to be written
    carries the two counts of bytes as the ints of which the gauges hold
    the floats, the size in GB as it is on its gauge, and the usage as
    the value on its gauge formatted with two decimals.  The two counters
    stay as they are, and the error of the write is logged exactly when
    the write has failed. *)
Theorem metrics_file_agrees_with_gauges
  (size : Z) (env : cycle_env) (st : state) :
  fst (update_metrics size env st) = Ok tt ->
  let st' := snd (update_metrics size env st) in
  exists content,
    attempted_writes (new_events st st')
    = [(metrics_file (metrics_dir (self st)), content)]
    /\ of_int (content_data_size_bytes content)
       = Ok (loki_data_size_bytes (metrics st'))
    /\ content_data_size_gb content = loki_data_size_gb (metrics st')
    /\ of_int (content_max_size_bytes content)
       = Ok (loki_max_size_bytes (metrics st'))
    /\ content_usage_percent content
       = format_2f (loki_usage_percent (metrics st'))
    /\ loki_cleanup_operations (metrics st')
       = loki_cleanup_operations (metrics st)
    /\ loki_cleanup_errors (metrics st') = loki_cleanup_errors (metrics st)
    /\ forall e,
         In (Log ERROR (ErrorSavingMetricsFile e)) (new_events st st')
         <-> env_write env = Some e.
Proof.
  cbv zeta. unfold update_metrics. run.
  destruct (bytes_to_gb size) as [gb|]; run; [|intros X; discriminate X].
  destruct (usage_percent_of size (max_size_bytes (self st))) as [pct|];
    run; [|intros X; discriminate X].
  cbn [to_float].
  destruct (of_int size) as [fb|] eqn:Efb; run; [|intros X; discriminate X].
  destruct (of_int (max_size_bytes (self st))) as [fm|] eqn:Efm; run;
    [|intros X; discriminate X].
  destruct (to_float pct) as [fp|] eqn:Efp; run; [|intros X; discriminate X].
  unfold format_number_2f. rewrite Efp. run.
  intros _.
  exists {| content_data_size_bytes := size;
            content_data_size_gb := gb;
            content_max_size_bytes := max_size_bytes (self st);
            content_usage_percent := format_2f fp |}.
  cbn [content_data_size_bytes content_data_size_gb content_max_size_bytes
       content_usage_percent].
  destruct (env_write env) as [e0|]; run; rewrite <- !List.app_assoc;
    (erewrite new_events_app by (cbn [trace]; reflexivity));
    cbn [registry_set loki_data_size_bytes loki_data_size_gb
         loki_max_size_bytes loki_usage_percent loki_cleanup_operations
         loki_cleanup_errors];
    (split; [reflexivity|]);
    do 6 (split; [auto|]);
    intros e; cbn [In app]; split.
  - intros H. repeat (destruct H as [H|H]; try discriminate H).
    + now injection H as ->.
    + contradiction.
  - intros [= ->]. auto 10.
  - intros H. repeat (destruct H as [H|H]; try discriminate H).
    contradiction.
  - discriminate.
Qed.

(** X13: with a threshold percentage between 0 and 100, the threshold
    that [__init__] computes for a maximum that is not negative lies
    between zero and the maximum. *)
Theorem threshold_within_the_maximum (env : init_env) (st0 : state) :
  fst (__init__ cfg env st0) = Ok tt ->
  0 <= CLEANUP_THRESHOLD_PERCENT cfg <= 100 ->
  0 <= max_size_bytes (self (snd (__init__ cfg env st0))) < 2 ^ 46 ->
  0 <= threshold_bytes (self (snd (__init__ cfg env st0)))
    <= max_size_bytes (self (snd (__init__ cfg env st0))).
Proof.
  intros H Hp Hm.
  destruct (__init__ cfg env st0) as [r st] eqn:E. cbn [fst snd] in *.
  subst r. destruct (init_attributes cfg env st0 st E)
    as (x1 & x2 & x3 & q & _ & _ & _ & _ & Eq & Et).
  set (max := max_size_bytes (self st)) in *.
  set (pct := CLEANUP_THRESHOLD_PERCENT cfg) in *.
  assert (B : Z.abs (max * pct) < 2 ^ 53).
  { rewrite Z.abs_eq by nia.
    assert (max * pct <= max * 100) by nia.
    assert (2 ^ 46 * 100 < 2 ^ 53) by (vm_compute; reflexivity).
    nia. }
  destruct (to_int_truediv_100 (max * pct) B) as (q' & Eq' & Et').
  rewrite Eq in Eq'. injection Eq' as <-.
  rewrite Et in Et'. injection Et' as ->.
  rewrite Z.quot_div_nonneg by nia.
  split.
  - apply Z.div_pos; nia.
  - apply Z.div_le_upper_bound; nia.
Qed.

End File.

Section FileInstances.
Import PyFloat Monitor Observe Examples.

Lemma metrics_file_of_700_MB :
  exists content,
    attempted_writes
      (new_events started
         (snd (update_metrics (700 * MB)
                 (healthy_cycle (data_tree (700 * MB)) new_year 0) started)))
    = [(metrics_file (metrics_dir (self started)), content)]
    /\ of_int (content_data_size_bytes content)
       = Ok (loki_data_size_bytes
               (metrics
                  (snd (update_metrics (700 * MB)
                          (healthy_cycle (data_tree (700 * MB)) new_year 0)
                          started))))
    /\ content_data_size_gb content
       = loki_data_size_gb
           (metrics
              (snd (update_metrics (700 * MB)
                      (healthy_cycle (data_tree (700 * MB)) new_year 0)
                      started)))
    /\ of_int (content_max_size_bytes content)
       = Ok (loki_max_size_bytes
               (metrics
                  (snd (update_metrics (700 * MB)
                          (healthy_cycle (data_tree (700 * MB)) new_year 0)
                          started))))
    /\ content_usage_percent content
       = format_2f
           (loki_usage_percent
              (metrics
                 (snd (update_metrics (700 * MB)
                         (healthy_cycle (data_tree (700 * MB)) new_year 0)
                         started))))
    /\ loki_cleanup_operations
         (metrics
            (snd (update_metrics (700 * MB)
                    (healthy_cycle (data_tree (700 * MB)) new_year 0)
                    started)))
       = loki_cleanup_operations (metrics started)
    /\ loki_cleanup_errors
         (metrics
            (snd (update_metrics (700 * MB)
                    (healthy_cycle (data_tree (700 * MB)) new_year 0)
                    started)))
       = loki_cleanup_errors (metrics started)
    /\ forall e,
         In (Log ERROR (ErrorSavingMetricsFile e))
           (new_events started
              (snd (update_metrics (700 * MB)
                      (healthy_cycle (data_tree (700 * MB)) new_year 0)
                      started)))
         <-> env_write (healthy_cycle (data_tree (700 * MB)) new_year 0)
             = Some e.
Proof.
  apply (metrics_file_agrees_with_gauges (700 * MB)
           (healthy_cycle (data_tree (700 * MB)) new_year 0) started).
  vm_compute. reflexivity.
Defined.

Lemma threshold_of_the_default_configuration :
  0 <= threshold_bytes (self (snd (__init__ default_config writable blank)))
    <= max_size_bytes (self (snd (__init__ default_config writable blank))).
Proof.
  apply (threshold_within_the_maximum default_config writable blank).
  - vm_compute. reflexivity.
  - vm_compute. split; discriminate.
  - vm_compute. split; [discriminate|reflexivity].
Defined.

End FileInstances.

(** * Further properties of the dashboard fixer *)

(** * Which targets the fixer keeps *)

Section Names.
Import Dashboard Panels.

Lemma prefix_nil (name : string) :
  name <> EmptyString -> String.prefix name EmptyString = false.
Proof. destruct name; [congruence|reflexivity]. Qed.

Lemma contains_nil (name : string) :
  name <> EmptyString -> contains name EmptyString = false.
Proof. destruct name; [congruence|reflexivity]. Qed.

Lemma ends_visible_nonempty (name : string) :
  ends_visible name = true -> name <> EmptyString.
Proof. destruct name; [discriminate|discriminate]. Qed.

Lemma prefix_space (name : string) (c : ascii) (rest : string) :
  starts_visible name = true -> is_space c = true ->
  String.prefix name (String c rest) = false.
Proof.
  destruct name as [|a name]; [discriminate|]. cbn [starts_visible prefix].
  intros V S. destruct (ascii_dec a c) as [->|]; [|reflexivity].
  rewrite S in V. discriminate V.
Qed.

Lemma contains_lstrip (name s : string) :
  starts_visible name = true -> contains name (lstrip s) = contains name s.
Proof.
  intros V. induction s as [|c rest IH]; [reflexivity|].
  cbn [lstrip]. destruct (is_space c) eqn:S; [|reflexivity].
  rewrite IH. cbn [contains]. now rewrite (prefix_space name c rest V S).
Qed.

Lemma prefix_rstrip (s name : string) :
  ends_visible name = true ->
  String.prefix name (rstrip s) = String.prefix name s.
Proof.
  revert name. induction s as [|a rest IH]; intros name V; [reflexivity|].
  destruct name as [|c name']; [discriminate V|].
  cbn [rstrip].
  destruct name' as [|c' name''].
  - cbn [ends_visible] in V.
    destruct (rstrip rest) as [|b R].
    + destruct (is_space a) eqn:S; cbn [prefix].
      * destruct (ascii_dec c a) as [->|]; [|reflexivity].
        rewrite S in V. discriminate V.
      * destruct (ascii_dec c a); [destruct rest|]; reflexivity.
    + cbn [prefix]. destruct (ascii_dec c a); [destruct rest|]; reflexivity.
  - assert (V' : ends_visible (String c' name'') = true) by exact V.
    specialize (IH _ V').
    destruct (rstrip rest) as [|b R].
    + rewrite (prefix_nil _ (ends_visible_nonempty _ V')) in IH.
      destruct (is_space a); cbn [prefix];
        destruct (ascii_dec c a); try reflexivity; try exact IH.
    + change (String.prefix (String c (String c' name'')) (String a (String b R)))
        with (if ascii_dec c a
              then String.prefix (String c' name'') (String b R) else false).
      change (String.prefix (String c (String c' name'')) (String a rest))
        with (if ascii_dec c a
              then String.prefix (String c' name'') rest else false).
      now rewrite IH.
Qed.

Lemma contains_rstrip (name s : string) :
  ends_visible name = true -> contains name (rstrip s) = contains name s.
Proof.
  intros V. pose proof (ends_visible_nonempty _ V) as N.
  induction s as [|a rest IH]; [reflexivity|].
  pose proof (prefix_rstrip (String a rest) name V) as P.
  cbn [rstrip] in *.
  destruct (rstrip rest) as [|b R].
  - rewrite (contains_nil _ N) in IH.
    change (contains name (String a rest))
      with (String.prefix name (String a rest) || contains name rest).
    rewrite <- IH, <- P.
    destruct (is_space a).
    + unfold contains. now rewrite orb_false_r.
    + change (contains name (String a EmptyString))
        with (String.prefix name (String a EmptyString)
              || contains name EmptyString).
      now rewrite (contains_nil _ N).
  - change (contains name (String a (String b R)))
      with (String.prefix name (String a (String b R))
            || contains name (String b R)).
    change (contains name (String a rest))
      with (String.prefix name (String a rest) || contains name rest).
    now rewrite IH, P.
Qed.

Lemma contains_strip (name s : string) :
  starts_visible name = true -> ends_visible name = true ->
  contains name (strip s) = contains name s.
Proof.
  intros V1 V2. unfold strip.
  now rewrite contains_rstrip, contains_lstrip.
Qed.

Lemma available_metrics_visible :
  forallb (fun name => starts_visible name && ends_visible name)
    AVAILABLE_METRICS
  = true.
Proof. vm_compute. reflexivity. Qed.

Lemma existsb_ext_in {A : Type} (f g : A -> bool) (l : list A) :
  (forall x, In x l -> f x = g x) -> existsb f l = existsb g l.
Proof.
  induction l as [|x l IH]; intros H; [reflexivity|].
  cbn [existsb]. rewrite (H x (or_introl eq_refl)), IH; [reflexivity|].
  intros y Hy. apply H. now right.
Qed.

Lemma uses_available_metric_strip (s : string) :
  uses_available_metric (strip s) = uses_available_metric s.
Proof.
  unfold uses_available_metric. apply existsb_ext_in. intros name Hin.
  pose proof available_metrics_visible as V.
  rewrite forallb_forall in V. specialize (V name Hin).
  apply andb_true_iff in V. destruct V as [V1 V2].
  now apply contains_strip.
Qed.

Lemma uses_available_metric_nil :
  uses_available_metric EmptyString = false.
Proof. vm_compute. reflexivity. Qed.

Lemma is_valid_expr_strip (s : string) :
  is_valid_expr (strip s) = uses_available_metric s.
Proof.
  unfold is_valid_expr. rewrite uses_available_metric_strip.
  destruct (strip s =? EmptyString)%string eqn:E; [|reflexivity].
  apply String.eqb_eq in E.
  rewrite <- (uses_available_metric_strip s), E.
  now rewrite uses_available_metric_nil.
Qed.

(** X14: the loop of [fix_panel_targets] keeps a target exactly when its
    [expr] is a string that contains the name of one of the available
    metrics; the stripping of the expression and the test that it is not
    empty never change the outcome.  A target without [expr] is
    dropped. *)
Theorem target_kept_iff_it_names_a_metric (d : dict) :
  keeps (JObject d)
  = match dict_get "expr" d with
    | Some (JString s) => uses_available_metric s
    | _ => false
    end.
Proof.
  unfold keeps, target_expr.
  destruct (dict_get "expr" d) as [[| | | |s| |]|]; try reflexivity.
  apply is_valid_expr_strip.
Qed.

End Names.

(** * Panels that make the fixer fail, and panels fixed twice *)

Section Failures.
Import Dashboard Panels.

Lemma map_result_raises {A B : Type} (f : A -> result B) (l : list A)
  (x : A) (e : exn) :
  In x l -> f x = Raise e -> exists e', map_result f l = Raise e'.
Proof.
  intros Hin Hx. induction l as [|y l IH]; [contradiction|].
  cbn [map_result]. destruct Hin as [->|Hin].
  - rewrite Hx. now exists e.
  - destruct (f y) as [y'|e1]; [|now exists e1].
    destruct (IH Hin) as [e' ->]. now exists e'.
Qed.

Lemma dict_apply_raises (key : string) (f : json -> result json) (d : dict)
  (v : json) (e : exn) :
  dict_get key d = Some v -> f v = Raise e -> dict_apply key f d = Raise e.
Proof.
  intros Hget Hf. induction d as [|[k w] d IH]; [discriminate Hget|].
  cbn [dict_get dict_apply] in *.
  destruct (k =? key)%string.
  - injection Hget as ->. now rewrite Hf.
  - now rewrite (IH Hget).
Qed.

(** X15: a value that is not an object in the place of a panel, in the
    list or nested at any depth in its rows, makes [process_panels] raise:
    no panel is skipped in silence, and no list of fixed panels is
    returned. *)
Theorem malformed_panel_fails_the_run (p v : json) :
  panel_of p v -> is_object p = false ->
  exists e, process_panels v = Raise e.
Proof.
  intros H Hp. induction H as [items Hin|items d nested Hin Hrow Hget _ IH].
  - rewrite process_panels_array.
    destruct (map_result_raises (process_panel process_panels) items p
                AttributeError Hin) as [e' ->].
    + destruct p; try reflexivity. discriminate Hp.
    + now exists e'.
  - destruct IH as [e He].
    rewrite process_panels_array.
    destruct (map_result_raises (process_panel process_panels) items
                (JObject d) e Hin) as [e' ->].
    + cbn [process_panel]. rewrite Hrow.
      now rewrite (dict_apply_raises "panels" process_panels d nested e Hget He).
    + now exists e'.
Qed.

Lemma filter_keeps_valid (items valid : list json) :
  valid_targets_of items = Ok valid -> valid_targets_of valid = Ok valid.
Proof.
  revert valid. induction items as [|t items IH]; intros valid; cbn.
  - now intros [= <-].
  - destruct (target_expr t) as [expr|] eqn:Et; [|discriminate].
    destruct (valid_targets_of items) as [r|]; [|discriminate].
    specialize (IH r eq_refl).
    destruct (is_valid_expr expr) eqn:Ev; intros [= <-]; [|exact IH].
    cbn. now rewrite Et, IH, Ev.
Qed.

Lemma dict_set_set (key : string) (v w : json) (d : dict) :
  dict_set key v (dict_set key w d) = dict_set key v d.
Proof.
  induction d as [|[k x] d IH]; cbn.
  - now rewrite String.eqb_refl.
  - destruct (k =? key)%string eqn:E; cbn; rewrite E; [reflexivity|].
    now rewrite IH.
Qed.

Lemma is_annotated_type_set (key : string) (v : json) (d : dict) :
  key <> "type" ->
  is_annotated_type (dict_set key v d) = is_annotated_type d.
Proof.
  intros N. unfold is_annotated_type.
  rewrite dict_get_set_other by congruence. reflexivity.
Qed.

(** What [fix_panel_targets] does to a panel whose targets are a list of
    well-formed targets. *)
Lemma fix_panel_targets_cases (d : dict) (items : list json) :
  dict_get "targets" d = Some (JArray items) ->
  forallb well_formed_target items = true ->
  fix_panel_targets d
  = if match filter keeps items with [] => true | _ => false end
       && is_annotated_type d
    then
      match annotated_description d with
      | Raise e => Raise e
      | Ok description =>
          Ok (dict_set "targets" (JArray (filter keeps items))
                (dict_set "description" description d))
      end
    else Ok (dict_set "targets" (JArray (filter keeps items)) d).
Proof.
  intros Ht Hw. unfold fix_panel_targets. rewrite Ht. cbn [py_iter].
  destruct (valid_targets_of_returns items Hw) as [valid Ev].
  rewrite Ev. rewrite <- (valid_targets_of_filter items valid Ev).
  reflexivity.
Qed.

(** X16: on a panel whose targets are a list of well-formed targets,
    [fix_panel_targets] fails in one case only: none of the targets is
    kept, the panel is a timeseries, a stat or a gauge, and its
    description is there and is not a string; the exception is then a
    [TypeError]. *)
Theorem description_must_be_a_string (d : dict) (items : list json) :
  dict_get "targets" d = Some (JArray items) ->
  forallb well_formed_target items = true ->
  ((exists e, fix_panel_targets d = Raise e)
   <-> filter keeps items = []
       /\ is_annotated_type d = true
       /\ exists v, dict_get "description" d = Some v /\ is_string v = false)
  /\ forall e, fix_panel_targets d = Raise e -> e = TypeError.
Proof.
  intros Ht Hw. rewrite (fix_panel_targets_cases d items Ht Hw).
  unfold annotated_description.
  destruct (filter keeps items) as [|t kept]; cbn [andb].
  - destruct (is_annotated_type d).
    + destruct (dict_get "description" d) as [v|].
      * destruct v; (split; [split|]);
          try (intros [e X]; discriminate X);
          try (intros (_ & _ & v & [= <-] & X); discriminate X);
          try (intros e X; discriminate X);
          try (intros _; repeat split; eexists; split; reflexivity);
          try (intros _; now exists TypeError);
          try (now intros e [= <-]).
      * split; [split|].
        -- intros [e X]. discriminate X.
        -- intros (_ & _ & v & X & _). discriminate X.
        -- intros e X. discriminate X.
    + split; [split|].
      * intros [e X]. discriminate X.
      * intros (_ & X & _). discriminate X.
      * intros e X. discriminate X.
  - split; [split|].
    + intros [e X]. discriminate X.
    + intros (X & _). discriminate X.
    + intros e X. discriminate X.
Qed.

(** X17: the note is added on every run.  A timeseries, stat or gauge
    panel with a description none of whose targets is kept gets the note
    at the end of its description, and the fixed panel, fixed again, gets
    it a second time. *)
Theorem note_is_added_on_every_run
  (d : dict) (items : list json) (s : string) :
  dict_get "targets" d = Some (JArray items) ->
  forallb well_formed_target items = true ->
  filter keeps items = [] ->
  is_annotated_type d = true ->
  dict_get "description" d = Some (JString s) ->
  exists d1 d2,
    fix_panel_targets d = Ok d1
    /\ fix_panel_targets d1 = Ok d2
    /\ dict_get "description" d1 = Some (JString (s ++ NOTE))
    /\ dict_get "description" d2 = Some (JString ((s ++ NOTE) ++ NOTE)).
Proof.
  intros Ht Hw Hk Ha Hd.
  set (d1 := dict_set "targets" (JArray [])
               (dict_set "description" (JString (s ++ NOTE)) d)).
  assert (E1 : fix_panel_targets d = Ok d1).
  { rewrite (fix_panel_targets_cases d items Ht Hw), Hk, Ha.
    unfold annotated_description. now rewrite Hd. }
  assert (Ht1 : dict_get "targets" d1 = Some (JArray [])).
  { apply dict_get_set_same. }
  assert (Hd1 : dict_get "description" d1 = Some (JString (s ++ NOTE))).
  { unfold d1. rewrite dict_get_set_other by discriminate.
    apply dict_get_set_same. }
  assert (Ha1 : is_annotated_type d1 = true).
  { unfold d1. rewrite !is_annotated_type_set by discriminate. exact Ha. }
  exists d1,
    (dict_set "targets" (JArray [])
       (dict_set "description" (JString ((s ++ NOTE) ++ NOTE)) d1)).
  split; [exact E1|]. split; [|split; [exact Hd1|]].
  - rewrite (fix_panel_targets_cases d1 [] Ht1 eq_refl). cbn [filter andb].
    rewrite Ha1. unfold annotated_description. now rewrite Hd1.
  - rewrite dict_get_set_other by discriminate. apply dict_get_set_same.
Qed.

(** X18: when it adds no note, [fix_panel_targets] is idempotent: a panel
    that keeps one of its targets, or that is no timeseries, stat or
    gauge, is left as it is when it is fixed again. *)
Theorem fixing_again_changes_nothing
  (d d1 : dict) (items : list json) :
  dict_get "targets" d = Some (JArray items) ->
  filter keeps items <> [] \/ is_annotated_type d = false ->
  fix_panel_targets d = Ok d1 ->
  fix_panel_targets d1 = Ok d1.
Proof.
  intros Ht Hn. unfold fix_panel_targets at 1. rewrite Ht. cbn [py_iter].
  destruct (valid_targets_of items) as [valid|] eqn:Ev; [|discriminate].
  pose proof (valid_targets_of_filter items valid Ev) as Hf.
  pose proof (filter_keeps_valid items valid Ev) as Ev'.
  fold (is_annotated_type d).
  assert (N : match valid with [] => true | _ :: _ => false end
              && is_annotated_type d = false).
  { destruct Hn as [Hn| ->]; [|apply andb_false_r].
    rewrite <- Hf in Hn. destruct valid; [congruence|reflexivity]. }
  rewrite N. intros [= <-].
  unfold fix_panel_targets. rewrite dict_get_set_same. cbn [py_iter].
  rewrite Ev'. fold (is_annotated_type (dict_set "targets" (JArray valid) d)).
  rewrite is_annotated_type_set by discriminate. rewrite N.
  now rewrite dict_set_set.
Qed.

End Failures.

Section FailureInstances.
Import Dashboard Panels Examples.

Lemma string_in_a_row_fails_the_run :
  exists e, process_panels (JArray [JObject broken_row]) = Raise e.
Proof.
  apply (malformed_panel_fails_the_run (JString "oops")
           (JArray [JObject broken_row])).
  - apply (panel_below _ [JObject broken_row] broken_row
             (JArray [JObject queue_panel; JString "oops"])).
    + left. reflexivity.
    + reflexivity.
    + reflexivity.
    + apply panel_here. right. left. reflexivity.
  - reflexivity.
Defined.

Lemma null_description_is_a_type_error :
  fix_panel_targets undescribed_panel = Raise TypeError.
Proof.
  assert (T : dict_get "targets" undescribed_panel
              = Some (JArray
                        [JObject [("expr", JString "disk_free_bytes")]]))
    by reflexivity.
  destruct (description_must_be_a_string undescribed_panel _ T eq_refl)
    as [[_ R] U].
  destruct R as [e He].
  - split; [vm_compute; reflexivity|]. split; [reflexivity|].
    exists JNull. split; reflexivity.
  - rewrite He. f_equal. exact (U e He).
Defined.

Lemma disk_panel_is_annotated_twice :
  exists d1 d2,
    fix_panel_targets disk_panel = Ok d1
    /\ fix_panel_targets d1 = Ok d2
    /\ dict_get "description" d1 = Some (JString ("Disk" ++ NOTE))
    /\ dict_get "description" d2
       = Some (JString (("Disk" ++ NOTE) ++ NOTE)).
Proof.
  apply (note_is_added_on_every_run disk_panel
           [JObject [("expr", JString "disk_free_bytes")]] "Disk").
  - reflexivity.
  - reflexivity.
  - vm_compute. reflexivity.
  - reflexivity.
  - reflexivity.
Defined.

Lemma queue_panel_is_fixed_once :
  fix_panel_targets
    (dict_set "targets"
       (JArray [JObject [("expr", JString "queue_size")]]) queue_panel)
  = Ok (dict_set "targets"
          (JArray [JObject [("expr", JString "queue_size")]]) queue_panel).
Proof.
  apply (fixing_again_changes_nothing queue_panel _
           [JObject [("expr", JString "queue_size")];
            JObject [("expr", JString "disk_free_bytes")]]).
  - reflexivity.
  - left. vm_compute. discriminate.
  - vm_compute. reflexivity.
Defined.

End FailureInstances.

(** * The driver of the dashboard fixer *)

Section Driver.
Import Dashboard Panels.

Lemma replace_from_absent (old new s : string) :
  contains old s = false -> replace_from old new 0 s = s.
Proof.
  induction s as [|c rest IH]; [reflexivity|].
  cbn [contains replace_from]. intros H.
  apply orb_false_iff in H. destruct H as [H1 H2].
  rewrite H1. now rewrite (IH H2).
Qed.

Ltac next_character s :=
  let c := fresh "c" in
  destruct s as [|c s]; [reflexivity|];
  cbn [append prefix];
  match goal with
  | |- context [ascii_dec ?a c] =>
      destruct (ascii_dec a c); [|reflexivity]
  end.

(** An occurrence of [.json] cannot begin in a string and end in a
    [.json] that follows it. *)
Lemma prefix_json_app (s : string) :
  s <> EmptyString ->
  String.prefix ".json" (s ++ ".json")%string = String.prefix ".json" s.
Proof.
  intros N. destruct s as [|c0 s]; [congruence|]. cbn [append prefix].
  destruct (ascii_dec "." c0); [|reflexivity].
  do 4 next_character s.
  destruct s; reflexivity.
Qed.

Lemma replace_json_suffix (stem : string) :
  contains ".json" stem = false ->
  replace ".json" "-fixed.json" (stem ++ ".json")
  = (stem ++ "-fixed.json")%string.
Proof.
  unfold replace. induction stem as [|c rest IH]; [reflexivity|].
  intros H. pose proof H as H'.
  cbn [contains] in H. apply orb_false_iff in H. destruct H as [H1 H2].
  change ((String c rest ++ ".json")%string)
    with (String c (rest ++ ".json")%string).
  cbn [replace_from].
  change (String c (rest ++ ".json")%string)
    with ((String c rest ++ ".json")%string).
  rewrite prefix_json_app by discriminate. rewrite H1.
  rewrite (IH H2). reflexivity.
Qed.

Ltac io :=
  cbv beta iota delta
    [fix_dashboard fix_dashboard_body io_bind io_ret io_lift call
     Dashboard.print];
  cbn [fst snd app].

(** What a run of [fix_dashboard] that returns has done. *)
Lemma fix_dashboard_returns (env : io_env) (path out : string) :
  snd (fix_dashboard env path) = Ok out ->
  exists d d' before after,
    env_load env = Ok (JObject d)
    /\ panels_count d = Ok before
    /\ (if dict_mem "panels" d
        then dict_apply "panels" process_panels d
        else Ok d) = Ok d'
    /\ panels_count d' = Ok after
    /\ out = replace ".json" "-fixed.json" path
    /\ fst (fix_dashboard env path)
       = [Print (Reading path); OpenRead path;
          Print (Title match dict_get "title" d with
                       | Some v => v
                       | None => JString "Unknown"
                       end);
          Print (PanelsBefore before); Print (PanelsAfter after);
          Print (Saving out); OpenWrite out; Dump out (JObject d');
          Print Done].
Proof.
  io.
  destruct (env_print env (Reading path)); io; [discriminate|].
  destruct (env_load env) as [[| | | | | |d]|e]; cbn [as_dict]; io;
    try discriminate.
  destruct (env_print env (Title _)); io; [discriminate|].
  destruct (panels_count d) as [before|] eqn:Eb; io; [|discriminate].
  destruct (env_print env (PanelsBefore before)); io; [discriminate|].
  match goal with
  | |- context [if dict_mem "panels" d then ?a else ?b] =>
      destruct (if dict_mem "panels" d then a else b) as [d'|] eqn:Ef
  end; io; [|discriminate].
  destruct (panels_count d') as [after|] eqn:Ea; io; [|discriminate].
  destruct (env_print env (PanelsAfter after)); io; [discriminate|].
  destruct (env_print env (Saving _)); io; [discriminate|].
  destruct (env_open env); io; [discriminate|].
  destruct (env_dump env); io; [discriminate|].
  destruct (env_print env Done); io; [discriminate|].
  intros [= <-].
  exists d, d', before, after. repeat split; try assumption; reflexivity.
Qed.

(** The file is opened for writing only once the dashboard is loaded as
    an object and its panels are processed. *)
Lemma fix_dashboard_opens (env : io_env) (path : string) :
  files_opened (fst (fix_dashboard env path)) = []
  \/ exists d d',
       env_load env = Ok (JObject d)
       /\ (if dict_mem "panels" d
           then dict_apply "panels" process_panels d
           else Ok d) = Ok d'.
Proof.
  io.
  destruct (env_print env (Reading path)); io; [now left|].
  destruct (env_load env) as [[| | | | | |d]|e]; cbn [as_dict]; io;
    try (now left).
  destruct (env_print env (Title _)); io; [now left|].
  destruct (panels_count d) as [before|]; io; [|now left].
  destruct (env_print env (PanelsBefore before)); io; [now left|].
  match goal with
  | |- context [if dict_mem "panels" d then ?a else ?b] =>
      destruct (if dict_mem "panels" d then a else b) as [d'|] eqn:Ef
  end; io; [|now left].
  right. now exists d, d'.
Qed.

Lemma dict_mem_get (key : string) (d : dict) :
  dict_mem key d = true <-> exists v, dict_get key d = Some v.
Proof.
  unfold dict_mem. destruct (dict_get key d) as [v|].
  - split; [now exists v|reflexivity].
  - split; [discriminate|intros [v X]; discriminate X].
Qed.

Lemma Forall2_length_eq {A B : Type} (R : A -> B -> Prop) (l : list A)
  (l' : list B) :
  Forall2 R l l' -> List.length l = List.length l'.
Proof. induction 1; cbn; congruence. Qed.

(** The number of panels that [len] counts in what [process_panels]
    takes and in what it returns. *)
Lemma process_panels_count (panels r : json) :
  process_panels panels = Ok r ->
  exists n, py_len panels = Ok n /\ py_len r = Ok n.
Proof.
  intros H. destruct (proj1 (process_panels_sound panels) r H)
    as (items & fixed & Ei & -> & F).
  apply Forall2_length_eq in F.
  destruct panels as [| | | |s|l|m]; try discriminate Ei.
  - destruct s; [|discriminate H]. injection Ei as <-.
    exists 0. destruct fixed; [split; reflexivity|discriminate F].
  - injection Ei as <-. exists (Z.of_nat (List.length l)).
    cbn [py_len]. now rewrite F.
  - destruct m; [|discriminate H]. injection Ei as <-.
    exists 0. destruct fixed; [split; reflexivity|discriminate F].
Qed.

(** X19: when [fix_dashboard] returns, it has written one file: the
    dashboard it has loaded, an object, with every key but [panels] as it
    was and the panels each fixed in its place.  The path of the file is
    the one returned, and the counts of panels printed before and after
    are the same number. *)
Theorem fixed_dashboard_is_written_once (env : io_env) (path out : string) :
  snd (fix_dashboard env path) = Ok out ->
  exists d d' n,
    env_load env = Ok (JObject d)
    /\ files_written (fst (fix_dashboard env path)) = [(out, JObject d')]
    /\ (forall key, key <> "panels" -> dict_get key d' = dict_get key d)
    /\ match dict_get "panels" d with
       | None => d' = d
       | Some panels =>
           exists items fixed,
             py_iter panels = Ok items
             /\ dict_get "panels" d' = Some (JArray fixed)
             /\ Forall2 same_panel items fixed
       end
    /\ In (Print (PanelsBefore n)) (fst (fix_dashboard env path))
    /\ In (Print (PanelsAfter n)) (fst (fix_dashboard env path)).
Proof.
  intros H.
  destruct (fix_dashboard_returns env path out H)
    as (d & d' & before & after & El & Eb & Ef & Ea & _ & Et).
  rewrite Et. cbn [files_written flat_map app].
  unfold panels_count, dict_mem in *.
  destruct (dict_get "panels" d) as [panels|] eqn:Ep.
  - destruct (dict_apply_ok "panels" process_panels d d' Ef)
      as (v & v' & Ev & Epp & Ev' & Ek).
    rewrite Ep in Ev. injection Ev as <-.
    destruct (proj1 (process_panels_sound panels) v' Epp)
      as (items & fixed & Ei & -> & F).
    destruct (process_panels_count panels _ Epp) as (n & En & En').
    rewrite Ev' in Ea. rewrite En in Eb. rewrite En' in Ea.
    injection Eb as <-. injection Ea as <-.
    exists d, d', n. rewrite Ep. split; [exact El|]. split; [reflexivity|].
    split; [exact Ek|]. split; [now exists items, fixed|].
    cbn [In]. split; auto 10.
  - injection Ef as <-. rewrite Ep in Ea.
    injection Eb as <-. injection Ea as <-.
    exists d, d, 0. rewrite Ep. split; [exact El|]. split; [reflexivity|].
    split; [reflexivity|]. split; [reflexivity|].
    cbn [In]. split; auto 10.
Qed.

(** X20: [fix_dashboard] opens a file for writing only once the
    dashboard is loaded as an object and [process_panels] has returned
    for its panels: a dashboard that cannot be loaded, that is no object,
    or one of whose panels makes [process_panels] fail, leaves every file
    as it is, whatever else fails in the run. *)
Theorem output_opened_only_after_processing (env : io_env) (path : string) :
  files_opened (fst (fix_dashboard env path)) = []
  \/ exists d,
       env_load env = Ok (JObject d)
       /\ match dict_get "panels" d with
          | None => True
          | Some panels => exists fixed, process_panels panels = Ok fixed
          end.
Proof.
  destruct (fix_dashboard_opens env path) as [H|(d & d' & El & Ef)];
    [now left|right].
  exists d. split; [exact El|].
  unfold dict_mem in Ef.
  destruct (dict_get "panels" d) as [panels|] eqn:Ep; [|exact I].
  destruct (dict_apply_ok "panels" process_panels d d' Ef)
    as (v & v' & Ev & Epp & _).
  rewrite Ep in Ev. injection Ev as <-. now exists v'.
Qed.

(** X21: for a path that ends in [.json] and has no other [.json] in it,
    the file that [fix_dashboard] writes and returns is the path with
    [-fixed.json] in the place of the ending. *)
Theorem output_path_of_a_json_path (stem : string) (env : io_env)
  (out : string) :
  contains ".json" stem = false ->
  snd (fix_dashboard env (stem ++ ".json")) = Ok out ->
  out = (stem ++ "-fixed.json")%string
  /\ map fst (files_written (fst (fix_dashboard env (stem ++ ".json"))))
     = [(stem ++ "-fixed.json")%string].
Proof.
  intros Hs H.
  destruct (fix_dashboard_returns env _ out H)
    as (d & d' & before & after & _ & _ & _ & _ & Eo & Et).
  rewrite (replace_json_suffix stem Hs) in Eo.
  rewrite Et, Eo. split; reflexivity.
Qed.

(** X22: for a path without [.json] in it, the file that [fix_dashboard]
    writes is the file it has read: the dashboard is overwritten with its
    fixed version. *)
Theorem path_without_json_is_overwritten (path : string) (env : io_env)
  (out : string) :
  contains ".json" path = false ->
  snd (fix_dashboard env path) = Ok out ->
  out = path
  /\ map fst (files_written (fst (fix_dashboard env path))) = [path].
Proof.
  intros Hs H.
  destruct (fix_dashboard_returns env _ out H)
    as (d & d' & before & after & _ & _ & _ & _ & Eo & Et).
  unfold replace in Eo. rewrite (replace_from_absent _ _ _ Hs) in Eo.
  rewrite Et, Eo. split; reflexivity.
Qed.

End Driver.

Section DriverInstances.
Import Dashboard Panels Examples.

Lemma sample_dashboard_is_written_once :
  exists d d' n,
    env_load (quiet_io (Ok sample_dashboard)) = Ok (JObject d)
    /\ files_written
         (fst (fix_dashboard (quiet_io (Ok sample_dashboard)) "/d/logs.json"))
       = [("/d/logs-fixed.json", JObject d')]
    /\ (forall key, key <> "panels" -> dict_get key d' = dict_get key d)
    /\ match dict_get "panels" d with
       | None => d' = d
       | Some panels =>
           exists items fixed,
             py_iter panels = Ok items
             /\ dict_get "panels" d' = Some (JArray fixed)
             /\ Forall2 same_panel items fixed
       end
    /\ In (Print (PanelsBefore n))
         (fst (fix_dashboard (quiet_io (Ok sample_dashboard)) "/d/logs.json"))
    /\ In (Print (PanelsAfter n))
         (fst (fix_dashboard (quiet_io (Ok sample_dashboard)) "/d/logs.json")).
Proof.
  apply (fixed_dashboard_is_written_once (quiet_io (Ok sample_dashboard))
           "/d/logs.json" "/d/logs-fixed.json").
  vm_compute. reflexivity.
Defined.

Lemma broken_dashboard_is_not_opened :
  files_opened
    (fst (fix_dashboard (quiet_io (Ok broken_dashboard)) "/d/logs.json"))
  = [].
Proof.
  destruct (output_opened_only_after_processing
              (quiet_io (Ok broken_dashboard)) "/d/logs.json")
    as [H|(d & El & Hp)]; [exact H|].
  injection El as <-. vm_compute in Hp. destruct Hp as [fixed Hp].
  discriminate Hp.
Defined.

Lemma sample_dashboard_goes_to_logs_fixed :
  "/d/logs-fixed.json" = ("/d/logs" ++ "-fixed.json")%string
  /\ map fst
       (files_written
          (fst (fix_dashboard (quiet_io (Ok sample_dashboard))
                  ("/d/logs" ++ ".json"))))
     = [("/d/logs" ++ "-fixed.json")%string].
Proof.
  apply (output_path_of_a_json_path "/d/logs"
           (quiet_io (Ok sample_dashboard)) "/d/logs-fixed.json").
  - vm_compute. reflexivity.
  - vm_compute. reflexivity.
Defined.

Lemma dashboard_without_the_ending_is_overwritten :
  "/d/logs.JSON" = "/d/logs.JSON"
  /\ map fst
       (files_written
          (fst (fix_dashboard (quiet_io (Ok sample_dashboard))
                  "/d/logs.JSON")))
     = ["/d/logs.JSON"].
Proof.
  apply (path_without_json_is_overwritten "/d/logs.JSON"
           (quiet_io (Ok sample_dashboard)) "/d/logs.JSON").
  - vm_compute. reflexivity.
  - vm_compute. reflexivity.
Defined.

End DriverInstances.
